(** * mxt_debug_dump: the maXTouch diagnostic dump tool

    A shallow embedding of [src/tools/mxt_debug_dump/mxt_debug_dump.c] and
    the properties of its paging protocol, frame assembly and serialization.

    Conventions of the embedding:
    - C [int] values are [Z]; the fixed-width unsigned types of the source
      ([uint8_t], [uint16_t], [unsigned int]) are [Z] with the wrap-around
      written out ([u8], [u16], [u32]);
    - the register transport, the object table, the chip identity, the
      allocator, the file system and the wall clock are collaborators of the
      tool: they are the fields of a [platform] record, and their state is
      threaded through a [world];
    - every register access and every [LOG] call is appended to the [trace]
      of the world, every [fprintf] to the contents of its file;
    - console output ([printf]) is not modelled;
    - the memory reached through [data_buf] is a store indexed by the cell
      offset, so that a write past the allocated [x_size * y_size] cells is
      visible as a binding at that offset. *)

From Stdlib Require Import ZArith Lia Ascii.
From stdpp Require Import gmap strings list fin_maps pretty.

Local Open Scope Z_scope.

(** ** Fixed-width integers *)

Definition u8 (z : Z) : Z := z mod 256.
Definition u16 (z : Z) : Z := z mod 65536.
Definition u32 (z : Z) : Z := z mod 4294967296.

(** [(int16_t)v] for a [uint16_t] [v]. *)
Definition to_int16 (v : Z) : Z :=
  if u16 v <? 32768 then u16 v else u16 v - 65536.

(** An [unsigned int] read through the [%d] conversion. *)
Definition to_int32 (v : Z) : Z :=
  if u32 v <? 2147483648 then u32 v else u32 v - 4294967296.

(** ** Constants of the source *)

Definition MXT_CP_T6_DIAGNOSTIC_OFFSET : Z := 0x05.
Definition PAGE_UP : Z := 0x01.
Definition PAGE_DOWN : Z := 0x02.
Definition DELTAS_MODE : Z := 0x10.
Definition REFS_MODE : Z := 0x11.

(** ** Collaborators *)

(** The fields of [struct tm] that the [%T] conversion reads. *)
Record tm := Tm { tm_hour : Z; tm_min : Z; tm_sec : Z }.

(** What the tool consumes from libmaxtouch and from libc.  [ext] is the
    state of the outside world (the chip behind the transport, the clock).
    A register access returns the C return value, the bytes transferred to
    the caller's buffer (for a read) and the next state. *)
Record platform (ext : Type) := Platform {
  mxt_read_register : ext → Z → Z → Z * list Z * ext;
  mxt_write_register : ext → list Z → Z → Z → Z * ext;
  get_object_address : Z → Z → Z;
  get_object_size : Z → Z;
  OBJECT_NOT_FOUND : Z;
  GEN_COMMANDPROCESSOR_T6 : Z;
  DEBUG_DIAGNOSTIC_T37 : Z;
  family_id : Z;
  variant_id : Z;
  matrix_x_size : Z;
  matrix_y_size : Z;
  (** [localtime(time(NULL))]: [None] is the NULL result. *)
  localtime_now : ext → option tm;
  (** [malloc] of [n] elements: [None] is NULL, [Some cells] the
      indeterminate initial contents of the block, one entry per element. *)
  malloc_u8 : ext → Z → option (list Z);
  malloc_u16 : ext → Z → option (list Z);
  (** whether [fopen(name, "w")] succeeds *)
  fopen_ok : ext → string → bool;
}.

Arguments mxt_read_register {ext} _ _ _ _.
Arguments mxt_write_register {ext} _ _ _ _ _.
Arguments get_object_address {ext} _ _ _.
Arguments get_object_size {ext} _ _.
Arguments OBJECT_NOT_FOUND {ext} _.
Arguments GEN_COMMANDPROCESSOR_T6 {ext} _.
Arguments DEBUG_DIAGNOSTIC_T37 {ext} _.
Arguments family_id {ext} _.
Arguments variant_id {ext} _.
Arguments matrix_x_size {ext} _.
Arguments matrix_y_size {ext} _.
Arguments localtime_now {ext} _ _.
Arguments malloc_u8 {ext} _ _ _.
Arguments malloc_u16 {ext} _ _ _.
Arguments fopen_ok {ext} _ _ _.

Inductive log_level := LOG_VERBOSE | LOG_INFO | LOG_ERROR.

Inductive event :=
  | EvWrite (addr : Z) (data : list Z) (ret : Z)
  | EvRead (addr : Z) (count : Z) (ret : Z) (data : list Z)
  | EvLog (lvl : log_level) (msg : string).

Record world (ext : Type) := World {
  ext_state : ext;
  trace : list event;
  files : gmap string string;
}.

Arguments World {ext} _ _ _.
Arguments ext_state {ext} _.
Arguments trace {ext} _.
Arguments files {ext} _.

(** ** [struct mxt_debug_data] *)

Record mxt_debug_data := Mxt_dd {
  x_size : Z;
  y_size : Z;
  num_stripes : Z;
  stripe_width : Z;
  stripe_starty : Z;
  stripe_endy : Z;
  page_size : Z;
  mode : Z;
  diag_cmd_addr : Z;
  t37_addr : Z;
  t37_size : Z;
  frame : Z;
  stripe : Z;
  page : Z;
  x_ptr : Z;
  y_ptr : Z;
  page_buf : list Z;
  data_buf : gmap Z Z;
  hawkeye : string;
}.

Definition set_x_size (v : Z) (d : mxt_debug_data) : mxt_debug_data :=
  Mxt_dd v (y_size d) (num_stripes d) (stripe_width d) (stripe_starty d)
    (stripe_endy d) (page_size d) (mode d) (diag_cmd_addr d) (t37_addr d)
    (t37_size d) (frame d) (stripe d) (page d) (x_ptr d) (y_ptr d)
    (page_buf d) (data_buf d) (hawkeye d).

Definition set_y_size (v : Z) (d : mxt_debug_data) : mxt_debug_data :=
  Mxt_dd (x_size d) v (num_stripes d) (stripe_width d) (stripe_starty d)
    (stripe_endy d) (page_size d) (mode d) (diag_cmd_addr d) (t37_addr d)
    (t37_size d) (frame d) (stripe d) (page d) (x_ptr d) (y_ptr d)
    (page_buf d) (data_buf d) (hawkeye d).

Definition set_num_stripes (v : Z) (d : mxt_debug_data) : mxt_debug_data :=
  Mxt_dd (x_size d) (y_size d) v (stripe_width d) (stripe_starty d)
    (stripe_endy d) (page_size d) (mode d) (diag_cmd_addr d) (t37_addr d)
    (t37_size d) (frame d) (stripe d) (page d) (x_ptr d) (y_ptr d)
    (page_buf d) (data_buf d) (hawkeye d).

Definition set_stripe_width (v : Z) (d : mxt_debug_data) : mxt_debug_data :=
  Mxt_dd (x_size d) (y_size d) (num_stripes d) v (stripe_starty d)
    (stripe_endy d) (page_size d) (mode d) (diag_cmd_addr d) (t37_addr d)
    (t37_size d) (frame d) (stripe d) (page d) (x_ptr d) (y_ptr d)
    (page_buf d) (data_buf d) (hawkeye d).

Definition set_stripe_starty (v : Z) (d : mxt_debug_data) : mxt_debug_data :=
  Mxt_dd (x_size d) (y_size d) (num_stripes d) (stripe_width d) v
    (stripe_endy d) (page_size d) (mode d) (diag_cmd_addr d) (t37_addr d)
    (t37_size d) (frame d) (stripe d) (page d) (x_ptr d) (y_ptr d)
    (page_buf d) (data_buf d) (hawkeye d).

Definition set_stripe_endy (v : Z) (d : mxt_debug_data) : mxt_debug_data :=
  Mxt_dd (x_size d) (y_size d) (num_stripes d) (stripe_width d)
    (stripe_starty d) v (page_size d) (mode d) (diag_cmd_addr d)
    (t37_addr d) (t37_size d) (frame d) (stripe d) (page d) (x_ptr d)
    (y_ptr d) (page_buf d) (data_buf d) (hawkeye d).

Definition set_page_size (v : Z) (d : mxt_debug_data) : mxt_debug_data :=
  Mxt_dd (x_size d) (y_size d) (num_stripes d) (stripe_width d)
    (stripe_starty d) (stripe_endy d) v (mode d) (diag_cmd_addr d)
    (t37_addr d) (t37_size d) (frame d) (stripe d) (page d) (x_ptr d)
    (y_ptr d) (page_buf d) (data_buf d) (hawkeye d).

Definition set_mode (v : Z) (d : mxt_debug_data) : mxt_debug_data :=
  Mxt_dd (x_size d) (y_size d) (num_stripes d) (stripe_width d)
    (stripe_starty d) (stripe_endy d) (page_size d) v (diag_cmd_addr d)
    (t37_addr d) (t37_size d) (frame d) (stripe d) (page d) (x_ptr d)
    (y_ptr d) (page_buf d) (data_buf d) (hawkeye d).

Definition set_diag_cmd_addr (v : Z) (d : mxt_debug_data) : mxt_debug_data :=
  Mxt_dd (x_size d) (y_size d) (num_stripes d) (stripe_width d)
    (stripe_starty d) (stripe_endy d) (page_size d) (mode d) v (t37_addr d)
    (t37_size d) (frame d) (stripe d) (page d) (x_ptr d) (y_ptr d)
    (page_buf d) (data_buf d) (hawkeye d).

Definition set_t37_addr (v : Z) (d : mxt_debug_data) : mxt_debug_data :=
  Mxt_dd (x_size d) (y_size d) (num_stripes d) (stripe_width d)
    (stripe_starty d) (stripe_endy d) (page_size d) (mode d)
    (diag_cmd_addr d) v (t37_size d) (frame d) (stripe d) (page d) (x_ptr d)
    (y_ptr d) (page_buf d) (data_buf d) (hawkeye d).

Definition set_t37_size (v : Z) (d : mxt_debug_data) : mxt_debug_data :=
  Mxt_dd (x_size d) (y_size d) (num_stripes d) (stripe_width d)
    (stripe_starty d) (stripe_endy d) (page_size d) (mode d)
    (diag_cmd_addr d) (t37_addr d) v (frame d) (stripe d) (page d) (x_ptr d)
    (y_ptr d) (page_buf d) (data_buf d) (hawkeye d).

Definition set_frame (v : Z) (d : mxt_debug_data) : mxt_debug_data :=
  Mxt_dd (x_size d) (y_size d) (num_stripes d) (stripe_width d)
    (stripe_starty d) (stripe_endy d) (page_size d) (mode d)
    (diag_cmd_addr d) (t37_addr d) (t37_size d) v (stripe d) (page d)
    (x_ptr d) (y_ptr d) (page_buf d) (data_buf d) (hawkeye d).

Definition set_stripe (v : Z) (d : mxt_debug_data) : mxt_debug_data :=
  Mxt_dd (x_size d) (y_size d) (num_stripes d) (stripe_width d)
    (stripe_starty d) (stripe_endy d) (page_size d) (mode d)
    (diag_cmd_addr d) (t37_addr d) (t37_size d) (frame d) v (page d)
    (x_ptr d) (y_ptr d) (page_buf d) (data_buf d) (hawkeye d).

Definition set_page (v : Z) (d : mxt_debug_data) : mxt_debug_data :=
  Mxt_dd (x_size d) (y_size d) (num_stripes d) (stripe_width d)
    (stripe_starty d) (stripe_endy d) (page_size d) (mode d)
    (diag_cmd_addr d) (t37_addr d) (t37_size d) (frame d) (stripe d) v
    (x_ptr d) (y_ptr d) (page_buf d) (data_buf d) (hawkeye d).

Definition set_x_ptr (v : Z) (d : mxt_debug_data) : mxt_debug_data :=
  Mxt_dd (x_size d) (y_size d) (num_stripes d) (stripe_width d)
    (stripe_starty d) (stripe_endy d) (page_size d) (mode d)
    (diag_cmd_addr d) (t37_addr d) (t37_size d) (frame d) (stripe d)
    (page d) v (y_ptr d) (page_buf d) (data_buf d) (hawkeye d).

Definition set_y_ptr (v : Z) (d : mxt_debug_data) : mxt_debug_data :=
  Mxt_dd (x_size d) (y_size d) (num_stripes d) (stripe_width d)
    (stripe_starty d) (stripe_endy d) (page_size d) (mode d)
    (diag_cmd_addr d) (t37_addr d) (t37_size d) (frame d) (stripe d)
    (page d) (x_ptr d) v (page_buf d) (data_buf d) (hawkeye d).

Definition set_page_buf (v : list Z) (d : mxt_debug_data) : mxt_debug_data :=
  Mxt_dd (x_size d) (y_size d) (num_stripes d) (stripe_width d)
    (stripe_starty d) (stripe_endy d) (page_size d) (mode d)
    (diag_cmd_addr d) (t37_addr d) (t37_size d) (frame d) (stripe d)
    (page d) (x_ptr d) (y_ptr d) v (data_buf d) (hawkeye d).

Definition set_data_buf (v : gmap Z Z) (d : mxt_debug_data) : mxt_debug_data :=
  Mxt_dd (x_size d) (y_size d) (num_stripes d) (stripe_width d)
    (stripe_starty d) (stripe_endy d) (page_size d) (mode d)
    (diag_cmd_addr d) (t37_addr d) (t37_size d) (frame d) (stripe d)
    (page d) (x_ptr d) (y_ptr d) (page_buf d) v (hawkeye d).

Definition set_hawkeye (v : string) (d : mxt_debug_data) : mxt_debug_data :=
  Mxt_dd (x_size d) (y_size d) (num_stripes d) (stripe_width d)
    (stripe_starty d) (stripe_endy d) (page_size d) (mode d)
    (diag_cmd_addr d) (t37_addr d) (t37_size d) (frame d) (stripe d)
    (page d) (x_ptr d) (y_ptr d) (page_buf d) (data_buf d) v.

(** ** Results of the model *)

(** How [mxt_debug_dump] ends: it returns, the model runs out of fuel in
    one of the two loops whose trip count is not fixed on entry (the
    command poll and the frame loop), or it divides by zero. *)
Inductive result :=
  | Returned (ret : Z)
  | OutOfFuel
  | DivByZero.

(** How a loop inside a function ends: the loop condition fails, the body
    leaves the function, or the fuel runs out. *)
Inductive flow :=
  | LoopDone
  | Leave (ret : Z)
  | NoFuel.

(** The first byte stored by a one-byte read.  A transport that hands back
    fewer bytes than requested is read as zero. *)
Definition byte0 (data : list Z) : Z := u8 (default 0 (data !! 0%nat)).

(** [buf[i]] for a byte buffer. *)
Definition byte_at (buf : list Z) (i : Z) : Z :=
  default 0 (buf !! Z.to_nat i).

(** The buffer after a read of [count] bytes into its start.  The buffer
    keeps its length: bytes that the transport would store past the end of
    a buffer shorter than [count], where the C program writes outside the
    block, are dropped. *)
Definition read_into (buf data : list Z) (count : Z) : list Z :=
  list_inserts 0 (u8 <$> take (Z.to_nat count) data) buf.

(** [data_buf[ofs]]; a cell outside the modelled store reads as zero.  The
    store is keyed by the offset and keeps no block size: a store at an
    offset outside the allocated [x_size * y_size] cells, where the C
    program writes outside the block, is a binding at that offset. *)
Definition cell (m : gmap Z Z) (ofs : Z) : Z := default 0 (m !! ofs).

(** A [for (i = lo; i < hi; i++)] loop whose body neither leaves the loop
    nor assigns [i]: [body] runs for [i = lo, lo + 1, ..., hi - 1]. *)
Fixpoint for_loop {St : Type} (n : nat) (i : Z) (body : Z → St → St)
    (s : St) : St :=
  match n with
  | O => s
  | S n => for_loop n (i + 1) body (body i s)
  end.

Definition for_range {St : Type} (lo hi : Z) (body : Z → St → St)
    (s : St) : St :=
  for_loop (Z.to_nat (hi - lo)) lo body s.

(** The newline character of the format strings. *)
Definition nl : string := String "010"%char EmptyString.

(** The [%d] conversion. *)
Definition fmt_d (z : Z) : string := pretty z.

(** Two decimal digits, as [%H], [%M] and [%S] print a field. *)
Definition two_digits (n : Z) : string :=
  String (pretty_N_char (Z.to_N (n / 10 mod 10)))
    (String (pretty_N_char (Z.to_N (n mod 10))) EmptyString).

(** [strftime(buf, maxsize, "%T", t)]: [%T] is [%H:%M:%S]; [None] is the
    zero result, when the text and its terminator do not fit. *)
Definition strftime_T (maxsize : Z) (t : tm) : option string :=
  let s := two_digits (tm_hour t) +:+ ":" +:+ two_digits (tm_min t)
             +:+ ":" +:+ two_digits (tm_sec t) in
  if Z.of_nat (String.length s) <? maxsize then Some s else None.

Section Tool.

Context {ext : Type} (P : platform ext).

Definition reg_write (data : list Z) (addr count : Z) (w : world ext)
  : Z * world ext :=
  let '(ret, e) := mxt_write_register P (ext_state w) data addr count in
  (ret, World e (trace w ++ [EvWrite addr data ret]) (files w)).

Definition reg_read (addr count : Z) (w : world ext)
  : Z * list Z * world ext :=
  let '(ret, data, e) := mxt_read_register P (ext_state w) addr count in
  (ret, data, World e (trace w ++ [EvRead addr count ret data]) (files w)).

Definition LOG (lvl : log_level) (msg : string) (w : world ext) : world ext :=
  World (ext_state w) (trace w ++ [EvLog lvl msg]) (files w).

Definition fopen_w (name : string) (w : world ext) : option (world ext) :=
  if fopen_ok P (ext_state w) name
  then Some (World (ext_state w) (trace w) (<[name := ""]> (files w)))
  else None.

Definition fprintf (name : string) (s : string) (w : world ext) : world ext :=
  World (ext_state w) (trace w)
        (<[name := default "" (files w !! name) +:+ s]> (files w)).

(** ** get_objects_addr *)

Definition get_objects_addr (dd : mxt_debug_data) : Z * mxt_debug_data :=
  let t6_addr := get_object_address P (GEN_COMMANDPROCESSOR_T6 P) 0 in
  if t6_addr =? OBJECT_NOT_FOUND P then (-1, dd) else
  let dd := set_diag_cmd_addr (t6_addr + MXT_CP_T6_DIAGNOSTIC_OFFSET) dd in
  let dd := set_t37_addr (get_object_address P (DEBUG_DIAGNOSTIC_T37 P) 0) dd in
  if t37_addr dd =? OBJECT_NOT_FOUND P then (-1, dd) else
  let dd := set_t37_size (get_object_size P (u8 (DEBUG_DIAGNOSTIC_T37 P))) dd in
  if t37_size dd =? OBJECT_NOT_FOUND P then (-1, dd) else
  (0, dd).

(** ** mxt_debug_dump_page *)

(** The [while (read_command)] loop, entered with the current values of
    [read_command] and [failures]. *)
Fixpoint wait_command (fuel : nat) (read_command failures : Z)
    (dd : mxt_debug_data) (w : world ext) : flow * world ext :=
  if read_command =? 0 then (LoopDone, w) else
  match fuel with
  | O => (NoFuel, w)
  | S fuel =>
      let '(ret, data, w) := reg_read (diag_cmd_addr dd) 1 w in
      if ret <? 0 then
        (Leave (-1),
         LOG LOG_ERROR "Failed to read the status of diagnostic mode command" w)
      else
        let read_command := byte0 data in
        if negb (read_command =? 0) then
          let failures := failures + 1 in
          if failures >? 500 then
            (Leave (-1),
             LOG LOG_ERROR "Timeout waiting for command to be actioned" w)
          else wait_command fuel read_command failures dd w
        else wait_command fuel read_command failures dd w
  end.

(** The first statement of the function: the mode command for page 0, the
    page-up command for every other page; the value that
    [mxt_write_register] returns is dropped. *)
Definition write_command (dd : mxt_debug_data) (w : world ext) : world ext :=
  let page_up_cmd := PAGE_UP in
  if page dd =? 0 then
    let w := LOG LOG_VERBOSE "Writing mode command" w in
    snd (reg_write [mode dd] (diag_cmd_addr dd) 1 w)
  else
    snd (reg_write [page_up_cmd] (diag_cmd_addr dd) 1 w).

(** [Some r] is [return r]; [None] is the poll loop out of fuel. *)
Definition mxt_debug_dump_page (fuel : nat) (dd : mxt_debug_data)
    (w : world ext) : option Z * mxt_debug_data * world ext :=
  let read_command := 1 in
  let w := write_command dd w in
  let failures := 0 in
  match wait_command fuel read_command failures dd w with
  | (NoFuel, w) => (None, dd, w)
  | (Leave r, w) => (Some r, dd, w)
  | (LoopDone, w) =>
      let '(ret, data, w) := reg_read (t37_addr dd) 1 w in
      if ret <? 0 then
        (Some (-1), dd, LOG LOG_ERROR "Failed to read current mode" w)
      else
      let read_mode := byte0 data in
      let '(ret, data, w) := reg_read (t37_addr dd + 1) 1 w in
      if ret <? 0 then
        (Some (-1), dd, LOG LOG_ERROR "Failed to read page number" w)
      else
      let read_page := byte0 data in
      if negb (read_mode =? mode dd) || negb (read_page =? page dd) then
        (Some (-1), dd,
         LOG LOG_ERROR "Bad page/mode in diagnostic data read" w)
      else
      let '(ret, data, w) := reg_read (t37_addr dd + 2) (page_size dd) w in
      let dd := set_page_buf (read_into (page_buf dd) data (page_size dd)) dd in
      if ret <? 0 then
        (Some (-1), dd, LOG LOG_ERROR "Failed to read page" w)
      else
        (Some 0, dd, w)
  end.

(** ** mxt_debug_insert_data *)

(** The [for (i = 0; i < page_size; i += 2)] loop with [n] iterations left;
    [Some r] is a [return r] from inside the loop. *)
Fixpoint insert_loop (n : nat) (i : Z) (dd : mxt_debug_data) (w : world ext)
  : option Z * mxt_debug_data * world ext :=
  match n with
  | O => (None, dd, w)
  | S n =>
      if x_ptr dd >? x_size dd then
        (Some (-1), dd, LOG LOG_ERROR "x pointer overrun" w)
      else
        let value :=
          u16 (Z.lor (Z.shiftl (byte_at (page_buf dd) (i + 1)) 8)
                     (byte_at (page_buf dd) i)) in
        let ofs := y_ptr dd + x_ptr dd * y_size dd in
        let dd := set_data_buf (<[ofs := value]> (data_buf dd)) dd in
        let dd := set_y_ptr (y_ptr dd + 1) dd in
        let dd :=
          if y_ptr dd >? stripe_endy dd then
            let dd := set_y_ptr (stripe_starty dd) dd in
            set_x_ptr (x_ptr dd + 1) dd
          else dd in
        insert_loop n (i + 2) dd w
  end.

Definition mxt_debug_insert_data (dd : mxt_debug_data) (w : world ext)
  : Z * mxt_debug_data * world ext :=
  match insert_loop (Z.to_nat ((page_size dd + 1) / 2)) 0 dd w with
  | (Some r, dd, w) => (r, dd, w)
  | (None, dd, w) => (0, dd, w)
  end.

(** ** mxt_hawkeye_generate_control_file *)

Definition mxt_hawkeye_generate_control_file (dd : mxt_debug_data)
    (w : world ext) : world ext :=
  match fopen_w "control.txt" w with
  | None => LOG LOG_ERROR "Failed to open file!" w
  | Some w =>
      let fp := "control.txt" in
      let w := fprintf fp ("uint8,1,1,TIN" +:+ nl) w in
      for_range 0 (x_size dd) (λ x w,
        for_range 0 (y_size dd) (λ y w,
          fprintf fp ("int16_lsb_msb," +:+ fmt_d (y + 1) +:+ ","
                        +:+ fmt_d (x + 1) +:+ ",X" +:+ fmt_d x +:+ "Y"
                        +:+ fmt_d y +:+ "_Delta16" +:+ nl) w) w) w
  end.

(** ** mxt_hawkeye_output *)

Definition mxt_hawkeye_output (dd : mxt_debug_data) (w : world ext)
  : Z * world ext :=
  match localtime_now P (ext_state w) with
  | None => (-1, w)
  | Some tmp =>
      match strftime_T 20 tmp with
      | None => (-1, w)
      | Some timestr =>
          let w := fprintf (hawkeye dd) (timestr +:+ ",") w in
          let w := fprintf (hawkeye dd) (fmt_d (to_int32 (frame dd)) +:+ ",") w in
          let w :=
            for_range 0 (x_size dd) (λ x w,
              for_range 0 (y_size dd) (λ y w,
                let ofs := y + x * y_size dd in
                let value := to_int16 (cell (data_buf dd) ofs) in
                fprintf (hawkeye dd) (fmt_d value +:+ ",") w) w) w in
          let w := fprintf (hawkeye dd) nl w in
          (0, w)
      end
  end.

(** ** get_num_frames *)

(** [stdin_frames] is the number that [scanf("%u")] reads, held in an
    [unsigned int].  What [scanf] stores for a number that does not fit,
    and the indeterminate value of [frames] when no number is read, are
    not modelled: the properties that bound the run take a number that
    fits. *)
Definition get_num_frames (stdin_frames : Z) : Z := u32 stdin_frames.

(** ** mxt_debug_dump *)

(** The locals that the [switch] on the family assigns, together with the
    structure and the world. *)
Definition switch_state : Type := Z * Z * mxt_debug_data * world ext.

Definition case_0x80 (st : switch_state) : switch_state :=
  let '(_, _, dd, w) := st in
  (1, 4, set_x_size (matrix_x_size P) dd, w).

Definition case_0xA0 (st : switch_state) : switch_state :=
  let '(_, _, dd, w) := st in
  (3, 8, set_x_size 27 dd, w).

Definition case_0xA1 (st : switch_state) : switch_state :=
  let '(_, _, dd, w) := st in
  if variant_id P =? 0x03 then (1, 9, set_x_size (matrix_x_size P) dd, w)
  else (1, 12, set_x_size (matrix_x_size P) dd, w).

Definition case_0xA2 (st : switch_state) : switch_state :=
  let '(num_stripes, pages_per_stripe, dd, w) := st in
  if variant_id P =? 0x00 then (1, 30, set_x_size (matrix_x_size P) dd, w)
  else (num_stripes, pages_per_stripe, dd,
        LOG LOG_ERROR "Unrecognized variant ID" w).

Definition case_default (st : switch_state) : switch_state :=
  let '(num_stripes, pages_per_stripe, dd, w) := st in
  (num_stripes, pages_per_stripe, dd,
   LOG LOG_ERROR "Unrecognized family ID" w).

(** [switch (info_block.id->family_id)]: [case 0x80] has no [break] and
    runs on into [case 0xA0]; [case 0xA2] has none and runs on into
    [default]. *)
Definition switch_family (st : switch_state) : switch_state :=
  if family_id P =? 0x80 then case_0xA0 (case_0x80 st)
  else if family_id P =? 0xA0 then case_0xA0 st
  else if family_id P =? 0xA1 then case_0xA1 st
  else if family_id P =? 0xA2 then case_default (case_0xA2 st)
  else case_default st.

(** [for (page = 0; page < pages_per_stripe; page++)], [n] iterations
    left; the local [page] of the source is [page_l] here, [mxt_dd.page]
    is the field [page]. *)
Fixpoint page_loop (fuel : nat) (n : nat) (page_l pages_per_stripe : Z)
    (dd : mxt_debug_data) (w : world ext)
  : flow * mxt_debug_data * world ext :=
  match n with
  | O => (LoopDone, dd, w)
  | S n =>
      let dd := set_page (pages_per_stripe * stripe dd + page_l) dd in
      let w := LOG LOG_INFO ("Stripe " +:+ fmt_d (stripe dd) +:+ " Page "
                               +:+ fmt_d (page dd)) w in
      match mxt_debug_dump_page fuel dd w with
      | (None, dd, w) => (NoFuel, dd, w)
      | (Some ret, dd, w) =>
          if ret <? 0 then (Leave ret, dd, LOG LOG_ERROR "Quitting..." w)
          else
            let '(_, dd, w) := mxt_debug_insert_data dd w in
            page_loop fuel n (page_l + 1) pages_per_stripe dd w
      end
  end.

(** [for (mxt_dd.stripe = 0; mxt_dd.stripe < num_stripes; mxt_dd.stripe++)],
    [n] iterations left. *)
Fixpoint stripe_loop (fuel : nat) (n : nat) (pages_per_stripe : Z)
    (dd : mxt_debug_data) (w : world ext)
  : flow * mxt_debug_data * world ext :=
  match n with
  | O => (LoopDone, dd, w)
  | S n =>
      let dd := set_stripe_starty (stripe_width dd * stripe dd) dd in
      let dd := set_stripe_endy (stripe_starty dd + stripe_width dd - 1) dd in
      let dd := set_x_ptr 0 dd in
      let dd := set_y_ptr (stripe_starty dd) dd in
      match page_loop fuel (Z.to_nat pages_per_stripe) 0 pages_per_stripe
                      dd w with
      | (LoopDone, dd, w) =>
          stripe_loop fuel n pages_per_stripe (set_stripe (stripe dd + 1) dd) w
      | other => other
      end
  end.

(** [for (mxt_dd.frame = 1; mxt_dd.frame <= frames; mxt_dd.frame++)];
    [frame] is an [unsigned int], so the increment wraps. *)
Fixpoint frame_loop (fuel : nat) (pfuel : nat) (frames : Z)
    (num_stripes pages_per_stripe : Z)
    (dd : mxt_debug_data) (w : world ext)
  : flow * mxt_debug_data * world ext :=
  if negb (frame dd <=? frames) then (LoopDone, dd, w) else
  match fuel with
  | O => (NoFuel, dd, w)
  | S fuel =>
      let dd := set_stripe 0 dd in
      match stripe_loop pfuel (Z.to_nat num_stripes) pages_per_stripe
                        dd w with
      | (LoopDone, dd, w) =>
          let '(_, w) := mxt_hawkeye_output dd w in
          frame_loop fuel pfuel frames num_stripes pages_per_stripe
                     (set_frame (u32 (frame dd + 1)) dd) w
      | other => other
      end
  end.

(** [mxt_debug_dump(mode)].  [uninit], [uninit_num_stripes] and
    [uninit_pages_per_stripe] are the indeterminate values that the
    structure and the two locals hold before they are assigned.  The
    structure is returned as it is when the function leaves. *)
Definition mxt_debug_dump (fuel : nat) (mode_arg : Z) (stdin_frames : Z)
    (uninit : mxt_debug_data)
    (uninit_num_stripes uninit_pages_per_stripe : Z)
    (w : world ext) : result * mxt_debug_data * world ext :=
  let mxt_dd := uninit in
  let frames := get_num_frames stdin_frames in
  let y_size_l := matrix_y_size P in
  let mxt_dd := set_mode (u8 mode_arg) mxt_dd in
  let '(ret, mxt_dd) := get_objects_addr mxt_dd in
  if negb (ret =? 0) then
    (Returned (-1), mxt_dd,
     LOG LOG_ERROR "Failed to get object information" w)
  else
  let '(num_stripes, pages_per_stripe, mxt_dd, w) :=
    switch_family (uninit_num_stripes, uninit_pages_per_stripe, mxt_dd, w) in
  let mxt_dd := set_page_size (u8 (t37_size mxt_dd - 2)) mxt_dd in
  let mxt_dd := set_num_stripes num_stripes mxt_dd in
  if num_stripes =? 0 then (DivByZero, mxt_dd, w) else
  let mxt_dd := set_stripe_width (Z.quot y_size_l num_stripes) mxt_dd in
  let mxt_dd := set_y_size y_size_l mxt_dd in
  let w := LOG LOG_INFO ("Number of stripes: " +:+ fmt_d num_stripes) w in
  let w := LOG LOG_INFO ("Pages per stripe: " +:+ fmt_d pages_per_stripe) w in
  let w := LOG LOG_INFO ("Stripe width: " +:+ fmt_d (stripe_width mxt_dd)) w in
  let w := LOG LOG_INFO ("X size: " +:+ fmt_d (x_size mxt_dd)) w in
  let w := LOG LOG_INFO ("Y size: " +:+ fmt_d (y_size mxt_dd)) w in
  match malloc_u8 P (ext_state w) (t37_size mxt_dd) with
  | None => (Returned (-1), mxt_dd, LOG LOG_ERROR "malloc failure" w)
  | Some bytes =>
      let mxt_dd := set_page_buf bytes mxt_dd in
      match malloc_u16 P (ext_state w) (x_size mxt_dd * y_size mxt_dd) with
      | None => (Returned (-1), mxt_dd, LOG LOG_ERROR "malloc failure" w)
      | Some cells =>
          let mxt_dd := set_data_buf (map_seqZ 0 cells) mxt_dd in
          match fopen_w "hawkeye.csv" w with
          | None => (Returned (-1), mxt_dd, w)
          | Some w =>
              let mxt_dd := set_hawkeye "hawkeye.csv" mxt_dd in
              let mxt_dd := set_frame 1 mxt_dd in
              match frame_loop fuel fuel frames num_stripes pages_per_stripe
                               mxt_dd w with
              | (NoFuel, mxt_dd, w) => (OutOfFuel, mxt_dd, w)
              | (Leave ret, mxt_dd, w) => (Returned ret, mxt_dd, w)
              | (LoopDone, mxt_dd, w) =>
                  let w := mxt_hawkeye_generate_control_file mxt_dd w in
                  (Returned 0, mxt_dd, w)
              end
          end
      end
  end.

End Tool.

(** ** The menu command

    [mxt_dd_cmd(selection)].  The [switch] on the selection is the chain
    of comparisons below.  The lines that the function prints on the
    standard output are returned beside its value; the value of
    [mxt_debug_dump] is dropped, as in the source, and a capture that
    does not return keeps the command from returning.  The arguments
    after [selection] are those of the capture that the command may
    start. *)

Section Menu.

Context {ext : Type} (P : platform ext).

Definition mxt_dd_cmd (fuel : nat) (selection : ascii) (stdin_frames : Z)
    (uninit : mxt_debug_data)
    (uninit_num_stripes uninit_pages_per_stripe : Z)
    (w : world ext) : result * list string * world ext :=
  let exit_loop := 0 in
  let dump mode :=
    match mxt_debug_dump P fuel mode stdin_frames uninit
            uninit_num_stripes uninit_pages_per_stripe w with
    | (Returned _, _, w) => (Returned exit_loop, [], w)
    | (other, _, w) => (other, [], w)
    end in
  if Ascii.eqb selection "d" || Ascii.eqb selection "D" then
    dump DELTAS_MODE
  else if Ascii.eqb selection "r" || Ascii.eqb selection "R" then
    dump REFS_MODE
  else if Ascii.eqb selection "c" || Ascii.eqb selection "C" then
    (Returned exit_loop, [], w)
  else if Ascii.eqb selection "q" || Ascii.eqb selection "Q" then
    let exit_loop := 1 in
    (Returned exit_loop, ["Quitting the debug dump utility" +:+ nl], w)
  else
    (Returned exit_loop, ["Invalid menu option" +:+ nl], w).

End Menu.

(** ** A simulated chip

    A transport over a chip model that follows the diagnostic protocol: a
    mode command selects the mode and page 0, page-up and page-down move
    the page, the command register reads back as cleared, the diagnostic
    object echoes mode and page and is followed by the samples of the
    page, which count up from the first sample of page 0.  The switches of
    [config] make the register writes fail or the command register stay
    busy. *)
Module Sim.

Record chip := Chip { chip_mode : Z; chip_page : Z }.

Record config := Config {
  cfg_family : Z;
  cfg_variant : Z;
  cfg_x : Z;
  cfg_y : Z;
  cfg_t37_size : Z;
  (** what [mxt_write_register] returns; a negative value is a failed
      write, which leaves the chip as it is *)
  cfg_write_ret : Z;
  (** the command register never reads back as cleared *)
  cfg_busy : bool;
}.

Definition T6_ADDR : Z := 0x100.
Definition T37_ADDR : Z := 0x200.

Definition page_bytes (pg count : Z) : list Z :=
  (λ b, let sample := pg * (count / 2) + b / 2 in
        if Z.even b then u8 sample else u8 (sample / 256)) <$> seqZ 0 count.

Definition read (cfg : config) (c : chip) (addr count : Z)
  : Z * list Z * chip :=
  if addr =? T6_ADDR + MXT_CP_T6_DIAGNOSTIC_OFFSET then
    (0, [if cfg_busy cfg then 1 else 0], c)
  else if addr =? T37_ADDR then (0, [chip_mode c], c)
  else if addr =? T37_ADDR + 1 then (0, [u8 (chip_page c)], c)
  else if addr =? T37_ADDR + 2 then (0, page_bytes (chip_page c) count, c)
  else (-1, [], c).

Definition command (c : chip) (cmd : Z) : chip :=
  if cmd =? PAGE_UP then Chip (chip_mode c) (chip_page c + 1)
  else if cmd =? PAGE_DOWN then Chip (chip_mode c) (chip_page c - 1)
  else Chip cmd 0.

Definition write (cfg : config) (c : chip) (data : list Z) (addr count : Z)
  : Z * chip :=
  if cfg_write_ret cfg <? 0 then (cfg_write_ret cfg, c)
  else if addr =? T6_ADDR + MXT_CP_T6_DIAGNOSTIC_OFFSET then
    (cfg_write_ret cfg, command c (byte0 data))
  else (cfg_write_ret cfg, c).

Definition object_address (type instance : Z) : Z :=
  if type =? 6 then T6_ADDR else if type =? 37 then T37_ADDR else 0.

Definition object_size (cfg : config) (type : Z) : Z :=
  if type =? 37 then cfg_t37_size cfg else 0.

Definition sim (cfg : config) : platform chip :=
  {| mxt_read_register := read cfg;
     mxt_write_register := write cfg;
     get_object_address := object_address;
     get_object_size := object_size cfg;
     OBJECT_NOT_FOUND := 0;
     GEN_COMMANDPROCESSOR_T6 := 6;
     DEBUG_DIAGNOSTIC_T37 := 37;
     family_id := cfg_family cfg;
     variant_id := cfg_variant cfg;
     matrix_x_size := cfg_x cfg;
     matrix_y_size := cfg_y cfg;
     localtime_now := λ _, Some (Tm 9 5 30);
     malloc_u8 := λ _ n, Some (replicate (Z.to_nat n) 0);
     malloc_u16 := λ _ n, Some (replicate (Z.to_nat n) 0);
     fopen_ok := λ _ _, true |}.

(** A chip that was never put in a diagnostic mode, and an empty world. *)
Definition idle : chip := Chip 0 0.
Definition start (c : chip) : world chip := World c [] ∅.

(** The structure before anything is assigned to it. *)
Definition blank : mxt_debug_data :=
  Mxt_dd 0 0 0 0 0 0 0 0 0 0 0 0 0 0 0 0 [] ∅ "".

End Sim.

(** * Vocabulary of the properties *)

(** ** Reading the trace *)

Definition is_poll (addr : Z) (e : event) : bool :=
  match e with
  | EvRead a _ _ _ => a =? addr
  | _ => false
  end.

(** The number of reads of the register at [addr] in a trace. *)
Definition polls (addr : Z) (t : list event) : nat :=
  length (List.filter (is_poll addr) t).

(** The events that a run from [w] to [w'] added. *)
Definition new_events {ext : Type} (w w' : world ext) : list event :=
  drop (length (trace w)) (trace w').

Definition is_reg (e : event) : bool :=
  match e with
  | EvWrite _ _ _ | EvRead _ _ _ _ => true
  | EvLog _ _ => false
  end.

Definition TIMEOUT_MSG : string :=
  "Timeout waiting for command to be actioned".
Definition MISMATCH_MSG : string :=
  "Bad page/mode in diagnostic data read".
Definition OVERRUN_MSG : string := "x pointer overrun".

Definition is_overrun (e : event) : bool :=
  match e with
  | EvLog LOG_ERROR msg => bool_decide (msg = OVERRUN_MSG)
  | _ => false
  end.

(** The events after the first overrun message. *)
Fixpoint after_overrun (t : list event) : list event :=
  match t with
  | [] => []
  | e :: t => if is_overrun e then t else after_overrun t
  end.

(** ** The page fetch *)

(** Every read of the register at [addr] succeeds and finds it set. *)
Definition never_clears {ext : Type} (P : platform ext) (addr : Z) : Prop :=
  ∀ e, 0 ≤ (mxt_read_register P e addr 1).1.1
       ∧ byte0 (mxt_read_register P e addr 1).1.2 ≠ 0.

(** The page fetch leaves with the command timeout after exactly [n] reads
    of the command register. *)
Definition times_out_after {ext : Type} (P : platform ext) (n : nat)
    (fuel : nat) (dd : mxt_debug_data) (w : world ext) : Prop :=
  ∃ w', mxt_debug_dump_page P fuel dd w = (Some (-1), dd, w')
        ∧ last (trace w') = Some (EvLog LOG_ERROR TIMEOUT_MSG)
        ∧ polls (diag_cmd_addr dd) (new_events w w') = n.

(** ** The assembler *)

(** The cursor is inside its stripe, and the stripe is no taller than a
    column of the matrix. *)
Definition cursor_in_stripe (dd : mxt_debug_data) : Prop :=
  stripe_starty dd ≤ y_ptr dd ≤ stripe_endy dd
  ∧ stripe_endy dd - stripe_starty dd < y_size dd.

(** The storage offset of the cursor. *)
Definition cursor_ofs (dd : mxt_debug_data) : Z :=
  y_ptr dd + x_ptr dd * y_size dd.

(** ** The serialized text *)

Definition concat_strings (l : list string) : string :=
  foldr String.append "" l.

(** The text of a grid of fields in column-major order: [x] outer, [y]
    inner. *)
Definition grid_text (g : Z → Z → string) (X Y : Z) : string :=
  concat_strings (seqZ 0 X ≫= λ x, g x <$> seqZ 0 Y).

(** The cells of the frame matrix in column-major order, each read as a
    signed 16-bit value. *)
Definition frame_cells (dd : mxt_debug_data) : list Z :=
  seqZ 0 (x_size dd) ≫= λ x,
    (λ y, to_int16 (cell (data_buf dd) (y + x * y_size dd)))
      <$> seqZ 0 (y_size dd).

(** A log record as the specification describes it: the time, the frame
    number, then every value, each followed by a comma, and a newline. *)
Definition log_record (timestr : string) (frame_number : Z)
    (cells : list Z) : string :=
  timestr +:+ "," +:+ fmt_d frame_number +:+ ","
    +:+ concat_strings ((λ v, fmt_d v +:+ ",") <$> cells) +:+ nl.

Definition is_digit (c : ascii) : bool :=
  (48 <=? nat_of_ascii c)%nat && (nat_of_ascii c <=? 57)%nat.

(** The shape [HH:MM:SS]. *)
Definition hhmmss (s : string) : bool :=
  match s with
  | String h1 (String h2 (String c1 (String m1 (String m2
      (String c2 (String s1 (String s2 EmptyString))))))) =>
      is_digit h1 && is_digit h2 && bool_decide (c1 = ":"%char)
      && is_digit m1 && is_digit m2 && bool_decide (c2 = ":"%char)
      && is_digit s1 && is_digit s2
  | _ => false
  end.

(** A line of the column-layout descriptor and the whole file, as the
    specification describes them. *)
Definition descriptor_line (x y : Z) : string :=
  "int16_lsb_msb," +:+ fmt_d (y + 1) +:+ "," +:+ fmt_d (x + 1)
    +:+ ",X" +:+ fmt_d x +:+ "Y" +:+ fmt_d y +:+ "_Delta16" +:+ nl.

Definition control_descriptor (X Y : Z) : string :=
  ("uint8,1,1,TIN" +:+ nl) +:+ grid_text descriptor_line X Y.

(** ** The commands of a capture *)

Definition command_of (e : event) : option (list Z) :=
  match e with
  | EvWrite _ data _ => Some data
  | _ => None
  end.

(** The bytes of the register writes of a trace, in order.  The tool only
    ever writes to the diagnostic command register. *)
Definition commands (t : list event) : list (list Z) := omap command_of t.

(** The command that the fetch of the page with index [pg] writes. *)
Definition command_for (m pg : Z) : list Z :=
  if pg =? 0 then [m] else [PAGE_UP].

(** The mode is written for the first page of the session and for no
    other page. *)
Definition once_per_session (m : Z) (cs : list (list Z)) : Prop :=
  ∀ (i : nat) c, cs !! i = Some c → c = command_for m (Z.of_nat i).

(** The mode is written for the first page of every frame of [N] pages
    and for no other page. *)
Definition once_per_frame (m : Z) (N : nat) (cs : list (list Z)) : Prop :=
  ∀ (i : nat) c, cs !! i = Some c → c = command_for m (Z.of_nat (i mod N)).

(** The trace grows from [t] to [t'] by events whose commands are [cs]. *)
Definition emits (t t' : list event) (cs : list (list Z)) : Prop :=
  ∃ evs, t' = t ++ evs ∧ commands evs = cs.

(** ** Chips and structures of the examples *)

(** A healthy chip of family 0xA1, variant 0x03, that reports a matrix of
    2 x 3 and a diagnostic object of 6 bytes, so a page of two samples. *)
Definition ok_cfg : Sim.config := Sim.Config 0xA1 0x03 2 3 6 0 false.

(** The same chip with a stuck command register. *)
Definition busy_cfg : Sim.config := Sim.Config 0xA1 0x03 2 3 6 0 true.

(** The same chip behind a transport whose register writes fail. *)
Definition failing_write_cfg : Sim.config :=
  Sim.Config 0xA1 0x03 2 3 6 (-1) false.

(** A chip of a family that the table does not list. *)
Definition unknown_family_cfg : Sim.config :=
  Sim.Config 0x55 0x00 2 2 10 0 false.

(** The mXT1386 as the family table sets it up: 27 columns of 42 cells in
    three stripes of 14, pages of 128 bytes. *)
Definition mxt1386_cfg : Sim.config := Sim.Config 0xA0 0x00 33 42 130 0 false.

(** The structure set up for the fetch of page 0 in deltas mode, and for
    the fetch of page 3. *)
Definition first_page : mxt_debug_data :=
  set_diag_cmd_addr 0x105 (set_t37_addr 0x200 (set_t37_size 6
    (set_page_size 4 (set_mode DELTAS_MODE
      (set_page_buf [0; 0; 0; 0; 0; 0] Sim.blank))))).
Definition page_three : mxt_debug_data := set_page 3 first_page.

(** The mXT1386 matrix with the cursor on the last cell of the first
    stripe, and a page of two samples. *)
Definition last_column : mxt_debug_data :=
  set_x_size 27 (set_y_size 42 (set_stripe_width 14
    (set_stripe_starty 0 (set_stripe_endy 13 (set_x_ptr 26 (set_y_ptr 13
      (set_page_size 4 (set_page_buf [1; 0; 2; 0]
        (set_data_buf (map_seqZ 0 (replicate 1134 0)) Sim.blank))))))))).

(** The sample -2 for the first cell of that matrix, followed by a second
    sample. *)
Definition minus_two : mxt_debug_data :=
  set_page_buf [254; 255; 7; 0] (set_x_ptr 0 (set_y_ptr 0 last_column)).

(** Two frames of deltas on the healthy chip: one stripe of nine pages
    per frame. *)
Definition two_frames : world Sim.chip :=
  (mxt_debug_dump (Sim.sim ok_cfg) 501 DELTAS_MODE 2 Sim.blank 0 0
     (Sim.start Sim.idle)).2.

(** ** The register accesses of a run *)

(** A register read that did not fail. *)
Definition good_read (e : event) : Prop :=
  match e with
  | EvRead _ _ ret _ => 0 ≤ ret
  | _ => True
  end.

Definition is_read (e : event) : bool :=
  match e with
  | EvRead _ _ _ _ => true
  | _ => false
  end.

(** The events are register accesses that succeed as far as reads go,
    then one failed read, then messages only. *)
Definition stops_at_failed_read (evs : list event) : Prop :=
  ∃ pre a c ret d logs,
    evs = pre ++ EvRead a c ret d :: logs
    ∧ ret < 0
    ∧ Forall good_read pre
    ∧ Forall (λ e, is_reg e = false) logs.

(** From state [e] on, the register at [addr] reads back as set [k] times
    and then as cleared, every read succeeding. *)
Fixpoint clears_after {ext : Type} (P : platform ext) (addr : Z) (k : nat)
    (e : ext) : Prop :=
  let '(ret, data, e') := mxt_read_register P e addr 1 in
  0 ≤ ret ∧
  match k with
  | O => byte0 data = 0
  | S k => byte0 data ≠ 0 ∧ clears_after P addr k e'
  end.

(** The number of register reads in a trace. *)
Definition reads (t : list event) : nat := length (List.filter is_read t).

(** A chip whose every register reads back as set for the next [n] reads
    and as cleared from then on; [n] is its state. *)
Definition slow_chip : platform nat :=
  {| mxt_read_register := λ n _ _,
       match n with
       | O => (0, [0], O)
       | S n => (0, [1], n)
       end;
     mxt_write_register := λ n _ _ _, (0, n);
     get_object_address := Sim.object_address;
     get_object_size := λ _, 6;
     OBJECT_NOT_FOUND := 0;
     GEN_COMMANDPROCESSOR_T6 := 6;
     DEBUG_DIAGNOSTIC_T37 := 37;
     family_id := 0xA1;
     variant_id := 0x03;
     matrix_x_size := 2;
     matrix_y_size := 3;
     localtime_now := λ _, Some (Tm 9 5 30);
     malloc_u8 := λ _ n, Some (replicate (Z.to_nat n) 0);
     malloc_u16 := λ _ n, Some (replicate (Z.to_nat n) 0);
     fopen_ok := λ _ _, true |}.

(** The structure of [first_page] with a diagnostic object address that
    the simulated transport cannot read. *)
Definition lost_object : mxt_debug_data := set_t37_addr 0x300 first_page.

(** A chip whose command register stays set for three polls after the
    command write. *)
Definition three_busy_polls : world nat := World 3%nat [] ∅.

(** ** Positions in a stripe *)

(** The number of rows of the selected stripe. *)
Definition stripe_rows (dd : mxt_debug_data) : Z :=
  stripe_endy dd - stripe_starty dd + 1.

(** The stripe starts at or after row 0 and ends inside the column. *)
Definition stripe_in_column (dd : mxt_debug_data) : Prop :=
  0 ≤ stripe_starty dd ∧ stripe_endy dd < y_size dd.

(** The position of the cursor in the sample stream of its stripe: the
    samples fill the rows of the stripe column by column. *)
Definition cursor_pos (dd : mxt_debug_data) : Z :=
  x_ptr dd * stripe_rows dd + (y_ptr dd - stripe_starty dd).

(** The storage offset of the sample at position [p] of the stripe. *)
Definition pos_ofs (dd : mxt_debug_data) (p : Z) : Z :=
  stripe_starty dd + p mod stripe_rows dd + p / stripe_rows dd * y_size dd.

(** The [k]-th sample of a page buffer: bytes [2k] and [2k + 1], low byte
    first. *)
Definition sample_at (buf : list Z) (k : Z) : Z :=
  u16 (Z.lor (Z.shiftl (byte_at buf (2 * k + 1)) 8) (byte_at buf (2 * k))).

(** The number of turns of the assembler loop on a page. *)
Definition page_samples (dd : mxt_debug_data) : Z :=
  Z.of_nat (Z.to_nat ((page_size dd + 1) / 2)).

(** The structure after one turn of the assembler loop that stores [v]. *)
Definition after_turn (v : Z) (dd : mxt_debug_data) : mxt_debug_data :=
  let stored := set_data_buf (<[cursor_ofs dd := v]> (data_buf dd)) dd in
  if y_ptr dd + 1 >? stripe_endy dd
  then set_x_ptr (x_ptr dd + 1) (set_y_ptr (stripe_starty dd) stored)
  else set_y_ptr (y_ptr dd + 1) stored.

(** Only the matrix and the cursor differ between [dd] and [dd']. *)
Definition matrix_only (dd dd' : mxt_debug_data) : Prop :=
  dd' = set_x_ptr (x_ptr dd') (set_y_ptr (y_ptr dd')
          (set_data_buf (data_buf dd') dd)).

(** ** The capture loop *)

(** The four assignments that select a stripe: its rows, and the cursor
    at the top of its first column. *)
Definition select_stripe (dd : mxt_debug_data) : mxt_debug_data :=
  let dd := set_stripe_starty (stripe_width dd * stripe dd) dd in
  let dd := set_stripe_endy (stripe_starty dd + stripe_width dd - 1) dd in
  let dd := set_x_ptr 0 dd in
  set_y_ptr (stripe_starty dd) dd.

(** The parameters of a capture session: geometry, page size, mode,
    addresses and log file. *)
Definition session_of (dd : mxt_debug_data)
  : Z * Z * Z * Z * Z * Z * Z * Z * Z * string :=
  (x_size dd, y_size dd, num_stripes dd, stripe_width dd, page_size dd,
   mode dd, diag_cmd_addr dd, t37_addr dd, t37_size dd, hawkeye dd).

(** A chip without a diagnostic object: the object table knows no type. *)
Definition no_objects : platform Sim.chip :=
  {| mxt_read_register := Sim.read ok_cfg;
     mxt_write_register := Sim.write ok_cfg;
     get_object_address := λ _ _, 0;
     get_object_size := λ _, 0;
     OBJECT_NOT_FOUND := 0;
     GEN_COMMANDPROCESSOR_T6 := 6;
     DEBUG_DIAGNOSTIC_T37 := 37;
     family_id := 0xA1;
     variant_id := 0x03;
     matrix_x_size := 2;
     matrix_y_size := 3;
     localtime_now := λ _, Some (Tm 9 5 30);
     malloc_u8 := λ _ n, Some (replicate (Z.to_nat n) 0);
     malloc_u16 := λ _ n, Some (replicate (Z.to_nat n) 0);
     fopen_ok := λ _ _, true |}.

(** The healthy chip on a system where no file can be opened. *)
Definition read_only_disk : platform Sim.chip :=
  {| mxt_read_register := Sim.read ok_cfg;
     mxt_write_register := Sim.write ok_cfg;
     get_object_address := Sim.object_address;
     get_object_size := Sim.object_size ok_cfg;
     OBJECT_NOT_FOUND := 0;
     GEN_COMMANDPROCESSOR_T6 := 6;
     DEBUG_DIAGNOSTIC_T37 := 37;
     family_id := 0xA1;
     variant_id := 0x03;
     matrix_x_size := 2;
     matrix_y_size := 3;
     localtime_now := λ _, Some (Tm 9 5 30);
     malloc_u8 := λ _ n, Some (replicate (Z.to_nat n) 0);
     malloc_u16 := λ _ n, Some (replicate (Z.to_nat n) 0);
     fopen_ok := λ _ _, false |}.

(** The second of the three stripes of the mXT1386, before it is
    selected. *)
Definition second_stripe : mxt_debug_data :=
  set_num_stripes 3 (set_stripe 1 last_column).

(** What the pages of a stripe leave alone. *)
Definition stripe_kept (dd dd' : mxt_debug_data) : Prop :=
  session_of dd' = session_of dd ∧ frame dd' = frame dd
  ∧ stripe dd' = stripe dd
  ∧ stripe_starty dd' = stripe_starty dd ∧ stripe_endy dd' = stripe_endy dd.

(** [recs] are the log records of consecutive frames from frame [first]
    on, each with a time of the right shape and [cells] values. *)
Definition records_from (first : Z) (cells : nat) (recs : list string) : Prop :=
  ∀ (j : nat) rec, recs !! j = Some rec →
    ∃ timestr values,
      rec = log_record timestr (first + Z.of_nat j) values
      ∧ hhmmss timestr = true
      ∧ length values = cells
      ∧ Forall (λ v, -32768 ≤ v < 32768) values.

(** The events of a loop of the capture, from trace [t0] to trace [t1]:
    either no read failed, or the loop was left with -1 right after the
    first failed read; it is left with no other value. *)
Definition read_checked (t0 t1 : list event) (fl : flow) : Prop :=
  ∃ evs,
    t1 = t0 ++ evs
    ∧ (Forall good_read evs
       ∨ (fl = Leave (-1) ∧ stops_at_failed_read evs))
    ∧ (∀ v, fl = Leave v → v = -1).

(** The chip family and variant are in the table of [mxt_debug_dump]. *)
Definition listed_family {ext : Type} (P : platform ext) : Prop :=
  family_id P = 0x80 ∨ family_id P = 0xA0 ∨ family_id P = 0xA1
  ∨ (family_id P = 0xA2 ∧ variant_id P = 0x00).


(** The stripes divide the column: at least one row per stripe. *)
Definition geometry_ok (dd : mxt_debug_data) : Prop :=
  0 < num_stripes dd ≤ y_size dd
  ∧ stripe_width dd = y_size dd `quot` num_stripes dd.

(** Every cell on which the two stores differ has its offset in
    [lo, hi). *)
Definition differ_within (lo hi : Z) (m m' : gmap Z Z) : Prop :=
  ∀ ofs, m' !! ofs ≠ m !! ofs → lo ≤ ofs < hi.

(** ** The cursor of the assembler *)

(** One step of the cursor [(x, y)] after a store: down the column inside
    the stripe, and from the last row of the stripe to its first row in
    the next column. *)
Definition advance (dd : mxt_debug_data) (c : Z * Z) : Z * Z :=
  if c.2 + 1 >? stripe_endy dd then (c.1 + 1, stripe_starty dd)
  else (c.1, c.2 + 1).

(** The cursor [(x_ptr, y_ptr)] after [k] steps. *)
Definition cursor_after (dd : mxt_debug_data) (k : nat) : Z * Z :=
  Nat.iter k (advance dd) (x_ptr dd, y_ptr dd).

(** ** More chips and structures of the examples *)

(** A chip of family 0xA1, variant 0x03, whose nine pages of two samples
    fill its matrix of 6 x 3 exactly. *)
Definition fitting_cfg : Sim.config := Sim.Config 0xA1 0x03 6 3 6 0 false.

(** The healthy chip on a system whose local time cannot be read:
    [localtime] returns [NULL]. *)
Definition no_clock : platform Sim.chip :=
  {| mxt_read_register := Sim.read ok_cfg;
     mxt_write_register := Sim.write ok_cfg;
     get_object_address := Sim.object_address;
     get_object_size := Sim.object_size ok_cfg;
     OBJECT_NOT_FOUND := 0;
     GEN_COMMANDPROCESSOR_T6 := 6;
     DEBUG_DIAGNOSTIC_T37 := 37;
     family_id := 0xA1;
     variant_id := 0x03;
     matrix_x_size := 2;
     matrix_y_size := 3;
     localtime_now := λ _, None;
     malloc_u8 := λ _ n, Some (replicate (Z.to_nat n) 0);
     malloc_u16 := λ _ n, Some (replicate (Z.to_nat n) 0);
     fopen_ok := λ _ _, true |}.

(** The structure of [last_column] with an open log, at frame 1. *)
Definition first_frame : mxt_debug_data :=
  set_frame 1 (set_hawkeye "hawkeye.csv" last_column).

(** * Properties *)

(** ** The page fetch: timeout, mismatch, transport errors *)

Section PageFetch.

Context {ext : Type} (P : platform ext).

Lemma new_events_app (w w' : world ext) evs :
  trace w' = trace w ++ evs → new_events w w' = evs.
Proof.
  intros H. unfold new_events. rewrite H. by rewrite drop_app_length.
Qed.

Lemma polls_app addr t1 t2 :
  polls addr (t1 ++ t2) = (polls addr t1 + polls addr t2)%nat.
Proof. unfold polls. by rewrite List.filter_app, length_app. Qed.

Lemma write_command_trace dd (w : world ext) :
  ∃ evs, trace (write_command P dd w) = trace w ++ evs
         ∧ polls (diag_cmd_addr dd) evs = 0%nat
         ∧ files (write_command P dd w) = files w.
Proof.
  unfold write_command, reg_write, LOG.
  destruct (page dd =? 0); simpl;
    destruct (mxt_write_register P _ _ _ _) as [ret e]; simpl.
  - eexists. rewrite <- app_assoc. split; [reflexivity|]. by split.
  - eexists. split; [reflexivity|]. by split.
Qed.

(** With the register stuck, the loop entered with [failures] failures so
    far reads it [501 - failures] more times and leaves with the timeout. *)
Lemma wait_command_busy dd (k : nat) :
  never_clears P (diag_cmd_addr dd) →
  ∀ fuel rc failures (w : world ext),
    rc ≠ 0 → failures = 500 - Z.of_nat k → (S k ≤ fuel)%nat →
    ∃ evs e',
      wait_command P fuel rc failures dd w
        = (Leave (-1), World e' (trace w ++ evs) (files w))
      ∧ polls (diag_cmd_addr dd) evs = S k
      ∧ last evs = Some (EvLog LOG_ERROR TIMEOUT_MSG).
Proof.
  intros Hbusy. induction k as [|k IH]; intros fuel rc failures w Hrc Hf Hfuel.
  - destruct fuel as [|fuel]; [lia|]. simpl.
    destruct (Z.eqb_spec rc 0) as [|_]; [done|].
    unfold reg_read. specialize (Hbusy (ext_state w)).
    destruct (mxt_read_register P (ext_state w) (diag_cmd_addr dd) 1)
      as [[ret data] e]. simpl in Hbusy. destruct Hbusy as [Hret Hdata].
    destruct (Z.ltb_spec ret 0) as [|_]; [lia|].
    destruct (Z.eqb_spec (byte0 data) 0) as [|_]; [done|]. simpl.
    destruct (Z.gtb_spec (failures + 1) 500) as [_|]; [|lia].
    eexists _, e. unfold LOG. simpl. rewrite <- app_assoc. simpl.
    split; [reflexivity|]. split; [|done].
    unfold polls. simpl. by rewrite Z.eqb_refl.
  - destruct fuel as [|fuel]; [lia|]. simpl.
    destruct (Z.eqb_spec rc 0) as [|_]; [done|].
    unfold reg_read. pose proof (Hbusy (ext_state w)) as Hw.
    destruct (mxt_read_register P (ext_state w) (diag_cmd_addr dd) 1)
      as [[ret data] e]. simpl in Hw. destruct Hw as [Hret Hdata].
    destruct (Z.ltb_spec ret 0) as [|_]; [lia|].
    destruct (Z.eqb_spec (byte0 data) 0) as [|_]; [done|]. simpl.
    destruct (Z.gtb_spec (failures + 1) 500) as [|_]; [lia|].
    edestruct (IH fuel (byte0 data) (failures + 1)
                 (World e (trace w ++ [EvRead (diag_cmd_addr dd) 1 ret data])
                        (files w)))
      as (evs & e' & Heq & Hpolls & Hlast); [done|lia|lia|].
    rewrite Heq. simpl. eexists _, e'. rewrite <- app_assoc.
    split; [reflexivity|]. split.
    + rewrite polls_app, Hpolls. unfold polls. simpl.
      by rewrite Z.eqb_refl.
    + simpl. destruct evs; [done|]. done.
Qed.

(** With enough fuel the poll loop ends: it can fail at most 501 times. *)
Lemma wait_command_total dd :
  ∀ fuel rc failures (w : world ext),
    0 ≤ failures ≤ 500 → (Z.to_nat (501 - failures) ≤ fuel)%nat →
    (wait_command P fuel rc failures dd w).1 ≠ NoFuel.
Proof.
  induction fuel as [|fuel IH]; intros rc failures w Hf Hfuel; [lia|].
  simpl. destruct (rc =? 0); [done|].
  unfold reg_read.
  destruct (mxt_read_register P (ext_state w) (diag_cmd_addr dd) 1)
    as [[ret data] e].
  destruct (ret <? 0); [done|].
  destruct (byte0 data =? 0) eqn:Hb; simpl.
  - destruct fuel as [|fuel']; simpl; by rewrite Hb.
  - destruct (Z.gtb_spec (failures + 1) 500); [done|].
    apply IH; lia.
Qed.

End PageFetch.

(** C4, as the specification words it, fails: on a chip whose command
    register stays set the fetch does not time out after 500 polls. *)
Lemma C4_not_after_500_polls :
  never_clears (Sim.sim busy_cfg) (diag_cmd_addr first_page)
  ∧ ¬ times_out_after (Sim.sim busy_cfg) 500 501 first_page
        (Sim.start Sim.idle).
Proof.
  split.
  - intros e. by vm_compute.
  - intros (w' & Heq & _ & Hpolls).
    vm_compute in Heq. injection Heq as <-.
    vm_compute in Hpolls. discriminate.
Qed.

(** C4 (amended): if the command register never reads back as cleared, the
    page fetch fails with the command timeout after exactly 501
    consecutive non-cleared polls: the failure count has to exceed 500. *)
Theorem C4_timeout_after_501_polls {ext : Type} (P : platform ext)
    (fuel : nat) (dd : mxt_debug_data) (w : world ext) :
  (501 ≤ fuel)%nat →
  never_clears P (diag_cmd_addr dd) →
  times_out_after P 501 fuel dd w.
Proof.
  intros Hfuel Hbusy. unfold times_out_after, mxt_debug_dump_page.
  destruct (write_command_trace P dd w) as (evs0 & Htr0 & Hp0 & Hfiles0).
  destruct (wait_command_busy P dd 500 Hbusy fuel 1 0 (write_command P dd w))
    as (evs & e' & Heq & Hpolls & Hlast); [done|lia|lia|].
  rewrite Heq. eexists. split; [reflexivity|]. simpl. split.
  - rewrite last_app, Hlast. done.
  - erewrite new_events_app; [|simpl; rewrite Htr0, <- app_assoc; reflexivity].
    rewrite polls_app, Hp0, Hpolls. done.
Qed.

Lemma C4_timeout_after_501_polls_witness :
  times_out_after (Sim.sim busy_cfg) 501 501 first_page (Sim.start Sim.idle).
Proof.
  apply (C4_timeout_after_501_polls (Sim.sim busy_cfg) 501 first_page
           (Sim.start Sim.idle)).
  - lia.
  - intros e. by vm_compute.
Defined.

(** C7: when the command has been consumed and both echo bytes have been
    read, an echoed mode or page that differs from the requested one makes
    the fetch fail at once with the mismatch error: the world it leaves is
    the one after the two echo reads plus the error message, so the page
    payload is not read, no command is written again, and the page buffer
    is untouched. *)
Theorem C7_mismatch_fails_before_payload {ext : Type} (P : platform ext)
    (fuel : nat) (dd : mxt_debug_data) (w w1 w2 w3 : world ext)
    (ret_m ret_p : Z) (d_m d_p : list Z) :
  wait_command P fuel 1 0 dd (write_command P dd w) = (LoopDone, w1) →
  reg_read P (t37_addr dd) 1 w1 = (ret_m, d_m, w2) →
  0 ≤ ret_m →
  reg_read P (t37_addr dd + 1) 1 w2 = (ret_p, d_p, w3) →
  0 ≤ ret_p →
  byte0 d_m ≠ mode dd ∨ byte0 d_p ≠ page dd →
  mxt_debug_dump_page P fuel dd w
    = (Some (-1), dd, LOG LOG_ERROR MISMATCH_MSG w3).
Proof.
  intros Hwait Hm Hretm Hp Hretp Hne.
  unfold mxt_debug_dump_page. rewrite Hwait, Hm.
  destruct (Z.ltb_spec ret_m 0) as [|_]; [lia|].
  rewrite Hp.
  destruct (Z.ltb_spec ret_p 0) as [|_]; [lia|].
  destruct (Z.eqb_spec (byte0 d_m) (mode dd)) as [Em|_];
    destruct (Z.eqb_spec (byte0 d_p) (page dd)) as [Ep|_];
    simpl; try reflexivity.
  destruct Hne; contradiction.
Qed.

Lemma C7_mismatch_fails_before_payload_witness :
  (mxt_debug_dump_page (Sim.sim ok_cfg) 501 page_three
     (Sim.start (Sim.Chip DELTAS_MODE 0))).1.1 = Some (-1).
Proof.
  erewrite (C7_mismatch_fails_before_payload (Sim.sim ok_cfg) 501 page_three
              (Sim.start (Sim.Chip DELTAS_MODE 0))).
  - reflexivity.
  - vm_compute. reflexivity.
  - vm_compute. reflexivity.
  - lia.
  - vm_compute. reflexivity.
  - lia.
  - right. vm_compute. discriminate.
Defined.

(** C6 fails on the code: the value that [mxt_write_register] returns for
    the command write is dropped.  On a transport whose writes fail, with
    a chip still in deltas mode on page 0, the fetch of page 0 reports
    success. *)
Lemma C6_failed_command_write_ignored :
  let '(r, dd, w) :=
    mxt_debug_dump_page (Sim.sim failing_write_cfg) 501 first_page
      (Sim.start (Sim.Chip DELTAS_MODE 0)) in
  r = Some 0
  ∧ trace w = [EvLog LOG_VERBOSE "Writing mode command";
               EvWrite 0x105 [DELTAS_MODE] (-1);
               EvRead 0x105 1 0 [0];
               EvRead 0x200 1 0 [DELTAS_MODE];
               EvRead 0x201 1 0 [0];
               EvRead 0x202 4 0 [0; 0; 1; 0]].
Proof. vm_compute. split; reflexivity. Qed.

(** ** The overrun guard, the ignored errors and the family table *)

(** C1 fails on the code: the guard is [x_ptr > x_size], so a sample is
    still written with [x_ptr = x_size].  The second sample of the page
    lands at offset 1134, one past the 27 * 42 cells of the matrix, and the
    assembler returns 0; a whole capture of one frame on the simulated
    mXT1386 writes that cell too. *)
Lemma C1_write_past_the_matrix :
  (let '(r, dd, w) := mxt_debug_insert_data last_column (Sim.start Sim.idle) in
   r = 0
   ∧ x_size dd * y_size dd = 1134
   ∧ data_buf last_column !! 1134 = None
   ∧ data_buf dd !! 1134 = Some 2
   ∧ trace w = [])
  ∧ (let '(r, dd, w) :=
       mxt_debug_dump (Sim.sim mxt1386_cfg) 501 DELTAS_MODE 1 Sim.blank 0 0
         (Sim.start Sim.idle) in
     x_size dd * y_size dd = 1134 ∧ is_Some (data_buf dd !! 1134)).
Proof. vm_compute. repeat split; eauto. Qed.

(** C2 fails on the code: the value that [mxt_debug_insert_data] returns
    is dropped.  On a 2 x 3 matrix fetched in nine pages of two samples
    the assembler reports the overrun on page 4; the capture goes on to
    fetch the four remaining pages (five register accesses each),
    serializes the frame and returns 0. *)
Lemma C2_capture_continues_after_overrun :
  let '(r, dd, w) :=
    mxt_debug_dump (Sim.sim ok_cfg) 501 DELTAS_MODE 1 Sim.blank 0 0
      (Sim.start Sim.idle) in
  r = Returned 0
  ∧ existsb is_overrun (trace w) = true
  ∧ length (List.filter is_reg (after_overrun (trace w))) = 20%nat
  ∧ files w !! "hawkeye.csv" = Some ("09:05:30,1,0,1,2,3,4,5," +:+ nl).
Proof. vm_compute. repeat split; reflexivity. Qed.

(** C3 fails on the code: for a family outside the table the [switch]
    only logs.  With family 0x55, and with 1, 2 and 2 as the indeterminate
    values of [num_stripes], [pages_per_stripe] and [mxt_dd.x_size], the
    capture runs on that geometry: it logs the error, then fetches two
    pages, writes the frame and returns 0. *)
Lemma C3_unknown_family_is_captured :
  let '(r, dd, w) :=
    mxt_debug_dump (Sim.sim unknown_family_cfg) 501 DELTAS_MODE 1
      (set_x_size 2 Sim.blank) 1 2 (Sim.start Sim.idle) in
  r = Returned 0
  ∧ trace w !! 0%nat = Some (EvLog LOG_ERROR "Unrecognized family ID")
  ∧ length (List.filter is_reg (trace w)) = 10%nat
  ∧ files w !! "hawkeye.csv" = Some ("09:05:30,1,0,1,2,3," +:+ nl).
Proof. vm_compute. repeat split; reflexivity. Qed.

(** ** The assembler: decoding and placement *)

Section Assembler.

Context {ext : Type}.

Lemma lor_low_byte (a b : Z) :
  Z.lor (Z.shiftl a 8) (u8 b) = a * 256 + u8 b.
Proof.
  assert (Z.land (Z.shiftl a 8) (u8 b) = 0) as Hdisjoint.
  { apply Z.bits_inj'. intros n Hn. rewrite Z.land_spec, Z.bits_0.
    destruct (Z.lt_ge_cases n 8) as [Hlt|Hge].
    - by rewrite Z.shiftl_spec_low.
    - unfold u8. change 256 with (2 ^ 8).
      rewrite (Z.mod_pow2_bits_high b 8 n) by lia. apply andb_false_r. }
  rewrite <- Z.lxor_lor, <- Z.add_nocarry_lxor by done.
  by rewrite Z.shiftl_mul_pow2.
Qed.

(** The two bytes of the little-endian encoding decode to the value as an
    unsigned 16-bit number. *)
Lemma decode_le16 (v : Z) :
  u16 (Z.lor (Z.shiftl (u8 (Z.shiftr v 8)) 8) (u8 v)) = u16 v.
Proof.
  rewrite lor_low_byte. unfold u8, u16.
  rewrite Z.shiftr_div_pow2 by lia. change (2 ^ 8) with 256.
  pose proof (Z.mod_pos_bound (v / 256) 256 ltac:(lia)).
  pose proof (Z.mod_pos_bound v 256 ltac:(lia)).
  rewrite (Z.mod_small (_ + _)) by lia.
  change 65536 with (256 * 256). rewrite Z.rem_mul_r by lia. lia.
Qed.

Lemma to_int16_u16 (v : Z) : -32768 ≤ v < 32768 → to_int16 (u16 v) = v.
Proof.
  intros Hv. unfold to_int16, u16. rewrite Z.mod_mod by lia.
  destruct (Z.ltb_spec (v mod 65536) 32768);
    pose proof (Z.mod_pos_bound v 65536 ltac:(lia));
    pose proof (Z.div_mod v 65536 ltac:(lia)); lia.
Qed.

(** The loop only writes at or after the offset of the cursor: cells
    before it keep their value. *)
Lemma insert_loop_keeps (n : nat) :
  ∀ i dd (w : world ext) ofs,
    cursor_in_stripe dd → ofs < cursor_ofs dd →
    data_buf (insert_loop n i dd w).1.2 !! ofs = data_buf dd !! ofs.
Proof.
  unfold cursor_in_stripe, cursor_ofs.
  induction n as [|n IH]; intros i dd w ofs Hwf Hofs; [done|].
  simpl. destruct (x_ptr dd >? x_size dd); [done|].
  destruct (Z.gtb_spec (y_ptr dd + 1) (stripe_endy dd)).
  - rewrite IH; simpl; [|lia|nia].
    rewrite lookup_insert_ne by lia. done.
  - rewrite IH; simpl; [|lia|lia].
    rewrite lookup_insert_ne by lia. done.
Qed.

End Assembler.

(** ** The serializer *)

Section Serializer.

Context {ext : Type}.

Lemma string_append_assoc (a b c : string) :
  (a +:+ b) +:+ c = a +:+ (b +:+ c).
Proof.
  induction a as [|ch a IH]; [done|].
  change (String ch ((a +:+ b) +:+ c) = String ch (a +:+ b +:+ c)).
  by rewrite IH.
Qed.

Lemma string_append_nil_r (a : string) : a +:+ "" = a.
Proof.
  induction a as [|ch a IH]; [done|].
  change (String ch (a +:+ "") = String ch a). by rewrite IH.
Qed.

Lemma concat_strings_app (l1 l2 : list string) :
  concat_strings (l1 ++ l2) = concat_strings l1 +:+ concat_strings l2.
Proof.
  induction l1 as [|s l1 IH]; simpl; [done|].
  by rewrite IH, string_append_assoc.
Qed.

Lemma fprintf_fprintf name s1 s2 (w : world ext) :
  fprintf name s2 (fprintf name s1 w) = fprintf name (s1 +:+ s2) w.
Proof.
  unfold fprintf. simpl.
  rewrite lookup_insert_eq, insert_insert_eq. simpl.
  by rewrite string_append_assoc.
Qed.

(** A loop of [fprintf]s after an [fprintf] is one [fprintf] of the
    joined text. *)
Lemma for_loop_fprintf name (f : Z → string)
    (body : Z → world ext → world ext) :
  (∀ y w, body y w = fprintf name (f y) w) →
  ∀ (n : nat) i s0 w,
    for_loop n i body (fprintf name s0 w)
    = fprintf name (s0 +:+ concat_strings (f <$> seqZ i (Z.of_nat n))) w.
Proof.
  intros Hbody. induction n as [|n IH]; intros i s0 w.
  - simpl. by rewrite string_append_nil_r.
  - cbn [for_loop]. rewrite Hbody, fprintf_fprintf, IH.
    rewrite (seqZ_cons i (Z.of_nat (S n))) by lia.
    replace (Z.pred (Z.of_nat (S n))) with (Z.of_nat n) by lia.
    cbn [fmap list_fmap concat_strings foldr].
    by rewrite string_append_assoc.
Qed.

Lemma for_range_fprintf name (f : Z → string)
    (body : Z → world ext → world ext) :
  (∀ y w, body y w = fprintf name (f y) w) →
  ∀ Y s0 w,
    for_range 0 Y body (fprintf name s0 w)
    = fprintf name (s0 +:+ concat_strings (f <$> seqZ 0 Y)) w.
Proof.
  intros Hbody Y s0 w. unfold for_range.
  rewrite (for_loop_fprintf name f body Hbody).
  replace (seqZ 0 (Z.of_nat (Z.to_nat (Y - 0)))) with (seqZ 0 Y); [done|].
  unfold seqZ. rewrite Nat2Z.id. by replace (Y - 0) with Y by lia.
Qed.

(** The two nested loops of the serializer and of the descriptor. *)
Lemma for_grid_fprintf name (g : Z → Z → string)
    (body : Z → Z → world ext → world ext) :
  (∀ x y w, body x y w = fprintf name (g x y) w) →
  ∀ X Y s0 w,
    for_range 0 X (λ x w, for_range 0 Y (body x) w) (fprintf name s0 w)
    = fprintf name (s0 +:+ grid_text g X Y) w.
Proof.
  intros Hbody X Y s0 w. unfold grid_text.
  assert (∀ (n : nat) i s0 w,
    for_loop n i (λ x w, for_range 0 Y (body x) w) (fprintf name s0 w)
    = fprintf name
        (s0 +:+ concat_strings
                  (seqZ i (Z.of_nat n) ≫= λ x, g x <$> seqZ 0 Y)) w)
    as Hloop.
  { induction n as [|n IH]; intros i s1 w1.
    - simpl. by rewrite string_append_nil_r.
    - cbn [for_loop].
      rewrite (for_range_fprintf name (g i) (body i) (Hbody i)), IH.
      rewrite (seqZ_cons i (Z.of_nat (S n))) by lia.
      replace (Z.pred (Z.of_nat (S n))) with (Z.of_nat n) by lia.
      cbn [mbind list_bind]. rewrite concat_strings_app.
      by rewrite string_append_assoc. }
  unfold for_range at 1. rewrite Hloop.
  replace (seqZ 0 (Z.of_nat (Z.to_nat (X - 0)))) with (seqZ 0 X); [done|].
  unfold seqZ. rewrite Nat2Z.id. by replace (X - 0) with X by lia.
Qed.

Lemma is_digit_pretty_N_char (x : N) : is_digit (pretty_N_char x) = true.
Proof.
  destruct x as [|p]; [done|].
  repeat (destruct p as [p|p|]; try done).
Qed.

Lemma strftime_T_shape (t : tm) :
  ∃ ts, strftime_T 20 t = Some ts ∧ hhmmss ts = true.
Proof.
  eexists. split; [reflexivity|].
  unfold two_digits. lazy beta iota zeta delta [String.append hhmmss].
  rewrite !is_digit_pretty_N_char. done.
Qed.

Lemma to_int16_range (v : Z) : -32768 ≤ to_int16 v < 32768.
Proof.
  unfold to_int16, u16.
  pose proof (Z.mod_pos_bound v 65536 ltac:(lia)).
  destruct (Z.ltb_spec (v mod 65536) 32768); lia.
Qed.

Lemma to_int32_small (v : Z) : 0 ≤ v < 2147483648 → to_int32 v = v.
Proof.
  intros Hv. unfold to_int32, u32. rewrite Z.mod_small by lia.
  destruct (Z.ltb_spec v 2147483648); lia.
Qed.

Lemma fmap_grid {A B : Type} (h : A → B) (c : Z → Z → A) (l ys : list Z) :
  h <$> (l ≫= λ x, c x <$> ys) = l ≫= λ x, (λ y, h (c x y)) <$> ys.
Proof.
  induction l as [|x l IH]; [done|].
  cbn [mbind list_bind]. by rewrite fmap_app, IH, <- list_fmap_compose.
Qed.

Lemma length_grid {A : Type} (f : Z → Z → A) (X Y : Z) :
  length (seqZ 0 X ≫= λ x, f x <$> seqZ 0 Y)
  = (Z.to_nat X * Z.to_nat Y)%nat.
Proof.
  rewrite <- (length_seqZ 0 X). generalize (seqZ 0 X) as l.
  induction l as [|x l IH]; [done|].
  cbn [mbind list_bind]. rewrite length_app, IH, length_fmap, length_seqZ.
  simpl. lia.
Qed.

End Serializer.

(** C9, as the specification words it, fails: when the local time cannot
    be read the serializer returns -1 at its first test and appends no
    record for the frame. *)
Lemma C9_no_record_without_clock :
  mxt_hawkeye_output no_clock first_frame (Sim.start Sim.idle)
  = (-1, Sim.start Sim.idle)
  ∧ ¬ ∃ timestr,
        (mxt_hawkeye_output no_clock first_frame (Sim.start Sim.idle)).2
        = fprintf (hawkeye first_frame)
            (log_record timestr (frame first_frame) (frame_cells first_frame))
            (Sim.start Sim.idle).
Proof.
  split; [reflexivity|]. intros (timestr & Heq).
  apply (f_equal (λ w, files w !! "hawkeye.csv")) in Heq.
  cbn [mxt_hawkeye_output no_clock localtime_now snd] in Heq.
  unfold fprintf in Heq. cbn [files] in Heq.
  change (hawkeye first_frame) with "hawkeye.csv" in Heq.
  rewrite lookup_insert_eq in Heq. discriminate Heq.
Qed.

(** The frame number is an [unsigned int] printed with [%d]: frame 2^31
    is written as a negative number. *)
Example frame_number_printed_signed :
  files (mxt_hawkeye_output (Sim.sim ok_cfg)
           (set_x_size 0 (set_frame 2147483648 first_frame))
           (Sim.start Sim.idle)).2 !! "hawkeye.csv"
  = Some ("09:05:30,-2147483648," +:+ nl).
Proof. vm_compute. reflexivity. Qed.

(** C9 (amended): when the local time can be read, the serializer
    appends to the log exactly one record: the time as [HH:MM:SS], the
    frame number, then each of the [x_size * y_size] cells in column-major
    order ([x] outer, [y] inner) as a decimal signed 16-bit integer, a
    comma after every field including the last value, and a newline.  The
    frame number is taken below 2^31: above, the [%d] that prints the
    unsigned counter writes a negative number. *)
Theorem C9_one_record_per_frame {ext : Type} (P : platform ext)
    (dd : mxt_debug_data) (w : world ext) (t : tm) :
  localtime_now P (ext_state w) = Some t →
  0 ≤ frame dd < 2147483648 →
  ∃ timestr,
    hhmmss timestr = true
    ∧ mxt_hawkeye_output P dd w
      = (0, fprintf (hawkeye dd)
              (log_record timestr (frame dd) (frame_cells dd)) w)
    ∧ length (frame_cells dd)
      = (Z.to_nat (x_size dd) * Z.to_nat (y_size dd))%nat
    ∧ Forall (λ v, -32768 ≤ v < 32768) (frame_cells dd).
Proof.
  intros Hclock Hframe.
  destruct (strftime_T_shape t) as (ts & Hts & Hshape).
  exists ts. split; [done|]. split; [|split].
  - unfold mxt_hawkeye_output. rewrite Hclock, Hts.
    rewrite fprintf_fprintf.
    rewrite (for_grid_fprintf (hawkeye dd)
               (λ x y, fmt_d (to_int16 (cell (data_buf dd)
                                          (y + x * y_size dd))) +:+ ","))
      by done.
    rewrite fprintf_fprintf, to_int32_small by done.
    unfold log_record, grid_text, frame_cells.
    rewrite !string_append_assoc.
    by rewrite (fmap_grid (λ v, fmt_d v +:+ ",")).
  - apply length_grid.
  - unfold frame_cells. apply Forall_forall. intros v Hv.
    apply list_elem_of_bind in Hv as (x & Hv & _).
    apply list_elem_of_fmap in Hv as (y & -> & _).
    apply to_int16_range.
Qed.

Lemma C9_one_record_per_frame_witness :
  (mxt_hawkeye_output (Sim.sim ok_cfg)
     (set_frame 1 (set_hawkeye "hawkeye.csv" last_column))
     (Sim.start Sim.idle)).1 = 0.
Proof.
  destruct (C9_one_record_per_frame (Sim.sim ok_cfg)
              (set_frame 1 (set_hawkeye "hawkeye.csv" last_column))
              (Sim.start Sim.idle) (Tm 9 5 30))
    as (ts & _ & Heq & _).
  - reflexivity.
  - vm_compute. split; [discriminate|reflexivity].
  - rewrite Heq. reflexivity.
Defined.

(** ** A capture of no frame *)

Section Capture.

Context {ext : Type} (P : platform ext).

(** The [switch] only logs: it issues no register access and leaves the
    chip and the files alone. *)
Lemma switch_family_quiet ns0 pps0 dd (w : world ext) ns pps dd' w' :
  switch_family P (ns0, pps0, dd, w) = (ns, pps, dd', w') →
  ext_state w' = ext_state w
  ∧ files w' = files w
  ∧ List.filter is_reg (trace w') = List.filter is_reg (trace w).
Proof.
  unfold switch_family, case_0x80, case_0xA0, case_0xA1, case_0xA2,
    case_default, LOG.
  repeat match goal with
         | |- context [if ?b then _ else _] => destruct b
         end;
    intros [= <- <- <- <-]; simpl;
    rewrite ?List.filter_app, ?app_nil_r; done.
Qed.

Lemma frame_loop_done fuel pfuel frames ns pps dd (w : world ext) :
  frames < frame dd →
  frame_loop P fuel pfuel frames ns pps dd w = (LoopDone, dd, w).
Proof.
  intros Hlt. destruct fuel; simpl;
    destruct (Z.leb_spec (frame dd) frames); done || lia.
Qed.

Lemma control_file_written dd (w : world ext) :
  fopen_ok P (ext_state w) "control.txt" = true →
  mxt_hawkeye_generate_control_file P dd w
  = World (ext_state w) (trace w)
      (<["control.txt" := control_descriptor (x_size dd) (y_size dd)]>
         (files w)).
Proof.
  intros Hopen. unfold mxt_hawkeye_generate_control_file, fopen_w.
  rewrite Hopen.
  rewrite (for_grid_fprintf "control.txt" descriptor_line
             (λ x y w, fprintf "control.txt" (descriptor_line x y) w))
    by done.
  unfold fprintf. simpl.
  by rewrite lookup_insert_eq, insert_insert_eq.
Qed.

End Capture.

(** C10: with a frame count of 0, when the diagnostic objects are found,
    the stripe count is not zero, and the allocations and the two
    [fopen]s succeed, the run returns 0 without a single register access:
    the chip is as before, [hawkeye.csv] exists and is empty, and
    [control.txt] holds the whole column-layout descriptor. *)
Theorem C10_zero_frames {ext : Type} (P : platform ext) (fuel : nat)
    (mode_arg : Z) (uninit : mxt_debug_data) (ns0 pps0 : Z) (w : world ext)
    (dd1 dd2 : mxt_debug_data) (ns pps : Z) (w2 : world ext)
    (bytes cells : list Z) :
  get_objects_addr P (set_mode (u8 mode_arg) uninit) = (0, dd1) →
  switch_family P (ns0, pps0, dd1, w) = (ns, pps, dd2, w2) →
  ns ≠ 0 →
  malloc_u8 P (ext_state w) (t37_size dd2) = Some bytes →
  malloc_u16 P (ext_state w) (x_size dd2 * matrix_y_size P) = Some cells →
  fopen_ok P (ext_state w) "hawkeye.csv" = true →
  fopen_ok P (ext_state w) "control.txt" = true →
  ∃ dd' w',
    mxt_debug_dump P fuel mode_arg 0 uninit ns0 pps0 w = (Returned 0, dd', w')
    ∧ List.filter is_reg (trace w') = List.filter is_reg (trace w)
    ∧ ext_state w' = ext_state w
    ∧ files w' !! "hawkeye.csv" = Some ""
    ∧ files w' !! "control.txt"
      = Some (control_descriptor (x_size dd2) (matrix_y_size P)).
Proof.
  intros Hobj Hsw Hns Hm8 Hm16 Hcsv Hctl.
  destruct (switch_family_quiet P _ _ _ _ _ _ _ _ Hsw) as (He & Hf & Ht).
  unfold mxt_debug_dump. rewrite Hobj. cbn [Z.eqb negb]. rewrite Hsw.
  destruct (Z.eqb_spec ns 0) as [|_]; [done|].
  cbn [LOG ext_state t37_size set_page_size set_num_stripes set_stripe_width
       set_y_size x_size y_size set_page_buf].
  rewrite He, Hm8, Hm16. unfold fopen_w. cbn [ext_state LOG].
  rewrite He, Hcsv.
  change (get_num_frames 0) with 0.
  rewrite frame_loop_done by (cbn [frame set_frame]; lia).
  rewrite control_file_written by done.
  eexists _, _. split; [reflexivity|].
  cbn [trace ext_state files x_size y_size set_frame set_hawkeye
       set_data_buf set_page_buf set_y_size set_stripe_width
       set_num_stripes set_page_size].
  split; [|split; [done|split]].
  - cbn [LOG trace]. rewrite !List.filter_app, Ht. cbn.
    by rewrite !app_nil_r.
  - rewrite lookup_insert_ne by done. by rewrite lookup_insert_eq.
  - by rewrite lookup_insert_eq.
Qed.

Lemma C10_zero_frames_witness :
  (mxt_debug_dump (Sim.sim ok_cfg) 0 DELTAS_MODE 0 Sim.blank 0 0
     (Sim.start Sim.idle)).1.1 = Returned 0.
Proof.
  edestruct (C10_zero_frames (Sim.sim ok_cfg) 0 DELTAS_MODE Sim.blank 0 0
               (Sim.start Sim.idle))
    as (dd' & w' & Heq & _).
  - vm_compute. reflexivity.
  - vm_compute. reflexivity.
  - discriminate.
  - vm_compute. reflexivity.
  - vm_compute. reflexivity.
  - reflexivity.
  - reflexivity.
  - rewrite Heq. reflexivity.
Defined.

(** ** The commands of a capture: when the mode is written *)

Lemma emits_refl t : emits t t [].
Proof. exists []. by rewrite app_nil_r. Qed.

Lemma emits_trans t1 t2 t3 c1 c2 :
  emits t1 t2 c1 → emits t2 t3 c2 → emits t1 t3 (c1 ++ c2).
Proof.
  intros (e1 & -> & <-) (e2 & -> & <-). exists (e1 ++ e2).
  unfold commands. by rewrite app_assoc, omap_app.
Qed.

Lemma emits_snoc t t' cs e :
  emits t t' cs → emits t (t' ++ [e]) (cs ++ commands [e]).
Proof.
  intros H. apply (emits_trans _ _ _ _ _ H). by exists [e].
Qed.

Lemma emits_quiet t t' cs e :
  command_of e = None → emits t t' cs → emits t (t' ++ [e]) cs.
Proof.
  intros He H. replace cs with (cs ++ commands [e]); [by apply emits_snoc|].
  unfold commands. simpl. rewrite He. apply app_nil_r.
Qed.

Create HintDb emits.
#[local] Hint Resolve emits_refl emits_quiet : emits.

Section Commands.

Context {ext : Type} (P : platform ext).

Lemma wait_command_emits dd (fuel : nat) :
  ∀ rc failures (w : world ext) t cs,
    emits t (trace w) cs →
    emits t (trace (wait_command P fuel rc failures dd w).2) cs.
Proof.
  induction fuel as [|fuel IH]; intros rc failures w t cs Hw; simpl.
  - by destruct (rc =? 0).
  - destruct (rc =? 0); [done|]. unfold reg_read.
    destruct (mxt_read_register P _ _ _) as [[ret data] e].
    destruct (ret <? 0); [cbn; auto with emits|].
    destruct (byte0 data =? 0); cbn [negb].
    + apply IH. cbn. auto with emits.
    + destruct (failures + 1 >? 500); [cbn; auto with emits|].
      apply IH. cbn. auto with emits.
Qed.

Lemma write_command_emits dd (w : world ext) :
  emits (trace w) (trace (write_command P dd w))
        [command_for (mode dd) (page dd)].
Proof.
  unfold write_command, command_for, reg_write, LOG.
  destruct (page dd =? 0); cbn [trace ext_state files];
    destruct (mxt_write_register P _ _ _ _) as [ret e]; cbn [snd trace].
  - apply (emits_snoc _ _ [] (EvWrite _ _ _)). auto with emits.
  - apply (emits_snoc _ _ [] (EvWrite _ _ _)). auto with emits.
Qed.

(** A page fetch writes one command, the one for its page index, whatever
    its outcome; it leaves the mode and the stripe as they are. *)
Lemma dump_page_commands fuel dd (w : world ext) :
  emits (trace w) (trace (mxt_debug_dump_page P fuel dd w).2)
        [command_for (mode dd) (page dd)]
  ∧ mode (mxt_debug_dump_page P fuel dd w).1.2 = mode dd
  ∧ stripe (mxt_debug_dump_page P fuel dd w).1.2 = stripe dd.
Proof.
  unfold mxt_debug_dump_page.
  pose proof (wait_command_emits dd fuel 1 0 _ _ _
                (write_command_emits dd w)) as Hwait.
  destruct (wait_command P fuel 1 0 dd (write_command P dd w))
    as [[| |] w1]; cbn [snd] in Hwait; [|done..].
  unfold reg_read.
  destruct (mxt_read_register P (ext_state w1) _ _) as [[ret1 d1] e1].
  cbn [ext_state trace files].
  destruct (ret1 <? 0); [cbn; auto with emits|].
  destruct (mxt_read_register P e1 _ _) as [[ret2 d2] e2].
  destruct (ret2 <? 0); [cbn; auto with emits|].
  destruct (negb (byte0 d1 =? mode dd) || negb (byte0 d2 =? page dd));
    [cbn; auto with emits|].
  cbn [ext_state trace files].
  destruct (mxt_read_register P e2 _ _) as [[ret3 d3] e3].
  destruct (ret3 <? 0); cbn; auto 6 with emits.
Qed.

Lemma insert_loop_quiet (n : nat) :
  ∀ i dd (w : world ext) t cs,
    emits t (trace w) cs →
    emits t (trace (insert_loop n i dd w).2) cs
    ∧ mode (insert_loop n i dd w).1.2 = mode dd
    ∧ stripe (insert_loop n i dd w).1.2 = stripe dd.
Proof.
  induction n as [|n IH]; intros i dd w t cs Hw; [done|].
  simpl. destruct (x_ptr dd >? x_size dd); [cbn; auto with emits|].
  destruct (y_ptr dd + 1 >? stripe_endy dd);
    (edestruct IH as (H1 & H2 & H3); [exact Hw|]);
    rewrite H2, H3; split; [exact H1|done|exact H1|done].
Qed.

Lemma insert_data_quiet dd (w : world ext) t cs :
  emits t (trace w) cs →
  emits t (trace (mxt_debug_insert_data dd w).2) cs
  ∧ mode (mxt_debug_insert_data dd w).1.2 = mode dd
  ∧ stripe (mxt_debug_insert_data dd w).1.2 = stripe dd.
Proof.
  intros Hw. unfold mxt_debug_insert_data.
  destruct (insert_loop_quiet (Z.to_nat ((page_size dd + 1) / 2)) 0 dd w
              t cs Hw) as (H1 & H2 & H3).
  destruct (insert_loop _ _ _ _) as [[[r|] dd'] w']; done.
Qed.

Lemma hawkeye_output_trace dd (w : world ext) :
  trace (mxt_hawkeye_output P dd w).2 = trace w.
Proof.
  unfold mxt_hawkeye_output.
  destruct (localtime_now P (ext_state w)) as [t|]; [|done].
  destruct (strftime_T 20 t) as [ts|]; [|done].
  rewrite fprintf_fprintf.
  rewrite (for_grid_fprintf (hawkeye dd)
             (λ x y, fmt_d (to_int16 (cell (data_buf dd)
                                        (y + x * y_size dd))) +:+ ","))
    by done.
  done.
Qed.

End Commands.

Section CaptureCommands.

Context {ext : Type} (P : platform ext).

Lemma seqZ_S_cons (a : Z) (n : nat) :
  seqZ a (Z.of_nat (S n)) = a :: seqZ (a + 1) (Z.of_nat n).
Proof.
  rewrite seqZ_cons by lia.
  by replace (Z.pred (Z.of_nat (S n))) with (Z.of_nat n) by lia.
Qed.

(** The pages of a stripe: one command per page fetched, in page order,
    all of them when the loop runs to its end. *)
Lemma page_loop_commands fuel (n : nat) :
  ∀ pg pps dd (w : world ext),
    ∃ cs,
      emits (trace w) (trace (page_loop P fuel n pg pps dd w).2) cs
      ∧ cs `prefix_of`
          (command_for (mode dd) <$> seqZ (pps * stripe dd + pg) (Z.of_nat n))
      ∧ ((page_loop P fuel n pg pps dd w).1.1 = LoopDone →
         cs = command_for (mode dd)
                <$> seqZ (pps * stripe dd + pg) (Z.of_nat n))
      ∧ mode (page_loop P fuel n pg pps dd w).1.2 = mode dd
      ∧ stripe (page_loop P fuel n pg pps dd w).1.2 = stripe dd.
Proof.
  induction n as [|n IH]; intros pg pps dd w.
  - exists []. simpl. repeat split; auto with emits.
  - rewrite seqZ_S_cons. cbn [page_loop fmap list_fmap].
    set (dd0 := set_page (pps * stripe dd + pg) dd).
    set (w0 := LOG LOG_INFO _ w).
    assert (emits (trace w) (trace w0) []) as Hw0
      by (subst w0; cbn; auto with emits).
    destruct (dump_page_commands P fuel dd0 w0) as (He & Hm & Hs).
    destruct (mxt_debug_dump_page P fuel dd0 w0) as [[[ret|] dd1] w1].
    + cbn [fst snd] in He, Hm, Hs.
      pose proof (emits_trans _ _ _ _ _ Hw0 He) as Hw1. cbn in Hw1.
      destruct (ret <? 0).
      * eexists. cbn [fst snd LOG trace].
        split; [apply emits_quiet; [done|exact Hw1]|].
        split; [apply prefix_cons, prefix_nil|]. done.
      * destruct (insert_data_quiet dd1 w1 _ _ Hw1) as (Hi & Him & His).
        destruct (mxt_debug_insert_data dd1 w1) as [[r2 dd2] w2].
        cbn [fst snd] in Hi, Him, His.
        destruct (IH (pg + 1) pps dd2 w2) as (cs & Hcs & Hpre & Hdone & Hm2 & Hs2).
        rewrite Him, Hm, His, Hs in *. cbn [mode stripe dd0 set_page] in *.
        replace (pps * stripe dd + (pg + 1)) with (pps * stripe dd + pg + 1)
          in * by lia.
        exists (command_for (mode dd) (pps * stripe dd + pg) :: cs).
        split; [exact (emits_trans _ _ _ _ _ Hi Hcs)|].
        split; [by apply prefix_cons|].
        split; [intros Hd; by rewrite (Hdone Hd)|done].
    + cbn [fst snd] in He, Hm, Hs.
      pose proof (emits_trans _ _ _ _ _ Hw0 He) as Hw1. cbn in Hw1.
      eexists. cbn [fst snd].
      split; [exact Hw1|]. split; [apply prefix_cons, prefix_nil|]. done.
Qed.

(** The page indices of [n] stripes from stripe [s] on: those of stripe
    [s], then those of the stripes after it. *)
Lemma stripe_pages_split (pps s : Z) (n : nat) :
  seqZ (pps * s) (Z.of_nat (S n * Z.to_nat pps))
  = seqZ (pps * s + 0) (Z.of_nat (Z.to_nat pps))
      ++ seqZ (pps * (s + 1)) (Z.of_nat (n * Z.to_nat pps)).
Proof.
  destruct (Z.le_gt_cases 0 pps) as [Hpos|Hneg].
  - replace (Z.of_nat (S n * Z.to_nat pps))
      with (Z.of_nat (Z.to_nat pps) + Z.of_nat (n * Z.to_nat pps)) by lia.
    rewrite seqZ_app by lia. f_equal; f_equal; lia.
  - replace (Z.to_nat pps) with 0%nat by lia.
    rewrite !Nat.mul_0_r. by rewrite !seqZ_nil.
Qed.

(** The stripes of a frame. *)
Lemma stripe_loop_commands fuel pps (n : nat) :
  ∀ dd (w : world ext),
    ∃ cs,
      emits (trace w) (trace (stripe_loop P fuel n pps dd w).2) cs
      ∧ cs `prefix_of`
          (command_for (mode dd)
             <$> seqZ (pps * stripe dd) (Z.of_nat (n * Z.to_nat pps)))
      ∧ ((stripe_loop P fuel n pps dd w).1.1 = LoopDone →
         cs = command_for (mode dd)
                <$> seqZ (pps * stripe dd) (Z.of_nat (n * Z.to_nat pps)))
      ∧ mode (stripe_loop P fuel n pps dd w).1.2 = mode dd.
Proof.
  induction n as [|n IH]; intros dd w.
  - exists []. simpl. repeat split; auto with emits.
  - rewrite stripe_pages_split, fmap_app. cbn [stripe_loop].
    set (dd0 := set_y_ptr _ _).
    destruct (page_loop_commands fuel (Z.to_nat pps) 0 pps dd0 w)
      as (cs1 & He1 & Hp1 & Hd1 & Hm1 & Hs1).
    cbn [dd0 mode stripe set_y_ptr set_x_ptr set_stripe_endy
         set_stripe_starty] in Hp1, Hd1, Hm1, Hs1.
    destruct (page_loop P fuel (Z.to_nat pps) 0 pps dd0 w)
      as [[[|ret|] dd1] w1]; cbn [fst snd] in *.
    + destruct (IH (set_stripe (stripe dd1 + 1) dd1) w1)
        as (cs2 & He2 & Hp2 & Hd2 & Hm2).
      cbn [mode stripe set_stripe] in Hp2, Hd2, Hm2.
      rewrite Hm1, Hs1 in *. pose proof (Hd1 eq_refl) as ->.
      eexists. split; [exact (emits_trans _ _ _ _ _ He1 He2)|].
      split; [by apply prefix_app|].
      split; [intros Hd; by rewrite (Hd2 Hd)|done].
    + exists cs1. split; [done|]. split; [by apply prefix_app_r|]. done.
    + exists cs1. split; [done|]. split; [by apply prefix_app_r|]. done.
Qed.

Lemma once_per_frame_nil m N : once_per_frame m N [].
Proof. intros i c Hi. by rewrite lookup_nil in Hi. Qed.

Lemma frame_commands_lookup m (N i : nat) c :
  (command_for m <$> seqZ 0 (Z.of_nat N)) !! i = Some c →
  (i < N)%nat ∧ c = command_for m (Z.of_nat i).
Proof.
  rewrite list_lookup_fmap. intros Hi.
  destruct (seqZ 0 (Z.of_nat N) !! i) as [pg|] eqn:Hpg; [|done].
  apply lookup_seqZ in Hpg as [-> Hlt]. simplify_eq/=. split; [lia|done].
Qed.

Lemma once_per_frame_prefix m (N : nat) cs :
  cs `prefix_of` (command_for m <$> seqZ 0 (Z.of_nat N)) →
  once_per_frame m N cs.
Proof.
  intros Hpre i c Hi.
  apply (prefix_lookup_Some _ _ _ _ Hi) in Hpre.
  apply frame_commands_lookup in Hpre as [Hlt ->].
  by rewrite Nat.mod_small.
Qed.

Lemma once_per_frame_app m (N : nat) cs :
  once_per_frame m N cs →
  once_per_frame m N ((command_for m <$> seqZ 0 (Z.of_nat N)) ++ cs).
Proof.
  intros Hcs i c Hi.
  destruct (decide (i < N)%nat) as [Hlt|Hge].
  - rewrite lookup_app_l in Hi by (by rewrite length_fmap, length_seqZ, Nat2Z.id).
    apply frame_commands_lookup in Hi as [_ ->].
    by rewrite Nat.mod_small.
  - rewrite lookup_app_r in Hi by (rewrite length_fmap, length_seqZ; lia).
    rewrite length_fmap, length_seqZ, Nat2Z.id in Hi.
    apply Hcs in Hi as ->.
    replace i with ((i - N) + 1 * N)%nat at 2 by lia.
    by rewrite Nat.Div0.mod_add.
Qed.

(** The frames of a session: whatever the fuel and however the loop
    ends, the commands written follow the per-frame pattern. *)
Lemma frame_loop_commands pfuel frames ns pps (fuel : nat) :
  ∀ dd (w : world ext),
    ∃ cs,
      emits (trace w)
            (trace (frame_loop P fuel pfuel frames ns pps dd w).2) cs
      ∧ once_per_frame (mode dd) (Z.to_nat ns * Z.to_nat pps) cs.
Proof.
  induction fuel as [|fuel IH]; intros dd w; cbn [frame_loop].
  - exists []. split; [|apply once_per_frame_nil].
    destruct (negb _); cbn; auto with emits.
  - destruct (negb _).
    { exists []. split; [cbn; auto with emits|apply once_per_frame_nil]. }
    destruct (stripe_loop_commands pfuel pps (Z.to_nat ns) (set_stripe 0 dd) w)
      as (cs1 & He1 & Hp1 & Hd1 & Hm1).
    cbn [mode stripe set_stripe] in Hp1, Hd1, Hm1.
    rewrite Z.mul_0_r in Hp1, Hd1.
    destruct (stripe_loop P pfuel (Z.to_nat ns) pps (set_stripe 0 dd) w)
      as [[[|ret|] dd1] w1]; cbn [fst snd] in *.
    + pose proof (hawkeye_output_trace P dd1 w1) as Hout.
      destruct (mxt_hawkeye_output P dd1 w1) as [r w2]. cbn [snd] in Hout.
      destruct (IH (set_frame (u32 (frame dd1 + 1)) dd1) w2)
        as (cs2 & He2 & Hpol2).
      cbn [mode set_frame] in Hpol2. rewrite Hout in He2.
      rewrite Hm1 in Hpol2. pose proof (Hd1 eq_refl) as ->.
      eexists. split; [exact (emits_trans _ _ _ _ _ He1 He2)|].
      by apply once_per_frame_app.
    + exists cs1. split; [done|]. by apply once_per_frame_prefix.
    + exists cs1. split; [done|]. by apply once_per_frame_prefix.
Qed.

Lemma switch_family_emits ns0 pps0 dd (w : world ext) ns pps dd' w' :
  switch_family P (ns0, pps0, dd, w) = (ns, pps, dd', w') →
  emits (trace w) (trace w') [] ∧ mode dd' = mode dd.
Proof.
  unfold switch_family, case_0x80, case_0xA0, case_0xA1, case_0xA2,
    case_default, LOG.
  repeat match goal with
         | |- context [if ?b then _ else _] => destruct b
         end;
    intros [= <- <- <- <-]; cbn; auto 6 with emits.
Qed.

Lemma get_objects_addr_mode dd dd' r :
  get_objects_addr P dd = (r, dd') → mode dd' = mode dd.
Proof.
  unfold get_objects_addr.
  repeat match goal with
         | |- context [if ?b then _ else _] => destruct b
         end;
    by intros [= <- <-].
Qed.

Lemma control_file_emits dd (w : world ext) t cs :
  emits t (trace w) cs →
  emits t (trace (mxt_hawkeye_generate_control_file P dd w)) cs.
Proof.
  intros Hw. unfold mxt_hawkeye_generate_control_file, fopen_w.
  destruct (fopen_ok P (ext_state w) "control.txt").
  - rewrite (for_grid_fprintf "control.txt" descriptor_line
               (λ x y w, fprintf "control.txt" (descriptor_line x y) w))
      by done.
    done.
  - cbn. auto with emits.
Qed.

(** The whole run: once the objects are found, the commands written by
    [mxt_debug_dump] follow the per-frame pattern of the geometry that
    the [switch] leaves. *)
Lemma debug_dump_commands fuel mode_arg stdin_frames uninit ns0 pps0
    (w : world ext) dd1 ns pps dd2 w2 :
  get_objects_addr P (set_mode (u8 mode_arg) uninit) = (0, dd1) →
  switch_family P (ns0, pps0, dd1, w) = (ns, pps, dd2, w2) →
  ∃ cs,
    emits (trace w)
      (trace (mxt_debug_dump P fuel mode_arg stdin_frames uninit
                ns0 pps0 w).2) cs
    ∧ once_per_frame (u8 mode_arg) (Z.to_nat ns * Z.to_nat pps) cs.
Proof.
  intros Hobj Hsw.
  pose proof (get_objects_addr_mode _ _ _ Hobj) as Hm1.
  destruct (switch_family_emits _ _ _ _ _ _ _ _ Hsw) as (He2 & Hm2).
  cbn [mode set_mode] in Hm1.
  unfold mxt_debug_dump. rewrite Hobj. cbn [Z.eqb negb]. rewrite Hsw.
  destruct (ns =? 0).
  { exists []. split; [done|apply once_per_frame_nil]. }
  set (w3 := LOG LOG_INFO _ (LOG LOG_INFO _ (LOG LOG_INFO _
               (LOG LOG_INFO _ (LOG LOG_INFO _ w2))))).
  assert (emits (trace w) (trace w3) []) as He3
    by (subst w3; cbn; auto 8 with emits).
  destruct (malloc_u8 P (ext_state w3) _) as [bytes|].
  2: { exists []. split; [cbn; auto with emits|apply once_per_frame_nil]. }
  destruct (malloc_u16 P (ext_state w3) _) as [cells|].
  2: { exists []. split; [cbn; auto with emits|apply once_per_frame_nil]. }
  unfold fopen_w. destruct (fopen_ok P (ext_state w3) "hawkeye.csv").
  2: { exists []. split; [done|apply once_per_frame_nil]. }
  match goal with
  | |- context [frame_loop P fuel fuel ?f ns pps ?dd ?w0] =>
      destruct (frame_loop_commands fuel f ns pps fuel dd w0)
        as (cs & He & Hpol);
      destruct (frame_loop P fuel fuel f ns pps dd w0) as [[[|ret|] dd'] w']
  end; cbn [fst snd trace] in He;
    cbn [mode set_frame set_hawkeye set_data_buf set_page_buf set_y_size
         set_stripe_width set_num_stripes set_page_size] in Hpol;
    rewrite Hm2, Hm1 in Hpol;
    exists cs; (split; [|exact Hpol]); cbn [fst snd].
  - apply control_file_emits. exact (emits_trans _ _ _ _ _ He3 He).
  - exact (emits_trans _ _ _ _ _ He3 He).
  - exact (emits_trans _ _ _ _ _ He3 He).
Qed.

End CaptureCommands.

(** ** The model does not run out of fuel

    The command poll ends within 501 reads, and the frame loop within
    [frames] turns unless [frames] is the largest [unsigned int], in which
    case the counter of the source wraps to 0 and its loop has no end. *)

Section Totality.

Context {ext : Type} (P : platform ext).

Lemma dump_page_total fuel dd (w : world ext) :
  (501 ≤ fuel)%nat → (mxt_debug_dump_page P fuel dd w).1.1 ≠ None.
Proof.
  intros Hfuel. unfold mxt_debug_dump_page.
  pose proof (wait_command_total P dd fuel 1 0 (write_command P dd w)
                ltac:(lia) ltac:(lia)) as Hwait.
  destruct (wait_command P fuel 1 0 dd (write_command P dd w))
    as [[| |] w1]; cbn [fst] in Hwait; [|done..].
  unfold reg_read. repeat case_match; done.
Qed.

Lemma dump_page_frame fuel dd (w : world ext) :
  frame (mxt_debug_dump_page P fuel dd w).1.2 = frame dd.
Proof.
  unfold mxt_debug_dump_page, reg_read. repeat case_match; done.
Qed.

Lemma insert_loop_frame (n : nat) :
  ∀ i dd (w : world ext), frame (insert_loop n i dd w).1.2 = frame dd.
Proof.
  induction n as [|n IH]; intros i dd w; [done|].
  simpl. repeat case_match; try done; by rewrite IH.
Qed.

Lemma insert_data_frame dd (w : world ext) :
  frame (mxt_debug_insert_data dd w).1.2 = frame dd.
Proof.
  unfold mxt_debug_insert_data.
  pose proof (insert_loop_frame (Z.to_nat ((page_size dd + 1) / 2)) 0 dd w).
  by destruct (insert_loop _ _ _ _) as [[[r|] dd'] w'].
Qed.

Lemma page_loop_total fuel (n : nat) :
  (501 ≤ fuel)%nat →
  ∀ pg pps dd (w : world ext),
    (page_loop P fuel n pg pps dd w).1.1 ≠ NoFuel
    ∧ frame (page_loop P fuel n pg pps dd w).1.2 = frame dd.
Proof.
  intros Hfuel. induction n as [|n IH]; intros pg pps dd w; [done|].
  cbn [page_loop].
  set (dd0 := set_page _ dd). set (w0 := LOG _ _ w).
  pose proof (dump_page_total fuel dd0 w0 Hfuel) as Htot.
  pose proof (dump_page_frame fuel dd0 w0) as Hfr.
  destruct (mxt_debug_dump_page P fuel dd0 w0) as [[[ret|] dd1] w1];
    cbn [fst snd] in *; [|done].
  destruct (ret <? 0); [done|].
  pose proof (insert_data_frame dd1 w1) as Hfr1.
  destruct (mxt_debug_insert_data dd1 w1) as [[r2 dd2] w2].
  cbn [fst snd] in Hfr1.
  destruct (IH (pg + 1) pps dd2 w2) as [H1 H2].
  split; [done|]. by rewrite H2, Hfr1, Hfr.
Qed.

Lemma stripe_loop_total fuel pps (n : nat) :
  (501 ≤ fuel)%nat →
  ∀ dd (w : world ext),
    (stripe_loop P fuel n pps dd w).1.1 ≠ NoFuel
    ∧ frame (stripe_loop P fuel n pps dd w).1.2 = frame dd.
Proof.
  intros Hfuel. induction n as [|n IH]; intros dd w; [done|].
  cbn [stripe_loop]. set (dd0 := set_y_ptr _ _).
  destruct (page_loop_total fuel (Z.to_nat pps) Hfuel 0 pps dd0 w)
    as [Htot Hfr].
  destruct (page_loop P fuel (Z.to_nat pps) 0 pps dd0 w)
    as [[[|ret|] dd1] w1]; cbn [fst snd] in *; [|done..].
  destruct (IH (set_stripe (stripe dd1 + 1) dd1) w1) as [H1 H2].
  split; [done|]. by rewrite H2.
Qed.

Lemma frame_loop_total pfuel frames ns pps (fuel : nat) :
  (501 ≤ pfuel)%nat →
  frames < 4294967295 →
  ∀ dd (w : world ext),
    0 ≤ frame dd →
    (Z.to_nat (frames + 1 - frame dd) ≤ fuel)%nat →
    (frame_loop P fuel pfuel frames ns pps dd w).1.1 ≠ NoFuel.
Proof.
  intros Hpfuel Hmax.
  induction fuel as [|fuel IH]; intros dd w Hfr Hfuel; cbn [frame_loop];
    destruct (Z.leb_spec (frame dd) frames) as [Hle|Hgt]; cbn [negb];
    try done; [lia|].
  destruct (stripe_loop_total pfuel pps (Z.to_nat ns) Hpfuel
              (set_stripe 0 dd) w) as [Htot Hfr1].
  destruct (stripe_loop P pfuel (Z.to_nat ns) pps (set_stripe 0 dd) w)
    as [[[|ret|] dd1] w1]; cbn [fst snd frame set_stripe] in *; [|done..].
  destruct (mxt_hawkeye_output P dd1 w1) as [r w2].
  apply IH; cbn [frame set_frame]; unfold u32;
    rewrite Z.mod_small by lia; lia.
Qed.

(** With fuel for 501 polls and for [frames] frames, [mxt_debug_dump]
    returns or stops on the division. *)
Lemma debug_dump_total fuel mode_arg stdin_frames uninit ns0 pps0
    (w : world ext) :
  (501 ≤ fuel)%nat →
  get_num_frames stdin_frames < 4294967295 →
  (Z.to_nat (get_num_frames stdin_frames) ≤ fuel)%nat →
  (mxt_debug_dump P fuel mode_arg stdin_frames uninit ns0 pps0 w).1.1
  ≠ OutOfFuel.
Proof.
  intros Hfuel Hmax Hframes. unfold mxt_debug_dump.
  destruct (get_objects_addr P _) as [ret dd1].
  destruct (negb (ret =? 0)); [done|].
  destruct (switch_family P _) as [[[ns pps] dd2] w2].
  destruct (ns =? 0); [done|].
  destruct (malloc_u8 P _ _); [|done].
  destruct (malloc_u16 P _ _); [|done].
  destruct (fopen_w _ _) as [w3|]; [|done].
  match goal with
  | |- context [frame_loop P fuel fuel ?f ns pps ?dd ?w0] =>
      pose proof (frame_loop_total fuel f ns pps fuel Hfuel Hmax dd w0) as Htot;
      destruct (frame_loop P fuel fuel f ns pps dd w0) as [[[|r|] dd'] w']
  end; try done.
  exfalso. apply Htot; cbn [fst frame set_frame]; [lia| |done].
  unfold get_num_frames, u32 in *.
  pose proof (Z.mod_pos_bound stdin_frames 4294967296 ltac:(lia)). lia.
Qed.

End Totality.

(** * Further properties of the code *)

(** ** The page fetch: what every fetch does *)

Section FetchFacts.

Context {ext : Type} (P : platform ext).

Lemma good_read_quiet e : is_read e = false → good_read e.
Proof. by destruct e. Qed.

(** The poll loop: its events, and how it can leave. *)
Lemma wait_command_events dd (fuel : nat) :
  ∀ rc failures (w : world ext),
    ∃ evs,
      trace (wait_command P fuel rc failures dd w).2 = trace w ++ evs
      ∧ files (wait_command P fuel rc failures dd w).2 = files w
      ∧ (Forall good_read evs
         ∨ ((wait_command P fuel rc failures dd w).1 = Leave (-1)
            ∧ stops_at_failed_read evs))
      ∧ (∀ r, (wait_command P fuel rc failures dd w).1 = Leave r → r = -1).
Proof.
  induction fuel as [|fuel IH]; intros rc failures w; cbn [wait_command].
  - exists []. rewrite app_nil_r.
    destruct (rc =? 0); cbn; (split; [done|]); (split; [done|]);
      (split; [by left|done]).
  - destruct (rc =? 0).
    { exists []. rewrite app_nil_r. cbn.
      split; [done|]. split; [done|]. split; [by left|done]. }
    unfold reg_read.
    destruct (mxt_read_register P (ext_state w) (diag_cmd_addr dd) 1)
      as [[ret data] e].
    destruct (Z.ltb_spec ret 0) as [Hneg|Hpos].
    + eexists. cbn. rewrite <- app_assoc. split; [reflexivity|].
      split; [done|]. split; [|by intros r [= <-]].
      right. split; [done|].
      eexists [], _, _, _, _, _. split; [cbn; reflexivity|].
      split; [done|]. split; repeat constructor.
    + set (w1 := World e _ _).
      assert (∀ rc' failures',
        ∃ evs, trace (wait_command P fuel rc' failures' dd w1).2
                 = trace w ++ evs
          ∧ files (wait_command P fuel rc' failures' dd w1).2 = files w
          ∧ (Forall good_read evs
             ∨ ((wait_command P fuel rc' failures' dd w1).1 = Leave (-1)
                ∧ stops_at_failed_read evs))
          ∧ (∀ r, (wait_command P fuel rc' failures' dd w1).1 = Leave r
                   → r = -1)) as Hrec.
      { intros rc' failures'.
        destruct (IH rc' failures' w1) as (evs & Htr & Hf & Hev & Hr).
        exists (EvRead (diag_cmd_addr dd) 1 ret data :: evs).
        rewrite Htr. subst w1. cbn [trace]. rewrite <- app_assoc.
        split; [done|]. split; [done|]. split; [|done].
        destruct Hev as [Hgood|[Hl (pre & a & c & ret' & d & logs & -> & ? & ? & ?)]].
        - left. by constructor.
        - right. split; [done|].
          exists (EvRead (diag_cmd_addr dd) 1 ret data :: pre), a, c, ret', d, logs.
          repeat split; auto. }
      destruct (byte0 data =? 0); cbn [negb]; [apply Hrec|].
      destruct (failures + 1 >? 500); [|apply Hrec].
      eexists. cbn. rewrite <- app_assoc. split; [reflexivity|].
      split; [done|]. split; [|by intros r [= <-]].
      left. repeat constructor. done.
Qed.

Lemma stops_prepend pre evs :
  Forall good_read pre → stops_at_failed_read evs →
  stops_at_failed_read (pre ++ evs).
Proof.
  intros Hpre (pre' & a & c & ret & d & logs & -> & ? & ? & ?).
  exists (pre ++ pre'), a, c, ret, d, logs. rewrite <- app_assoc.
  repeat split; auto. by apply Forall_app.
Qed.

Lemma stops_append evs e :
  is_reg e = false → stops_at_failed_read evs →
  stops_at_failed_read (evs ++ [e]).
Proof.
  intros He (pre & a & c & ret & d & logs & -> & ? & ? & ?).
  exists pre, a, c, ret, d, (logs ++ [e]). rewrite <- app_assoc.
  repeat split; auto. apply Forall_app. split; [done|]. by constructor.
Qed.

Lemma stops_here pre a c ret d logs :
  Forall good_read pre → ret < 0 → Forall (λ e, is_reg e = false) logs →
  stops_at_failed_read (pre ++ EvRead a c ret d :: logs).
Proof. intros. by exists pre, a, c, ret, d, logs. Qed.

Lemma write_command_events dd (w : world ext) :
  ∃ evs, trace (write_command P dd w) = trace w ++ evs
         ∧ files (write_command P dd w) = files w
         ∧ Forall good_read evs.
Proof.
  unfold write_command, reg_write, LOG.
  destruct (page dd =? 0); cbn [trace ext_state files];
    destruct (mxt_write_register P _ _ _ _) as [ret e]; cbn [snd trace files].
  - eexists. rewrite <- app_assoc. split; [reflexivity|]. split; [done|].
    by repeat constructor.
  - eexists. split; [reflexivity|]. split; [done|]. by repeat constructor.
Qed.

(** The events of a fetch: either no read failed, or the fetch returned -1
    right after the first failed read. *)
Lemma dump_page_events fuel dd (w : world ext) :
  ∃ evs,
    trace (mxt_debug_dump_page P fuel dd w).2 = trace w ++ evs
    ∧ files (mxt_debug_dump_page P fuel dd w).2 = files w
    ∧ (Forall good_read evs
       ∨ ((mxt_debug_dump_page P fuel dd w).1.1 = Some (-1)
          ∧ stops_at_failed_read evs))
    ∧ (∀ v, (mxt_debug_dump_page P fuel dd w).1.1 = Some v → v = 0 ∨ v = -1).
Proof.
  unfold mxt_debug_dump_page.
  destruct (write_command_events dd w) as (evs0 & Htr0 & Hf0 & Hg0).
  destruct (wait_command_events dd fuel 1 0 (write_command P dd w))
    as (evs1 & Htr1 & Hf1 & Hev1 & Hr1).
  destruct (wait_command P fuel 1 0 dd (write_command P dd w)) as [fl w1].
  cbn [fst snd] in *. rewrite Htr0, <- app_assoc in Htr1. rewrite Hf0 in Hf1.
  destruct fl as [|r|]; cbn [fst snd].
  2: { pose proof (Hr1 r eq_refl) as ->.
       exists (evs0 ++ evs1). split; [done|]. split; [done|]. split.
       - destruct Hev1 as [?|[_ ?]]; [left; by apply Forall_app|].
         right. split; [done|]. by apply stops_prepend.
       - intros v [= <-]. by right. }
  2: { exists (evs0 ++ evs1). split; [done|]. split; [done|]. split; [|done].
       destruct Hev1 as [?|[[=] ?]]. left. by apply Forall_app. }
  destruct Hev1 as [Hg1|[[=] ?]].
  assert (Forall good_read (evs0 ++ evs1)) as Hg by (by apply Forall_app).
  clear Hg0 Hg1 Hr1. revert Htr1 Hg. generalize (evs0 ++ evs1) as pre.
  intros pre Htr1 Hg. unfold reg_read.
  destruct (mxt_read_register P (ext_state w1) _ _) as [[ret1 d1] e1].
  cbn [ext_state trace files].
  destruct (Z.ltb_spec ret1 0).
  { eexists. cbn [fst snd LOG trace files]. rewrite Htr1, <- !app_assoc.
    split; [reflexivity|]. split; [done|]. split; [|intros v [= <-]; auto].
    right. split; [done|]. apply stops_prepend; [done|].
    apply (stops_here []); [done|done|by repeat constructor]. }
  destruct (mxt_read_register P e1 _ _) as [[ret2 d2] e2].
  destruct (Z.ltb_spec ret2 0).
  { eexists. cbn [fst snd LOG trace files]. rewrite Htr1, <- !app_assoc.
    split; [reflexivity|]. split; [done|]. split; [|intros v [= <-]; auto].
    right. split; [done|]. apply stops_prepend; [done|].
    apply (stops_here [_]); [by repeat constructor|done|by repeat constructor]. }
  destruct (negb (byte0 d1 =? mode dd) || negb (byte0 d2 =? page dd)).
  { eexists. cbn [fst snd LOG trace files]. rewrite Htr1, <- !app_assoc.
    split; [reflexivity|]. split; [done|]. split; [|intros v [= <-]; auto].
    left. apply Forall_app. split; [done|]. by repeat constructor. }
  cbn [ext_state trace files].
  destruct (mxt_read_register P e2 _ _) as [[ret3 d3] e3].
  destruct (Z.ltb_spec ret3 0).
  { eexists. cbn [fst snd LOG trace files]. rewrite Htr1, <- !app_assoc.
    split; [reflexivity|]. split; [done|]. split; [|intros v [= <-]; auto].
    right. split; [done|]. apply stops_prepend; [done|].
    apply (stops_here [_; _]);
      [by repeat constructor|done|by repeat constructor]. }
  eexists. cbn [fst snd LOG trace files]. rewrite Htr1, <- !app_assoc.
  split; [reflexivity|]. split; [done|]. split; [|intros v [= <-]; auto].
  left. apply Forall_app. split; [done|]. by repeat constructor.
Qed.

End FetchFacts.


Section FetchTheorems.

Context {ext : Type} (P : platform ext).

Lemma failed_read_is_last evs (i : nat) a c ret d :
  Forall good_read evs ∨ stops_at_failed_read evs →
  evs !! i = Some (EvRead a c ret d) → ret < 0 →
  stops_at_failed_read evs
  ∧ Forall (λ e, is_reg e = false) (drop (S i) evs).
Proof.
  intros [Hgood|Hstop] Hi Hret.
  - rewrite Forall_lookup in Hgood. apply Hgood in Hi. simpl in Hi. lia.
  - split; [done|].
    destruct Hstop as (pre & a' & c' & ret' & d' & logs & -> & Hr & Hpre & Hlogs).
    destruct (lt_eq_lt_dec i (length pre)) as [[Hlt| ->]|Hgt].
    + rewrite lookup_app_l in Hi by done.
      rewrite Forall_lookup in Hpre. apply Hpre in Hi. simpl in Hi. lia.
    + rewrite drop_app_ge by lia.
      replace (S (length pre) - length pre)%nat with 1%nat by lia. done.
    + rewrite lookup_app_r in Hi by lia.
      destruct (i - length pre)%nat as [|j] eqn:Hj; [lia|]. simpl in Hi.
      rewrite Forall_lookup in Hlogs. apply Hlogs in Hi. done.
Qed.

Lemma reads_app t1 t2 : reads (t1 ++ t2) = (reads t1 + reads t2)%nat.
Proof. unfold reads. by rewrite List.filter_app, length_app. Qed.

Lemma wait_command_zero dd fuel failures (w : world ext) :
  wait_command P fuel 0 failures dd w = (LoopDone, w).
Proof. by destruct fuel. Qed.

(** The poll loop reads the register at most [501 - failures] times. *)
Lemma wait_command_reads dd (fuel : nat) :
  ∀ rc failures (w : world ext),
    0 ≤ failures ≤ 500 →
    ∃ evs,
      trace (wait_command P fuel rc failures dd w).2 = trace w ++ evs
      ∧ (reads evs ≤ Z.to_nat (501 - failures))%nat.
Proof.
  induction fuel as [|fuel IH]; intros rc failures w Hf; cbn [wait_command].
  - exists []. rewrite app_nil_r. destruct (rc =? 0); cbn; split; done || lia.
  - destruct (rc =? 0).
    { exists []. rewrite app_nil_r. cbn. split; [done|lia]. }
    unfold reg_read.
    destruct (mxt_read_register P (ext_state w) (diag_cmd_addr dd) 1)
      as [[ret data] e].
    destruct (ret <? 0).
    { eexists. cbn. rewrite <- app_assoc. split; [reflexivity|].
      cbn. lia. }
    set (w1 := World e _ _).
    destruct (Z.eqb_spec (byte0 data) 0) as [->|_]; cbn [negb].
    + rewrite wait_command_zero. eexists. subst w1. cbn [snd trace].
      split; [reflexivity|cbn; lia].
    + destruct (Z.gtb_spec (failures + 1) 500).
      { eexists. cbn. rewrite <- app_assoc. split; [reflexivity|].
        cbn. lia. }
      destruct (IH (byte0 data) (failures + 1) w1 ltac:(lia))
        as (evs & Htr & Hn).
      exists (EvRead (diag_cmd_addr dd) 1 ret data :: evs).
      rewrite Htr. subst w1. cbn [trace]. rewrite <- app_assoc.
      split; [done|]. change (_ :: evs) with ([EvRead (diag_cmd_addr dd) 1 ret data] ++ evs).
      rewrite reads_app. cbn. lia.
Qed.

End FetchTheorems.

(** X1: inside a page fetch a failed register read is never retried or
    passed over: the fetch returns -1, and after the failed read it only
    logs. *)
Theorem fetch_stops_at_failed_read {ext : Type} (P : platform ext)
    (fuel : nat) (dd : mxt_debug_data) (w : world ext)
    (i : nat) (a c ret : Z) (d : list Z) :
  new_events w (mxt_debug_dump_page P fuel dd w).2 !! i
    = Some (EvRead a c ret d) →
  ret < 0 →
  (mxt_debug_dump_page P fuel dd w).1.1 = Some (-1)
  ∧ Forall (λ e, is_reg e = false)
      (drop (S i) (new_events w (mxt_debug_dump_page P fuel dd w).2)).
Proof.
  intros Hi Hret.
  destruct (dump_page_events P fuel dd w) as (evs & Htr & _ & Hev & _).
  rewrite (new_events_app _ _ _ Htr) in *.
  destruct (failed_read_is_last evs i a c ret d) as [Hstop Hdrop]; try done.
  { destruct Hev as [?|[_ ?]]; auto. }
  split; [|done].
  destruct Hev as [Hgood|[? _]]; [|done].
  rewrite Forall_lookup in Hgood. apply Hgood in Hi. simpl in Hi. lia.
Qed.

Lemma fetch_stops_at_failed_read_witness :
  (mxt_debug_dump_page (Sim.sim ok_cfg) 501 lost_object
     (Sim.start Sim.idle)).1.1 = Some (-1).
Proof.
  apply (fetch_stops_at_failed_read (Sim.sim ok_cfg) 501 lost_object
           (Sim.start Sim.idle) 3 0x300 1 (-1) []).
  - vm_compute. reflexivity.
  - lia.
Defined.


Section FetchCounts.

Context {ext : Type} (P : platform ext).

Lemma write_command_reads dd (w : world ext) :
  ∃ evs, trace (write_command P dd w) = trace w ++ evs ∧ reads evs = 0%nat.
Proof.
  unfold write_command, reg_write, LOG.
  destruct (page dd =? 0); cbn [trace ext_state files];
    destruct (mxt_write_register P _ _ _ _) as [ret e]; cbn [snd trace files].
  - eexists. rewrite <- app_assoc. split; [reflexivity|]. done.
  - eexists. split; [reflexivity|]. done.
Qed.

Lemma dump_page_reads fuel dd (w : world ext) :
  ∃ evs,
    trace (mxt_debug_dump_page P fuel dd w).2 = trace w ++ evs
    ∧ (reads evs ≤ 504)%nat.
Proof.
  unfold mxt_debug_dump_page.
  destruct (write_command_reads dd w) as (evs0 & Htr0 & Hn0).
  destruct (wait_command_reads P dd fuel 1 0 (write_command P dd w)
              ltac:(lia)) as (evs1 & Htr1 & Hn1).
  destruct (wait_command P fuel 1 0 dd (write_command P dd w)) as [fl w1].
  cbn [fst snd] in *. rewrite Htr0, <- app_assoc in Htr1.
  assert (reads (evs0 ++ evs1) ≤ 501)%nat as Hn
    by (rewrite reads_app, Hn0; simpl in *; lia).
  clear Hn0 Hn1. revert Htr1 Hn. generalize (evs0 ++ evs1) as pre.
  intros pre Htr1 Hn.
  destruct fl as [|r|]; cbn [fst snd]; [|exists pre; split; [done|lia]..].
  unfold reg_read.
  destruct (mxt_read_register P (ext_state w1) _ _) as [[ret1 d1] e1].
  cbn [ext_state trace files].
  destruct (ret1 <? 0).
  { eexists. cbn [fst snd LOG trace files]. rewrite Htr1, <- !app_assoc.
    split; [reflexivity|]. rewrite reads_app. cbn. lia. }
  destruct (mxt_read_register P e1 _ _) as [[ret2 d2] e2].
  destruct (ret2 <? 0).
  { eexists. cbn [fst snd LOG trace files]. rewrite Htr1, <- !app_assoc.
    split; [reflexivity|]. rewrite reads_app. cbn. lia. }
  destruct (negb (byte0 d1 =? mode dd) || negb (byte0 d2 =? page dd)).
  { eexists. cbn [fst snd LOG trace files]. rewrite Htr1, <- !app_assoc.
    split; [reflexivity|]. rewrite reads_app. cbn. lia. }
  cbn [ext_state trace files].
  destruct (mxt_read_register P e2 _ _) as [[ret3 d3] e3].
  destruct (ret3 <? 0).
  { eexists. cbn [fst snd LOG trace files]. rewrite Htr1, <- !app_assoc.
    split; [reflexivity|]. rewrite reads_app. cbn. lia. }
  eexists. cbn [fst snd LOG trace files]. rewrite Htr1, <- !app_assoc.
  split; [reflexivity|]. rewrite reads_app. cbn. lia.
Qed.

(** When the register clears after [k] busy reads, [failures + k] staying
    within 500, the poll loop ends normally after [k + 1] reads. *)
Lemma wait_command_clears dd addr (k : nat) :
  addr = diag_cmd_addr dd →
  ∀ fuel rc failures (w : world ext),
    rc ≠ 0 → 0 ≤ failures → failures + Z.of_nat k ≤ 500 →
    (k < fuel)%nat →
    clears_after P addr k (ext_state w) →
    ∃ w1 evs,
      wait_command P fuel rc failures dd w = (LoopDone, w1)
      ∧ trace w1 = trace w ++ evs
      ∧ length evs = S k
      ∧ Forall (λ e, is_poll addr e = true) evs.
Proof.
  intros ->.
  induction k as [|k IH]; intros fuel rc failures w Hrc Hf Hk Hfuel Hclr;
    (destruct fuel as [|fuel]; [lia|]); cbn [wait_command];
    (destruct (Z.eqb_spec rc 0) as [|_]; [done|]);
    unfold reg_read; cbn [clears_after] in Hclr;
    destruct (mxt_read_register P (ext_state w) (diag_cmd_addr dd) 1)
      as [[ret data] e]; destruct Hclr as [Hret Hclr];
    (destruct (Z.ltb_spec ret 0) as [|_]; [lia|]).
  - rewrite Hclr. cbn [Z.eqb negb]. rewrite wait_command_zero.
    eexists _, _. split; [reflexivity|]. cbn [trace].
    split; [reflexivity|]. split; [done|].
    repeat constructor. cbn. by rewrite Z.eqb_refl.
  - destruct Hclr as [Hbusy Hclr].
    destruct (Z.eqb_spec (byte0 data) 0) as [|_]; [done|]. cbn [negb].
    destruct (Z.gtb_spec (failures + 1) 500) as [|_]; [lia|].
    edestruct (IH fuel (byte0 data) (failures + 1)
                 (World e (trace w ++ [EvRead (diag_cmd_addr dd) 1 ret data])
                    (files w)))
      as (w1 & evs & Heq & Htr & Hlen & Hall); [done|lia|lia|lia|done|].
    rewrite Heq. eexists w1, (_ :: evs). split; [reflexivity|].
    rewrite Htr. cbn [trace]. rewrite <- app_assoc.
    split; [reflexivity|]. split; [cbn; lia|].
    constructor; [|done]. cbn. by rewrite Z.eqb_refl.
Qed.

End FetchCounts.

(** X2: a page fetch returns 0 only after the chip has echoed the
    requested mode and page and the payload has been read: its last three
    events are the two echo reads and the read of [page_size] bytes at
    [t37_addr + 2], none of them failed; nothing but the page buffer
    changes in the structure, and no file is touched. *)
Theorem fetch_success_is_validated {ext : Type} (P : platform ext)
    (fuel : nat) (dd dd' : mxt_debug_data) (w w' : world ext) :
  mxt_debug_dump_page P fuel dd w = (Some 0, dd', w') →
  ∃ pre r1 d1 r2 d2 r3 d3,
    new_events w w'
    = pre ++ [EvRead (t37_addr dd) 1 r1 d1;
              EvRead (t37_addr dd + 1) 1 r2 d2;
              EvRead (t37_addr dd + 2) (page_size dd) r3 d3]
    ∧ 0 ≤ r1 ∧ 0 ≤ r2 ∧ 0 ≤ r3
    ∧ byte0 d1 = mode dd ∧ byte0 d2 = page dd
    ∧ dd' = set_page_buf (read_into (page_buf dd) d3 (page_size dd)) dd
    ∧ files w' = files w.
Proof.
  unfold mxt_debug_dump_page.
  destruct (write_command_events P dd w) as (evs0 & Htr0 & Hf0 & _).
  destruct (wait_command_events P dd fuel 1 0 (write_command P dd w))
    as (evs1 & Htr1 & Hf1 & _ & Hr1).
  destruct (wait_command P fuel 1 0 dd (write_command P dd w)) as [fl w1].
  cbn [fst snd] in *. rewrite Htr0, <- app_assoc in Htr1. rewrite Hf0 in Hf1.
  destruct fl as [|r|]; [|intros [= -> _ _]; by specialize (Hr1 0 eq_refl)
                         |done].
  unfold reg_read.
  destruct (mxt_read_register P (ext_state w1) _ _) as [[ret1 d1] e1].
  cbn [ext_state trace files].
  destruct (Z.ltb_spec ret1 0); [done|].
  destruct (mxt_read_register P e1 _ _) as [[ret2 d2] e2].
  destruct (Z.ltb_spec ret2 0); [done|].
  destruct (Z.eqb_spec (byte0 d1) (mode dd)); [|done].
  destruct (Z.eqb_spec (byte0 d2) (page dd)); [|done].
  cbn [negb orb ext_state trace files].
  destruct (mxt_read_register P e2 _ _) as [[ret3 d3] e3].
  destruct (Z.ltb_spec ret3 0); [done|].
  intros [= <- <-]. exists (evs0 ++ evs1), ret1, d1, ret2, d2, ret3, d3.
  split; [|done].
  apply new_events_app. cbn [trace]. rewrite Htr1, <- !app_assoc. done.
Qed.

Lemma fetch_success_is_validated_witness :
  ∃ pre r1 d1 r2 d2 r3 d3,
    new_events (Sim.start (Sim.Chip DELTAS_MODE 0))
      (mxt_debug_dump_page (Sim.sim ok_cfg) 501 first_page
         (Sim.start (Sim.Chip DELTAS_MODE 0))).2
    = pre ++ [EvRead (t37_addr first_page) 1 r1 d1;
              EvRead (t37_addr first_page + 1) 1 r2 d2;
              EvRead (t37_addr first_page + 2) (page_size first_page) r3 d3].
Proof.
  edestruct (fetch_success_is_validated (Sim.sim ok_cfg) 501 first_page)
    as (pre & r1 & d1 & r2 & d2 & r3 & d3 & Hev & _).
  - vm_compute. reflexivity.
  - exists pre, r1, d1, r2, d2, r3, d3. exact Hev.
Defined.

(** X3: whatever the transport does, a page fetch writes exactly one
    command, the one for its page index, and reads registers at most 504
    times (501 polls, two echo bytes, the payload); with fuel for the 501
    polls it returns 0 or -1. *)
Theorem fetch_is_bounded {ext : Type} (P : platform ext)
    (fuel : nat) (dd : mxt_debug_data) (w : world ext) :
  (501 ≤ fuel)%nat →
  ((mxt_debug_dump_page P fuel dd w).1.1 = Some 0
   ∨ (mxt_debug_dump_page P fuel dd w).1.1 = Some (-1))
  ∧ commands (new_events w (mxt_debug_dump_page P fuel dd w).2)
    = [command_for (mode dd) (page dd)]
  ∧ (reads (new_events w (mxt_debug_dump_page P fuel dd w).2) ≤ 504)%nat.
Proof.
  intros Hfuel. split; [|split].
  - pose proof (dump_page_total P fuel dd w Hfuel) as Htot.
    destruct (dump_page_events P fuel dd w) as (_ & _ & _ & _ & Hv).
    destruct ((mxt_debug_dump_page P fuel dd w).1.1) as [v|]; [|done].
    destruct (Hv v eq_refl) as [-> | ->]; auto.
  - destruct (dump_page_commands P fuel dd w) as ((evs & Htr & Hc) & _).
    by rewrite (new_events_app _ _ _ Htr).
  - destruct (dump_page_reads P fuel dd w) as (evs & Htr & Hn).
    by rewrite (new_events_app _ _ _ Htr).
Qed.

Lemma fetch_is_bounded_witness :
  (reads (new_events (Sim.start Sim.idle)
            (mxt_debug_dump_page (Sim.sim busy_cfg) 501 first_page
               (Sim.start Sim.idle)).2) ≤ 504)%nat.
Proof.
  apply (fetch_is_bounded (Sim.sim busy_cfg) 501 first_page
           (Sim.start Sim.idle)).
  lia.
Defined.

(** X4: up to 500 busy polls are tolerated: when the command register
    reads back as set [k ≤ 500] times after the command write and then as
    cleared, the poll loop of the fetch ends normally, after exactly
    [k + 1] reads of that register and nothing else. *)
Theorem fetch_tolerates_500_busy_polls {ext : Type} (P : platform ext)
    (fuel : nat) (dd : mxt_debug_data) (w : world ext) (k : nat) :
  (k ≤ 500)%nat → (k < fuel)%nat →
  clears_after P (diag_cmd_addr dd) k (ext_state (write_command P dd w)) →
  ∃ w1 evs,
    wait_command P fuel 1 0 dd (write_command P dd w) = (LoopDone, w1)
    ∧ trace w1 = trace (write_command P dd w) ++ evs
    ∧ length evs = S k
    ∧ Forall (λ e, is_poll (diag_cmd_addr dd) e = true) evs.
Proof.
  intros Hk Hfuel Hclr.
  apply (wait_command_clears P dd (diag_cmd_addr dd) k eq_refl); auto; lia.
Qed.

Lemma fetch_tolerates_500_busy_polls_witness :
  ∃ w1 evs,
    wait_command slow_chip 501 1 0 first_page
      (write_command slow_chip first_page three_busy_polls) = (LoopDone, w1)
    ∧ trace w1 = trace (write_command slow_chip first_page three_busy_polls)
                   ++ evs
    ∧ length evs = 4%nat
    ∧ Forall (λ e, is_poll (diag_cmd_addr first_page) e = true) evs.
Proof.
  apply (fetch_tolerates_500_busy_polls slow_chip 501 first_page
           three_busy_polls 3).
  - lia.
  - lia.
  - vm_compute. repeat split; discriminate.
Defined.


(** ** The assembler: whole pages *)

Section AssemblerPages.

Context {ext : Type}.

Lemma pos_split (W x r : Z) :
  0 ≤ r < W → (x * W + r) / W = x ∧ (x * W + r) mod W = r.
Proof.
  intros Hr. split; symmetry.
  - apply (Z.div_unique _ _ _ r); lia.
  - apply (Z.mod_unique _ _ x); lia.
Qed.

Lemma pos_ofs_cursor dd :
  cursor_in_stripe dd → pos_ofs dd (cursor_pos dd) = cursor_ofs dd.
Proof.
  intros [Hy Hh]. unfold pos_ofs, cursor_pos, cursor_ofs, stripe_rows.
  destruct (pos_split (stripe_endy dd - stripe_starty dd + 1) (x_ptr dd)
              (y_ptr dd - stripe_starty dd)) as [-> ->]; lia.
Qed.

Lemma matrix_only_refl dd : matrix_only dd dd.
Proof. unfold matrix_only. by destruct dd. Qed.

Lemma matrix_only_trans dd1 dd2 dd3 :
  matrix_only dd1 dd2 → matrix_only dd2 dd3 → matrix_only dd1 dd3.
Proof.
  unfold matrix_only. intros H12 H23. rewrite H23 at 1. rewrite H12 at 1.
  by destruct dd1.
Qed.

(** A turn that passes the guard. *)
Lemma insert_loop_S (n : nat) i dd (w : world ext) :
  x_ptr dd ≤ x_size dd →
  insert_loop (S n) i dd w
  = insert_loop n (i + 2)
      (after_turn (u16 (Z.lor (Z.shiftl (byte_at (page_buf dd) (i + 1)) 8)
                              (byte_at (page_buf dd) i))) dd) w.
Proof.
  intros Hx. cbn [insert_loop].
  destruct (Z.gtb_spec (x_ptr dd) (x_size dd)) as [|_]; [lia|].
  unfold after_turn, cursor_ofs.
  cbn [y_ptr set_y_ptr set_data_buf stripe_endy stripe_starty x_ptr].
  by destruct (y_ptr dd + 1 >? stripe_endy dd).
Qed.

(** A turn at the guard. *)
Lemma insert_loop_overrun (n : nat) i dd (w : world ext) :
  x_size dd < x_ptr dd →
  insert_loop (S n) i dd w = (Some (-1), dd, LOG LOG_ERROR OVERRUN_MSG w).
Proof.
  intros Hx. cbn [insert_loop].
  by destruct (Z.gtb_spec (x_ptr dd) (x_size dd)) as [_|]; [|lia].
Qed.

Lemma after_turn_facts v dd :
  cursor_in_stripe dd →
  matrix_only dd (after_turn v dd)
  ∧ data_buf (after_turn v dd) = <[cursor_ofs dd := v]> (data_buf dd)
  ∧ cursor_in_stripe (after_turn v dd)
  ∧ cursor_pos (after_turn v dd) = cursor_pos dd + 1
  ∧ cursor_ofs dd < cursor_ofs (after_turn v dd)
  ∧ x_ptr dd ≤ x_ptr (after_turn v dd) ≤ x_ptr dd + 1.
Proof.
  intros [Hy Hh].
  unfold after_turn, matrix_only, cursor_in_stripe, cursor_pos, cursor_ofs,
    stripe_rows.
  destruct (Z.gtb_spec (y_ptr dd + 1) (stripe_endy dd));
    cbn; (split; [by destruct dd|]); (split; [done|]);
    repeat split; try lia; nia.
Qed.

Lemma matrix_only_geometry dd dd' :
  matrix_only dd dd' →
  x_size dd' = x_size dd ∧ y_size dd' = y_size dd
  ∧ stripe_starty dd' = stripe_starty dd ∧ stripe_endy dd' = stripe_endy dd
  ∧ page_buf dd' = page_buf dd ∧ page_size dd' = page_size dd
  ∧ stripe_rows dd' = stripe_rows dd
  ∧ (∀ p, pos_ofs dd' p = pos_ofs dd p).
Proof.
  unfold matrix_only, stripe_rows, pos_ofs, stripe_rows. intros ->. cbn.
  by repeat split.
Qed.

Lemma stripe_rows_pos dd : cursor_in_stripe dd → 0 < stripe_rows dd.
Proof. unfold cursor_in_stripe, stripe_rows. lia. Qed.

Lemma cursor_pos_guard dd :
  cursor_in_stripe dd →
  (x_ptr dd ≤ x_size dd ↔ cursor_pos dd < (x_size dd + 1) * stripe_rows dd).
Proof.
  unfold cursor_in_stripe, cursor_pos, stripe_rows. intros [Hy Hh].
  split; intros H; nia.
Qed.

(** A page that ends at or before the last position that the guard lets
    through: every sample is stored at the offset of its position, nothing
    else changes, and the loop runs to its end. *)
Lemma insert_loop_fits (n : nat) :
  ∀ i dd (w : world ext),
    cursor_in_stripe dd →
    cursor_pos dd + Z.of_nat n ≤ (x_size dd + 1) * stripe_rows dd →
    ∃ dd',
      insert_loop n i dd w = (None, dd', w)
      ∧ matrix_only dd dd'
      ∧ cursor_in_stripe dd'
      ∧ cursor_pos dd' = cursor_pos dd + Z.of_nat n
      ∧ (∀ k, 0 ≤ k < Z.of_nat n →
           data_buf dd' !! pos_ofs dd (cursor_pos dd + k)
           = Some (u16 (Z.lor
                          (Z.shiftl (byte_at (page_buf dd) (i + 2 * k + 1)) 8)
                          (byte_at (page_buf dd) (i + 2 * k)))))
      ∧ (∀ ofs,
           (∀ k, 0 ≤ k < Z.of_nat n → ofs ≠ pos_ofs dd (cursor_pos dd + k)) →
           data_buf dd' !! ofs = data_buf dd !! ofs).
Proof.
  induction n as [|n IH]; intros i dd w Hcur Hfit.
  - exists dd. cbn [insert_loop]. split; [done|].
    split; [apply matrix_only_refl|]. split; [done|]. split; [lia|].
    split; [intros k Hk; lia|done].
  - assert (x_ptr dd ≤ x_size dd) as Hx by (apply cursor_pos_guard; [done|lia]).
    rewrite insert_loop_S by done.
    set (v := u16 _). set (dd1 := after_turn v dd).
    destruct (after_turn_facts v dd Hcur) as (Hm & Hd & Hc & Hp & Ho & Hx1).
    fold dd1 in Hm, Hd, Hc, Hp, Ho, Hx1.
    destruct (matrix_only_geometry _ _ Hm)
      as (HX & HY & Hs & He & Hbuf & Hps & HW & Hofs).
    destruct (IH (i + 2) dd1 w Hc) as (dd' & Heq & Hm' & Hc' & Hp' & Hval & Hother).
    { rewrite HX, HW, Hp. lia. }
    exists dd'. split; [done|]. split; [by eapply matrix_only_trans|].
    split; [done|]. split; [lia|]. split.
    + intros k Hk. destruct (decide (k = 0)) as [->|Hk0].
      * rewrite Z.add_0_r, pos_ofs_cursor by done.
        pose proof (insert_loop_keeps n (i + 2) dd1 w (cursor_ofs dd) Hc Ho)
          as Hkeep.
        rewrite Heq in Hkeep. cbn [fst snd] in Hkeep.
        rewrite Hkeep, Hd, lookup_insert_eq.
        subst v. by replace (i + 2 * 0) with i by lia.
      * specialize (Hval (k - 1) ltac:(lia)).
        rewrite Hofs, Hp, Hbuf in Hval.
        replace (cursor_pos dd + 1 + (k - 1)) with (cursor_pos dd + k)
          in Hval by lia.
        replace (i + 2 + 2 * (k - 1)) with (i + 2 * k) in Hval by lia.
        done.
    + intros ofs Hne. rewrite Hother.
      * rewrite Hd, lookup_insert_ne; [done|].
        specialize (Hne 0 ltac:(lia)).
        rewrite Z.add_0_r, pos_ofs_cursor in Hne by done. done.
      * intros k Hk. rewrite Hofs, Hp.
        replace (cursor_pos dd + 1 + k) with (cursor_pos dd + (k + 1)) by lia.
        apply Hne. lia.
Qed.

(** A page with a sample past the last position that the guard lets
    through ends in the overrun error. *)
Lemma insert_loop_overruns (n : nat) :
  ∀ i dd (w : world ext),
    cursor_in_stripe dd →
    (x_size dd + 1) * stripe_rows dd < cursor_pos dd + Z.of_nat n →
    (0 < n)%nat →
    (insert_loop n i dd w).1.1 = Some (-1).
Proof.
  induction n as [|n IH]; intros i dd w Hcur Hover Hn; [lia|].
  destruct (Z.le_gt_cases (x_ptr dd) (x_size dd)) as [Hx|Hx].
  - rewrite insert_loop_S by done.
    set (v := u16 _).
    destruct (after_turn_facts v dd Hcur) as (Hm & Hd & Hc & Hp & Ho & Hx1).
    destruct (matrix_only_geometry _ _ Hm)
      as (HX & HY & Hs & He & Hbuf & Hps & HW & Hofs).
    apply cursor_pos_guard in Hx; [|done].
    apply IH; [done|rewrite HX, HW, Hp; lia|lia].
  - by rewrite insert_loop_overrun.
Qed.

(** Whatever the page, a cell that changes lies at or after the offset of
    the cursor and before the end of column [x_size]; the cursor stays in
    its stripe and only the matrix and the cursor change. *)
Lemma insert_loop_bounds (n : nat) :
  ∀ i dd (w : world ext),
    cursor_in_stripe dd → stripe_endy dd < y_size dd →
    cursor_in_stripe (insert_loop n i dd w).1.2
    ∧ matrix_only dd (insert_loop n i dd w).1.2
    ∧ x_ptr dd ≤ x_ptr (insert_loop n i dd w).1.2
    ∧ (∀ ofs,
         data_buf (insert_loop n i dd w).1.2 !! ofs ≠ data_buf dd !! ofs →
         cursor_ofs dd ≤ ofs < (x_size dd + 1) * y_size dd).
Proof.
  induction n as [|n IH]; intros i dd w Hcur Hend.
  - cbn. split; [done|]. split; [apply matrix_only_refl|]. split; [lia|done].
  - destruct (Z.le_gt_cases (x_ptr dd) (x_size dd)) as [Hx|Hx].
    + rewrite insert_loop_S by done.
      set (v := u16 _). set (dd1 := after_turn v dd).
      destruct (after_turn_facts v dd Hcur) as (Hm & Hd & Hc & Hp & Ho & Hx1).
      fold dd1 in Hm, Hd, Hc, Hp, Ho, Hx1.
      destruct (matrix_only_geometry _ _ Hm)
        as (HX & HY & Hs & He & Hbuf & Hps & HW & Hofs).
      destruct (IH (i + 2) dd1 w Hc) as (Hc' & Hm' & Hx' & Hb); [lia|].
      split; [done|]. split; [by eapply matrix_only_trans|]. split; [lia|].
      intros ofs Hne.
      destruct (decide (ofs = cursor_ofs dd)) as [->|Hofs0].
      * destruct Hcur as [Hy Hh]. unfold cursor_ofs. split; [lia|]. nia.
      * assert (data_buf (insert_loop n (i + 2) dd1 w).1.2 !! ofs
                ≠ data_buf dd1 !! ofs) as Hne1.
        { rewrite Hd, lookup_insert_ne; done. }
        apply Hb in Hne1. rewrite HX, HY in Hne1. lia.
    + rewrite insert_loop_overrun by done. cbn.
      split; [done|]. split; [apply matrix_only_refl|]. split; [lia|done].
Qed.

End AssemblerPages.


Section AssemblerWorld.

Context {ext : Type}.

Lemma insert_loop_world (n : nat) :
  ∀ i dd (w : world ext),
    (insert_loop n i dd w).2 = w
    ∨ (insert_loop n i dd w).2 = LOG LOG_ERROR OVERRUN_MSG w.
Proof.
  induction n as [|n IH]; intros i dd w; [by left|].
  cbn [insert_loop]. destruct (x_ptr dd >? x_size dd); [by right|]. apply IH.
Qed.

Lemma insert_data_loop dd (w : world ext) :
  (mxt_debug_insert_data dd w).1.2
  = (insert_loop (Z.to_nat ((page_size dd + 1) / 2)) 0 dd w).1.2
  ∧ (mxt_debug_insert_data dd w).2
    = (insert_loop (Z.to_nat ((page_size dd + 1) / 2)) 0 dd w).2
  ∧ (mxt_debug_insert_data dd w).1.1
    = default 0 (insert_loop (Z.to_nat ((page_size dd + 1) / 2)) 0 dd w).1.1.
Proof.
  unfold mxt_debug_insert_data.
  by destruct (insert_loop _ _ _ _) as [[[r|] dd'] w'].
Qed.

Lemma pos_ofs_bounds dd p X :
  cursor_in_stripe dd → stripe_in_column dd →
  0 ≤ p < X * stripe_rows dd →
  0 ≤ pos_ofs dd p < X * y_size dd.
Proof.
  intros [Hy Hh] [Hs He] Hp. unfold pos_ofs, stripe_rows in *.
  set (W := stripe_endy dd - stripe_starty dd + 1) in *.
  assert (0 < W) by (subst W; lia).
  pose proof (Z.mod_pos_bound p W ltac:(lia)).
  assert (0 ≤ p / W) by (apply Z.div_pos; lia).
  assert (p / W < X) by (apply Z.div_lt_upper_bound; lia).
  subst W. nia.
Qed.

Lemma assembler_frame dd (w : world ext) :
  cursor_in_stripe dd → stripe_endy dd < y_size dd →
  cursor_in_stripe (mxt_debug_insert_data dd w).1.2
  ∧ matrix_only dd (mxt_debug_insert_data dd w).1.2
  ∧ x_ptr dd ≤ x_ptr (mxt_debug_insert_data dd w).1.2
  ∧ (∀ ofs,
       data_buf (mxt_debug_insert_data dd w).1.2 !! ofs ≠ data_buf dd !! ofs →
       cursor_ofs dd ≤ ofs < (x_size dd + 1) * y_size dd).
Proof.
  intros Hcur Hend. destruct (insert_data_loop dd w) as (-> & _ & _).
  by apply insert_loop_bounds.
Qed.

End AssemblerWorld.

(** ** The assembler: a sample through the whole call *)

Section AssemblerRoundTrip.

Context {ext : Type}.

Lemma advance_same_stripe dd dd' (n : nat) c :
  stripe_starty dd' = stripe_starty dd → stripe_endy dd' = stripe_endy dd →
  Nat.iter n (advance dd') c = Nat.iter n (advance dd) c.
Proof.
  intros Hs He. induction n as [|n IH]; [done|].
  rewrite !Nat.iter_succ, IH. unfold advance. by rewrite Hs, He.
Qed.

Lemma after_turn_cursor v dd :
  (x_ptr (after_turn v dd), y_ptr (after_turn v dd))
  = advance dd (x_ptr dd, y_ptr dd).
Proof.
  unfold after_turn, advance. cbn [fst snd].
  by destruct (y_ptr dd + 1 >? stripe_endy dd).
Qed.

(** The cursor after [k] steps is inside the stripe, at position
    [cursor_pos + k] of the sample stream. *)
Lemma cursor_after_pos dd (k : nat) :
  cursor_in_stripe dd →
  stripe_starty dd ≤ (cursor_after dd k).2 ≤ stripe_endy dd
  ∧ (cursor_after dd k).1 * stripe_rows dd
    + ((cursor_after dd k).2 - stripe_starty dd)
    = cursor_pos dd + Z.of_nat k.
Proof.
  intros [Hy Hh]. unfold cursor_after, cursor_pos, stripe_rows.
  induction k as [|k [IHy IHp]]; [cbn; lia|].
  rewrite Nat.iter_succ.
  set (c := Nat.iter k (advance dd) (x_ptr dd, y_ptr dd)) in *.
  unfold advance.
  destruct (Z.gtb_spec (c.2 + 1) (stripe_endy dd)); cbn [fst snd]; lia.
Qed.

Lemma cursor_after_ofs dd (k : nat) :
  cursor_in_stripe dd →
  (cursor_after dd k).2 + (cursor_after dd k).1 * y_size dd
  = pos_ofs dd (cursor_pos dd + Z.of_nat k).
Proof.
  intros Hcur. destruct (cursor_after_pos dd k Hcur) as [Hy Hp].
  rewrite <- Hp. unfold pos_ofs.
  destruct (pos_split (stripe_rows dd) (cursor_after dd k).1
              ((cursor_after dd k).2 - stripe_starty dd)) as [-> ->];
    unfold stripe_rows; lia.
Qed.

(** A sample that the guard lets through is in its cell when the loop
    ends, however the loop ends. *)
Lemma insert_loop_sample (n : nat) :
  ∀ i dd (w : world ext) k,
    cursor_in_stripe dd →
    0 ≤ k < Z.of_nat n →
    cursor_pos dd + k < (x_size dd + 1) * stripe_rows dd →
    data_buf (insert_loop n i dd w).1.2 !! pos_ofs dd (cursor_pos dd + k)
    = Some (u16 (Z.lor (Z.shiftl (byte_at (page_buf dd) (i + 2 * k + 1)) 8)
                       (byte_at (page_buf dd) (i + 2 * k)))).
Proof.
  induction n as [|n IH]; intros i dd w k Hcur Hk Hguard; [lia|].
  assert (x_ptr dd ≤ x_size dd) as Hx by (apply cursor_pos_guard; [done|lia]).
  rewrite insert_loop_S by done.
  set (v := u16 _). set (dd1 := after_turn v dd).
  destruct (after_turn_facts v dd Hcur) as (Hm & Hd & Hc & Hp & Ho & Hx1).
  fold dd1 in Hm, Hd, Hc, Hp, Ho, Hx1.
  destruct (matrix_only_geometry _ _ Hm)
    as (HX & HY & Hs & He & Hbuf & Hps & HW & Hofs).
  destruct (decide (k = 0)) as [->|Hk0].
  - rewrite Z.add_0_r, pos_ofs_cursor by done.
    rewrite (insert_loop_keeps n (i + 2) dd1 w (cursor_ofs dd) Hc Ho).
    rewrite Hd, lookup_insert_eq.
    subst v. by replace (i + 2 * 0) with i by lia.
  - specialize (IH (i + 2) dd1 w (k - 1) Hc ltac:(lia)).
    rewrite Hofs, Hp, Hbuf, HX, HW in IH.
    replace (cursor_pos dd + 1 + (k - 1)) with (cursor_pos dd + k) in IH
      by lia.
    replace (i + 2 + 2 * (k - 1)) with (i + 2 * k) in IH by lia.
    apply IH. lia.
Qed.

(** A loop that runs to its end has moved the cursor once per turn; a
    loop that is left is left with -1. *)
Lemma insert_loop_cursor (n : nat) :
  ∀ i dd (w : world ext),
    match (insert_loop n i dd w).1.1 with
    | None =>
        (x_ptr (insert_loop n i dd w).1.2, y_ptr (insert_loop n i dd w).1.2)
        = cursor_after dd n
    | Some r => r = -1
    end.
Proof.
  induction n as [|n IH]; intros i dd w; [done|].
  destruct (Z.le_gt_cases (x_ptr dd) (x_size dd)) as [Hx|Hx].
  - rewrite insert_loop_S by done.
    set (v := u16 _). specialize (IH (i + 2) (after_turn v dd) w).
    destruct (insert_loop n (i + 2) (after_turn v dd) w).1.1; [done|].
    rewrite IH. unfold cursor_after.
    rewrite after_turn_cursor, Nat.iter_succ_r.
    apply advance_same_stripe; unfold after_turn;
      by destruct (y_ptr dd + 1 >? stripe_endy dd).
  - by rewrite insert_loop_overrun.
Qed.

End AssemblerRoundTrip.

(** C8: [mxt_debug_insert_data] takes the page buffer two bytes at a
    time, from byte 0, for [(page_size + 1) / 2] pairs.  When pair [k]
    holds the little-endian encoding of a signed 16-bit [v] and the cursor
    of that pair, [k] steps after the cursor of the call, is not past
    column [x_size], then after the call the cell at offset
    [y + x * y_size] of that cursor holds the unsigned 16-bit value of the
    pair and, read as a signed 16-bit value, is [v] again.  A step of the
    cursor increments [y_ptr] and, when that passes [stripe_endy], resets
    it to [stripe_starty] and increments [x_ptr]; a call that returns 0
    has made one step per pair. *)
Theorem C8_assembler_round_trip {ext : Type} (dd : mxt_debug_data)
    (w : world ext) (k v : Z) :
  cursor_in_stripe dd →
  0 ≤ k < page_samples dd →
  (cursor_after dd (Z.to_nat k)).1 ≤ x_size dd →
  -32768 ≤ v < 32768 →
  byte_at (page_buf dd) (2 * k) = u8 v →
  byte_at (page_buf dd) (2 * k + 1) = u8 (Z.shiftr v 8) →
  let r := mxt_debug_insert_data dd w in
  let c := cursor_after dd (Z.to_nat k) in
  data_buf r.1.2 !! (c.2 + c.1 * y_size dd) = Some (u16 v)
  ∧ to_int16 (cell (data_buf r.1.2) (c.2 + c.1 * y_size dd)) = v
  ∧ (r.1.1 = 0 →
     (x_ptr r.1.2, y_ptr r.1.2)
     = cursor_after dd (Z.to_nat (page_samples dd))).
Proof.
  intros Hcur Hk Hguard Hv Hlo Hhi. cbn zeta.
  destruct (cursor_after_pos dd (Z.to_nat k) Hcur) as [Hy Hp].
  rewrite Z2Nat.id in Hp by lia.
  rewrite cursor_after_ofs, Z2Nat.id by (done || lia).
  unfold page_samples in *. set (n := Z.to_nat _) in *.
  assert (data_buf (mxt_debug_insert_data dd w).1.2
            !! pos_ofs dd (cursor_pos dd + k) = Some (u16 v)) as Hcell.
  { destruct (insert_data_loop dd w) as (-> & _ & _). fold n.
    rewrite (insert_loop_sample n 0 dd w k Hcur Hk).
    - replace (0 + 2 * k + 1) with (2 * k + 1) by lia.
      replace (0 + 2 * k) with (2 * k) by lia.
      by rewrite Hlo, Hhi, decode_le16.
    - unfold stripe_rows in *. nia. }
  split; [done|]. split.
  - unfold cell. rewrite Hcell. by apply to_int16_u16.
  - rewrite Nat2Z.id.
    destruct (insert_data_loop dd w) as (-> & _ & ->). fold n.
    pose proof (insert_loop_cursor n 0 dd w) as Hend.
    destruct (insert_loop n 0 dd w).1.1 as [r|]; [|done].
    subst r. cbn. lia.
Qed.

Lemma C8_assembler_round_trip_witness :
  to_int16 (cell (data_buf (mxt_debug_insert_data minus_two
                              (Sim.start Sim.idle)).1.2) 0) = -2.
Proof.
  destruct (C8_assembler_round_trip minus_two (Sim.start Sim.idle) 0 (-2))
    as (_ & Hcell & _).
  - unfold cursor_in_stripe. vm_compute. repeat split; discriminate.
  - vm_compute. split; [discriminate|reflexivity].
  - vm_compute. discriminate.
  - lia.
  - reflexivity.
  - reflexivity.
  - exact Hcell.
Defined.


(** X5: for a cursor inside its stripe, [mxt_debug_insert_data] returns
    -1 exactly when the page holds a sample whose position lies past
    column [x_size] of the stripe, and 0 otherwise. *)
Theorem assembler_overrun_exactly {ext : Type} (dd : mxt_debug_data)
    (w : world ext) :
  cursor_in_stripe dd →
  ((mxt_debug_insert_data dd w).1.1 = 0 ∨ (mxt_debug_insert_data dd w).1.1 = -1)
  ∧ ((mxt_debug_insert_data dd w).1.1 = -1
     ↔ 0 < page_samples dd
       ∧ (x_size dd + 1) * stripe_rows dd < cursor_pos dd + page_samples dd).
Proof.
  intros Hcur. destruct (insert_data_loop dd w) as (_ & _ & ->).
  unfold page_samples. set (n := Z.to_nat _).
  destruct (Z.le_gt_cases (cursor_pos dd + Z.of_nat n)
              ((x_size dd + 1) * stripe_rows dd)) as [Hfit|Hover].
  - destruct (insert_loop_fits n 0 dd w Hcur Hfit) as (dd' & -> & _).
    cbn. split; [by left|]. split; [done|lia].
  - destruct n as [|n].
    + cbn. split; [by left|]. split; [done|lia].
    + rewrite (insert_loop_overruns (S n) 0 dd w Hcur) by lia.
      cbn. split; [by right|]. split; [lia|done].
Qed.

Lemma assembler_overrun_exactly_witness :
  (mxt_debug_insert_data minus_two (Sim.start Sim.idle)).1.1 = 0
  ∨ (mxt_debug_insert_data minus_two (Sim.start Sim.idle)).1.1 = -1.
Proof.
  apply (assembler_overrun_exactly minus_two (Sim.start Sim.idle)).
  unfold cursor_in_stripe. vm_compute. repeat split; discriminate.
Defined.

(** X6: whatever the page, the assembler keeps the cursor inside its
    stripe, changes nothing in the structure but the matrix and the
    cursor, touches neither the chip nor the files, and changes only cells
    at or after the offset of the cursor and before the end of column
    [x_size], that is before offset [(x_size + 1) * y_size]. *)
Theorem assembler_write_bounds {ext : Type} (dd : mxt_debug_data)
    (w : world ext) :
  cursor_in_stripe dd → stripe_endy dd < y_size dd →
  cursor_in_stripe (mxt_debug_insert_data dd w).1.2
  ∧ matrix_only dd (mxt_debug_insert_data dd w).1.2
  ∧ ext_state (mxt_debug_insert_data dd w).2 = ext_state w
  ∧ files (mxt_debug_insert_data dd w).2 = files w
  ∧ (∀ ofs,
       data_buf (mxt_debug_insert_data dd w).1.2 !! ofs ≠ data_buf dd !! ofs →
       cursor_ofs dd ≤ ofs < (x_size dd + 1) * y_size dd).
Proof.
  intros Hcur Hend. destruct (insert_data_loop dd w) as (-> & -> & _).
  destruct (insert_loop_bounds (Z.to_nat ((page_size dd + 1) / 2)) 0 dd w
              Hcur Hend) as (Hc & Hm & _ & Hb).
  split; [exact Hc|]. split; [exact Hm|].
  destruct (insert_loop_world (Z.to_nat ((page_size dd + 1) / 2)) 0 dd w)
    as [-> | ->]; (split; [done|]); (split; [done|]); exact Hb.
Qed.

Lemma assembler_write_bounds_witness :
  cursor_in_stripe (mxt_debug_insert_data last_column (Sim.start Sim.idle)).1.2.
Proof.
  apply (assembler_write_bounds last_column (Sim.start Sim.idle)).
  - unfold cursor_in_stripe. vm_compute. repeat split; discriminate.
  - reflexivity.
Defined.

(** X7: a page that ends before column [x_size] of the stripe is placed
    inside the matrix: the call returns 0 and leaves the world as it is,
    the cursor advances by the number of samples, and every cell that
    changes has an offset in [0, x_size * y_size). *)
Theorem assembler_page_inside_matrix {ext : Type} (dd : mxt_debug_data)
    (w : world ext) :
  cursor_in_stripe dd → stripe_in_column dd → 0 ≤ x_ptr dd →
  cursor_pos dd + page_samples dd ≤ x_size dd * stripe_rows dd →
  ∃ dd',
    mxt_debug_insert_data dd w = (0, dd', w)
    ∧ cursor_in_stripe dd'
    ∧ cursor_pos dd' = cursor_pos dd + page_samples dd
    ∧ (∀ ofs, data_buf dd' !! ofs ≠ data_buf dd !! ofs →
              0 ≤ ofs < x_size dd * y_size dd).
Proof.
  intros Hcur Hcol Hx Hfit. unfold page_samples in *.
  unfold mxt_debug_insert_data. set (n := Z.to_nat _) in *.
  pose proof (stripe_rows_pos dd Hcur) as HW.
  destruct (insert_loop_fits n 0 dd w Hcur ltac:(nia))
    as (dd' & -> & _ & Hc' & Hp' & _ & Hother).
  exists dd'. split; [done|]. split; [done|]. split; [done|].
  intros ofs Hne.
  destruct (decide (0 ≤ ofs < x_size dd * y_size dd)) as [|Hout]; [done|].
  exfalso. apply Hne, Hother. intros k Hk ->. apply Hout.
  apply pos_ofs_bounds; [done|done|].
  destruct Hcur as [Hy Hh]. unfold cursor_pos, stripe_rows in *. nia.
Qed.

Lemma assembler_page_inside_matrix_witness :
  ∃ dd',
    mxt_debug_insert_data minus_two (Sim.start Sim.idle)
    = (0, dd', Sim.start Sim.idle).
Proof.
  destruct (assembler_page_inside_matrix minus_two (Sim.start Sim.idle))
    as (dd' & Heq & _).
  - unfold cursor_in_stripe. vm_compute. repeat split; discriminate.
  - unfold stripe_in_column. vm_compute. split; [discriminate|reflexivity].
  - vm_compute. discriminate.
  - vm_compute. discriminate.
  - by exists dd'.
Defined.

(** X8: when no sample of the page lies past column [x_size] of the
    stripe, the assembler stores the whole page: for every [k] below the
    number of samples, the cell at the offset of position
    [cursor_pos + k] (row [stripe_starty + p mod rows], column
    [p / rows]) holds the [k]-th little-endian 16-bit sample of the page
    buffer. *)
Theorem assembler_places_page {ext : Type} (dd : mxt_debug_data)
    (w : world ext) (k : Z) :
  cursor_in_stripe dd →
  cursor_pos dd + page_samples dd ≤ (x_size dd + 1) * stripe_rows dd →
  0 ≤ k < page_samples dd →
  cell (data_buf (mxt_debug_insert_data dd w).1.2)
       (pos_ofs dd (cursor_pos dd + k))
  = sample_at (page_buf dd) k.
Proof.
  intros Hcur Hfit Hk. unfold page_samples in *.
  destruct (insert_data_loop dd w) as (-> & _ & _).
  destruct (insert_loop_fits _ 0 dd w Hcur Hfit)
    as (dd' & -> & _ & _ & _ & Hval & _).
  cbn [fst snd]. unfold cell, sample_at. by rewrite Hval.
Qed.

Lemma assembler_places_page_witness :
  cell (data_buf (mxt_debug_insert_data minus_two (Sim.start Sim.idle)).1.2)
       (pos_ofs minus_two (cursor_pos minus_two + 1))
  = sample_at (page_buf minus_two) 1.
Proof.
  apply (assembler_places_page minus_two (Sim.start Sim.idle) 1).
  - unfold cursor_in_stripe. vm_compute. repeat split; discriminate.
  - vm_compute. discriminate.
  - vm_compute. split; [discriminate|reflexivity].
Defined.


(** ** Setting up a capture *)

Section Setup.

Context {ext : Type} (P : platform ext).

Lemma get_objects_addr_found dd :
  get_object_address P (GEN_COMMANDPROCESSOR_T6 P) 0 ≠ OBJECT_NOT_FOUND P →
  get_object_address P (DEBUG_DIAGNOSTIC_T37 P) 0 ≠ OBJECT_NOT_FOUND P →
  get_object_size P (u8 (DEBUG_DIAGNOSTIC_T37 P)) ≠ OBJECT_NOT_FOUND P →
  get_objects_addr P dd
  = (0, set_t37_size (get_object_size P (u8 (DEBUG_DIAGNOSTIC_T37 P)))
          (set_t37_addr (get_object_address P (DEBUG_DIAGNOSTIC_T37 P) 0)
             (set_diag_cmd_addr
                (get_object_address P (GEN_COMMANDPROCESSOR_T6 P) 0 + 5) dd))).
Proof.
  intros H6 H37 Hs. unfold get_objects_addr.
  destruct (Z.eqb_spec (get_object_address P (GEN_COMMANDPROCESSOR_T6 P) 0)
              (OBJECT_NOT_FOUND P)) as [|_]; [done|].
  cbn [t37_addr set_t37_addr set_diag_cmd_addr].
  destruct (Z.eqb_spec (get_object_address P (DEBUG_DIAGNOSTIC_T37 P) 0)
              (OBJECT_NOT_FOUND P)) as [|_]; [done|].
  cbn [t37_size set_t37_size].
  by destruct (Z.eqb_spec (get_object_size P (u8 (DEBUG_DIAGNOSTIC_T37 P)))
                 (OBJECT_NOT_FOUND P)) as [|_].
Qed.

Lemma get_objects_addr_missing dd :
  get_object_address P (GEN_COMMANDPROCESSOR_T6 P) 0 = OBJECT_NOT_FOUND P
  ∨ get_object_address P (DEBUG_DIAGNOSTIC_T37 P) 0 = OBJECT_NOT_FOUND P
  ∨ get_object_size P (u8 (DEBUG_DIAGNOSTIC_T37 P)) = OBJECT_NOT_FOUND P →
  (get_objects_addr P dd).1 = -1.
Proof.
  intros Hmiss. unfold get_objects_addr.
  destruct (Z.eqb_spec (get_object_address P (GEN_COMMANDPROCESSOR_T6 P) 0)
              (OBJECT_NOT_FOUND P)) as [|H6]; [done|].
  cbn [t37_addr set_t37_addr set_diag_cmd_addr].
  destruct (Z.eqb_spec (get_object_address P (DEBUG_DIAGNOSTIC_T37 P) 0)
              (OBJECT_NOT_FOUND P)) as [|H37]; [done|].
  cbn [t37_size set_t37_size].
  destruct (Z.eqb_spec (get_object_size P (u8 (DEBUG_DIAGNOSTIC_T37 P)))
              (OBJECT_NOT_FOUND P)) as [|Hs]; [done|].
  by destruct Hmiss as [?|[?|?]].
Qed.

End Setup.

(** X9: [get_objects_addr] returns 0 when the address of the command
    processor, the address of the diagnostic object and its size are all
    found; it then sets the command address to the command processor's
    address plus 5 and the two fields of the diagnostic object, and
    nothing else.  When one of the three is missing it returns -1. *)
Theorem objects_found_or_error {ext : Type} (P : platform ext)
    (dd : mxt_debug_data) :
  (get_object_address P (GEN_COMMANDPROCESSOR_T6 P) 0 ≠ OBJECT_NOT_FOUND P →
   get_object_address P (DEBUG_DIAGNOSTIC_T37 P) 0 ≠ OBJECT_NOT_FOUND P →
   get_object_size P (u8 (DEBUG_DIAGNOSTIC_T37 P)) ≠ OBJECT_NOT_FOUND P →
   get_objects_addr P dd
   = (0, set_t37_size (get_object_size P (u8 (DEBUG_DIAGNOSTIC_T37 P)))
           (set_t37_addr (get_object_address P (DEBUG_DIAGNOSTIC_T37 P) 0)
              (set_diag_cmd_addr
                 (get_object_address P (GEN_COMMANDPROCESSOR_T6 P) 0 + 5)
                 dd))))
  ∧ (get_object_address P (GEN_COMMANDPROCESSOR_T6 P) 0 = OBJECT_NOT_FOUND P
     ∨ get_object_address P (DEBUG_DIAGNOSTIC_T37 P) 0 = OBJECT_NOT_FOUND P
     ∨ get_object_size P (u8 (DEBUG_DIAGNOSTIC_T37 P)) = OBJECT_NOT_FOUND P →
     (get_objects_addr P dd).1 = -1).
Proof.
  split; [apply get_objects_addr_found|apply get_objects_addr_missing].
Qed.

Lemma objects_found_or_error_witness :
  (get_objects_addr (Sim.sim ok_cfg) Sim.blank).1 = 0
  ∧ (get_objects_addr no_objects Sim.blank).1 = -1.
Proof.
  split.
  - rewrite (proj1 (objects_found_or_error (Sim.sim ok_cfg) Sim.blank));
      [reflexivity|vm_compute; discriminate..].
  - apply (proj2 (objects_found_or_error no_objects Sim.blank)).
    left. reflexivity.
Defined.

(** X10: when a diagnostic object is missing, [mxt_debug_dump] returns -1
    at once: it logs one error, accesses no register and creates no
    file. *)
Theorem missing_object_stops_the_run {ext : Type} (P : platform ext)
    (fuel : nat) (mode_arg stdin_frames : Z) (uninit : mxt_debug_data)
    (ns0 pps0 : Z) (w : world ext) :
  get_object_address P (GEN_COMMANDPROCESSOR_T6 P) 0 = OBJECT_NOT_FOUND P
  ∨ get_object_address P (DEBUG_DIAGNOSTIC_T37 P) 0 = OBJECT_NOT_FOUND P
  ∨ get_object_size P (u8 (DEBUG_DIAGNOSTIC_T37 P)) = OBJECT_NOT_FOUND P →
  (mxt_debug_dump P fuel mode_arg stdin_frames uninit ns0 pps0 w).1.1
  = Returned (-1)
  ∧ (mxt_debug_dump P fuel mode_arg stdin_frames uninit ns0 pps0 w).2
    = LOG LOG_ERROR "Failed to get object information" w.
Proof.
  intros Hmiss. unfold mxt_debug_dump.
  pose proof (get_objects_addr_missing P (set_mode (u8 mode_arg) uninit) Hmiss)
    as Hret.
  destruct (get_objects_addr P (set_mode (u8 mode_arg) uninit)) as [ret dd1].
  cbn [fst] in Hret. subst ret. by cbn.
Qed.

Lemma missing_object_stops_the_run_witness :
  (mxt_debug_dump no_objects 501 DELTAS_MODE 1 Sim.blank 0 0
     (Sim.start Sim.idle)).1.1 = Returned (-1).
Proof.
  apply (missing_object_stops_the_run no_objects 501 DELTAS_MODE 1 Sim.blank
           0 0 (Sim.start Sim.idle)).
  left. reflexivity.
Defined.

(** X11: when an allocation fails or [hawkeye.csv] cannot be opened,
    [mxt_debug_dump] returns -1 without a register access: the chip and
    the files are as before. *)
Theorem failed_setup_stops_the_run {ext : Type} (P : platform ext)
    (fuel : nat) (mode_arg stdin_frames : Z) (uninit : mxt_debug_data)
    (ns0 pps0 : Z) (w : world ext)
    (dd1 dd2 : mxt_debug_data) (ns pps : Z) (w2 : world ext) :
  get_objects_addr P (set_mode (u8 mode_arg) uninit) = (0, dd1) →
  switch_family P (ns0, pps0, dd1, w) = (ns, pps, dd2, w2) →
  ns ≠ 0 →
  malloc_u8 P (ext_state w) (t37_size dd2) = None
  ∨ malloc_u16 P (ext_state w) (x_size dd2 * matrix_y_size P) = None
  ∨ fopen_ok P (ext_state w) "hawkeye.csv" = false →
  let r := mxt_debug_dump P fuel mode_arg stdin_frames uninit ns0 pps0 w in
  r.1.1 = Returned (-1)
  ∧ List.filter is_reg (trace r.2) = List.filter is_reg (trace w)
  ∧ ext_state r.2 = ext_state w
  ∧ files r.2 = files w.
Proof.
  intros Hobj Hsw Hns Hfail.
  destruct (switch_family_quiet P _ _ _ _ _ _ _ _ Hsw) as (He & Hf & Ht).
  cbn zeta. unfold mxt_debug_dump. rewrite Hobj. cbn [Z.eqb negb]. rewrite Hsw.
  destruct (Z.eqb_spec ns 0) as [|_]; [done|].
  cbn [LOG ext_state t37_size set_page_size set_num_stripes set_stripe_width
       set_y_size x_size y_size set_page_buf].
  rewrite He.
  destruct (malloc_u8 P (ext_state w) (t37_size dd2)) as [bytes|] eqn:Hm8.
  2: { cbn. repeat split; auto.
       rewrite !List.filter_app, Ht. cbn. by rewrite !app_nil_r. }
  destruct (malloc_u16 P (ext_state w) (x_size dd2 * matrix_y_size P))
    as [cells|] eqn:Hm16.
  2: { cbn. repeat split; auto.
       rewrite !List.filter_app, Ht. cbn. by rewrite !app_nil_r. }
  unfold fopen_w. cbn [ext_state LOG]. rewrite He.
  destruct (fopen_ok P (ext_state w) "hawkeye.csv") eqn:Hopen.
  { by destruct Hfail as [?|[?|?]]. }
  cbn. repeat split; auto.
  rewrite !List.filter_app, Ht. cbn. by rewrite !app_nil_r.
Qed.

Lemma failed_setup_stops_the_run_witness :
  (mxt_debug_dump read_only_disk 501 DELTAS_MODE 1 Sim.blank 0 0
     (Sim.start Sim.idle)).1.1 = Returned (-1).
Proof.
  eapply (failed_setup_stops_the_run read_only_disk 501 DELTAS_MODE 1
            Sim.blank 0 0 (Sim.start Sim.idle)).
  - vm_compute. reflexivity.
  - vm_compute. reflexivity.
  - discriminate.
  - right. right. reflexivity.
Defined.


(** ** The capture loop: what it keeps *)

Section CaptureKeeps.

Context {ext : Type} (P : platform ext).

Lemma set_page_buf_same dd : set_page_buf (page_buf dd) dd = dd.
Proof. by destruct dd. Qed.

(** A fetch changes nothing in the structure but the page buffer. *)
Lemma dump_page_buf_only fuel dd (w : world ext) :
  ∃ b, (mxt_debug_dump_page P fuel dd w).1.2 = set_page_buf b dd.
Proof.
  unfold mxt_debug_dump_page, reg_read.
  repeat case_match; cbn [fst snd];
    (by eexists) || (exists (page_buf dd); by rewrite set_page_buf_same).
Qed.

Lemma insert_loop_matrix_only (n : nat) :
  ∀ i dd (w : world ext), matrix_only dd (insert_loop n i dd w).1.2.
Proof.
  induction n as [|n IH]; intros i dd w; [apply matrix_only_refl|].
  destruct (Z.le_gt_cases (x_ptr dd) (x_size dd)) as [Hx|Hx].
  - rewrite insert_loop_S by done.
    eapply matrix_only_trans; [|apply IH].
    unfold matrix_only, after_turn.
    destruct (y_ptr dd + 1 >? stripe_endy dd); by destruct dd.
  - rewrite insert_loop_overrun by done. apply matrix_only_refl.
Qed.

Lemma insert_data_matrix_only dd (w : world ext) :
  matrix_only dd (mxt_debug_insert_data dd w).1.2.
Proof.
  destruct (insert_data_loop dd w) as (-> & _ & _).
  apply insert_loop_matrix_only.
Qed.

Lemma insert_data_world dd (w : world ext) :
  ext_state (mxt_debug_insert_data dd w).2 = ext_state w
  ∧ files (mxt_debug_insert_data dd w).2 = files w.
Proof.
  destruct (insert_data_loop dd w) as (_ & -> & _).
  by destruct (insert_loop_world (Z.to_nat ((page_size dd + 1) / 2)) 0 dd w)
    as [-> | ->].
Qed.

Lemma page_loop_keeps fuel (n : nat) :
  ∀ pg pps dd (w : world ext),
    stripe_kept dd (page_loop P fuel n pg pps dd w).1.2
    ∧ files (page_loop P fuel n pg pps dd w).2 = files w.
Proof.
  induction n as [|n IH]; intros pg pps dd w; [done|].
  cbn [page_loop].
  set (dd0 := set_page _ dd). set (w0 := LOG _ _ w).
  destruct (dump_page_buf_only fuel dd0 w0) as (b & Hb).
  destruct (dump_page_events P fuel dd0 w0) as (_ & _ & Hf & _).
  destruct (mxt_debug_dump_page P fuel dd0 w0) as [[[ret|] dd1] w1];
    cbn [fst snd] in *; subst dd1; [|done].
  destruct (ret <? 0); [done|].
  pose proof (insert_data_matrix_only (set_page_buf b dd0) w1) as Hm.
  destruct (insert_data_world (set_page_buf b dd0) w1) as [_ Hfi].
  destruct (mxt_debug_insert_data (set_page_buf b dd0) w1) as [[r2 dd2] w2].
  cbn [fst snd] in *.
  destruct (IH (pg + 1) pps dd2 w2) as [(Hs & Hfr & Hst & Hy0 & Hy1) Hfl].
  rewrite Hfl, Hfi, Hf. split; [|done].
  unfold stripe_kept. rewrite Hs, Hfr, Hst, Hy0, Hy1.
  unfold matrix_only in Hm. rewrite Hm. done.
Qed.

Lemma stripe_loop_S fuel (n : nat) pps dd (w : world ext) :
  stripe_loop P fuel (S n) pps dd w
  = match page_loop P fuel (Z.to_nat pps) 0 pps (select_stripe dd) w with
    | (LoopDone, dd, w) =>
        stripe_loop P fuel n pps (set_stripe (stripe dd + 1) dd) w
    | other => other
    end.
Proof. reflexivity. Qed.

Lemma stripe_loop_keeps fuel pps (n : nat) :
  ∀ dd (w : world ext),
    session_of (stripe_loop P fuel n pps dd w).1.2 = session_of dd
    ∧ frame (stripe_loop P fuel n pps dd w).1.2 = frame dd
    ∧ files (stripe_loop P fuel n pps dd w).2 = files w.
Proof.
  induction n as [|n IH]; intros dd w; [done|].
  rewrite stripe_loop_S.
  destruct (page_loop_keeps fuel (Z.to_nat pps) 0 pps (select_stripe dd) w)
    as [(Hs & Hfr & _) Hf].
  destruct (page_loop P fuel (Z.to_nat pps) 0 pps (select_stripe dd) w)
    as [[[|ret|] dd1] w1]; cbn [fst snd] in *; [|done..].
  destruct (IH (set_stripe (stripe dd1 + 1) dd1) w1) as (Hs' & Hfr' & Hf').
  rewrite Hs', Hfr', Hf'. cbn [frame set_stripe]. by rewrite Hfr, Hf.
Qed.

End CaptureKeeps.


(** ** The capture loop: register reads that fail *)

Section CaptureEvents.

Context {ext : Type} (P : platform ext).

Lemma read_checked_quiet t0 evs :
  Forall (λ e, is_reg e = false) evs →
  ∀ fl, (∀ v, fl = Leave v → v = -1) → read_checked t0 (t0 ++ evs) fl.
Proof.
  intros Hq fl Hfl. exists evs. split; [done|]. split; [|done]. left.
  eapply Forall_impl; [exact Hq|]. intros e He. by destruct e.
Qed.

Lemma read_checked_after t0 t1 t2 fl :
  (∃ evs, t1 = t0 ++ evs ∧ Forall good_read evs) →
  read_checked t1 t2 fl → read_checked t0 t2 fl.
Proof.
  intros (evs0 & -> & Hg0) (evs & -> & Hev & Hv).
  exists (evs0 ++ evs). rewrite app_assoc. split; [done|]. split; [|done].
  destruct Hev as [Hg|[Hl Hs]].
  - left. by apply Forall_app.
  - right. split; [done|]. by apply stops_prepend.
Qed.

Lemma insert_data_trace dd (w : world ext) :
  ∃ evs, trace (mxt_debug_insert_data dd w).2 = trace w ++ evs
         ∧ Forall good_read evs.
Proof.
  destruct (insert_data_loop dd w) as (_ & -> & _).
  destruct (insert_loop_world (Z.to_nat ((page_size dd + 1) / 2)) 0 dd w)
    as [-> | ->].
  - exists []. by rewrite app_nil_r.
  - eexists. split; [reflexivity|]. by repeat constructor.
Qed.

Lemma page_loop_events fuel (n : nat) :
  ∀ pg pps dd (w : world ext),
    read_checked (trace w) (trace (page_loop P fuel n pg pps dd w).2)
                 (page_loop P fuel n pg pps dd w).1.1.
Proof.
  induction n as [|n IH]; intros pg pps dd w.
  - cbn. rewrite <- (app_nil_r (trace w)) at 2.
    by apply read_checked_quiet.
  - cbn [page_loop].
    set (dd0 := set_page _ dd). set (w0 := LOG _ _ w).
    destruct (dump_page_events P fuel dd0 w0) as (evs & Htr & _ & Hev & Hv).
    destruct (mxt_debug_dump_page P fuel dd0 w0) as [[[ret|] dd1] w1];
      cbn [fst snd] in *.
    + destruct (Hv ret eq_refl) as [-> | ->]; cbn [Z.ltb Z.compare].
      * destruct Hev as [Hg|[[=] _]].
        destruct (insert_data_trace dd1 w1) as (evs2 & Htr2 & Hg2).
        destruct (mxt_debug_insert_data dd1 w1) as [[r2 dd2] w2].
        cbn [fst snd] in *.
        eapply read_checked_after; [|apply IH].
        eexists. split.
        { rewrite Htr2, Htr. subst w0. cbn [trace LOG].
          rewrite <- !app_assoc. reflexivity. }
        repeat (apply Forall_app; split); try done. by repeat constructor.
      * cbn [fst snd LOG trace]. rewrite Htr. subst w0. cbn [trace LOG].
        rewrite <- !app_assoc.
        eexists. split; [reflexivity|]. split; [|by intros v [= <-]].
        destruct Hev as [Hg|[_ Hs]].
        -- left. repeat (apply Forall_app; split); try done;
             by repeat constructor.
        -- right. split; [done|].
           apply (stops_prepend [_]); [by repeat constructor|].
           by apply stops_append.
    + rewrite Htr. subst w0. cbn [trace LOG]. rewrite <- !app_assoc.
      eexists. split; [reflexivity|]. split; [|done].
      destruct Hev as [Hg|[[=] _]]. left.
      repeat (apply Forall_app; split); try done; by repeat constructor.
Qed.

Lemma stripe_loop_events fuel pps (n : nat) :
  ∀ dd (w : world ext),
    read_checked (trace w) (trace (stripe_loop P fuel n pps dd w).2)
                 (stripe_loop P fuel n pps dd w).1.1.
Proof.
  induction n as [|n IH]; intros dd w.
  - cbn. rewrite <- (app_nil_r (trace w)) at 2.
    by apply read_checked_quiet.
  - rewrite stripe_loop_S.
    pose proof (page_loop_events fuel (Z.to_nat pps) 0 pps (select_stripe dd) w)
      as Hp.
    destruct (page_loop P fuel (Z.to_nat pps) 0 pps (select_stripe dd) w)
      as [[[|ret|] dd1] w1]; cbn [fst snd] in *; [|done..].
    eapply read_checked_after; [|apply IH].
    destruct Hp as (evs & -> & [Hg|[[=] _]] & _). by exists evs.
Qed.

Lemma frame_loop_events pfuel frames ns pps (fuel : nat) :
  ∀ dd (w : world ext),
    read_checked (trace w)
      (trace (frame_loop P fuel pfuel frames ns pps dd w).2)
      (frame_loop P fuel pfuel frames ns pps dd w).1.1.
Proof.
  induction fuel as [|fuel IH]; intros dd w; cbn [frame_loop].
  - destruct (negb _); cbn; rewrite <- (app_nil_r (trace w)) at 2;
      by apply read_checked_quiet.
  - destruct (negb _).
    { cbn. rewrite <- (app_nil_r (trace w)) at 2.
      by apply read_checked_quiet. }
    pose proof (stripe_loop_events pfuel pps (Z.to_nat ns) (set_stripe 0 dd) w)
      as Hs.
    destruct (stripe_loop P pfuel (Z.to_nat ns) pps (set_stripe 0 dd) w)
      as [[[|ret|] dd1] w1]; cbn [fst snd] in *; [|done..].
    pose proof (hawkeye_output_trace P dd1 w1) as Hout.
    destruct (mxt_hawkeye_output P dd1 w1) as [r w2]. cbn [snd] in Hout.
    eapply read_checked_after; [|apply IH]. rewrite Hout.
    destruct Hs as (evs & -> & [Hg|[[=] _]] & _). by exists evs.
Qed.

Lemma switch_family_logs ns0 pps0 dd (w : world ext) ns pps dd' w' :
  switch_family P (ns0, pps0, dd, w) = (ns, pps, dd', w') →
  ∃ evs, trace w' = trace w ++ evs ∧ Forall good_read evs.
Proof.
  unfold switch_family, case_0x80, case_0xA0, case_0xA1, case_0xA2,
    case_default, LOG.
  repeat match goal with
         | |- context [if ?b then _ else _] => destruct b
         end;
    intros [= <- <- <- <-]; cbn [trace];
    try (exists []; by rewrite app_nil_r);
    try (eexists; split; [reflexivity|by repeat constructor]).
  eexists. rewrite <- app_assoc. split; [reflexivity|by repeat constructor].
Qed.

Lemma switch_family_listed ns0 pps0 dd (w : world ext) ns pps dd' w' :
  listed_family P →
  switch_family P (ns0, pps0, dd, w) = (ns, pps, dd', w') →
  ns = 1 ∨ ns = 3.
Proof.
  unfold listed_family, switch_family, case_0x80, case_0xA0, case_0xA1,
    case_0xA2, case_default.
  intros Hl.
  destruct (Z.eqb_spec (family_id P) 128); [intros [= <- _ _ _]; auto|].
  destruct (Z.eqb_spec (family_id P) 160); [intros [= <- _ _ _]; auto|].
  destruct (Z.eqb_spec (family_id P) 161).
  { destruct (variant_id P =? 3); intros [= <- _ _ _]; auto. }
  destruct (Z.eqb_spec (family_id P) 162); [|lia].
  destruct (Z.eqb_spec (variant_id P) 0); [intros [= <- _ _ _]; auto|lia].
Qed.

(** The events of a run, and the values it returns. *)
Lemma debug_dump_events fuel mode_arg stdin_frames uninit ns0 pps0
    (w : world ext) :
  ∃ evs,
    trace (mxt_debug_dump P fuel mode_arg stdin_frames uninit ns0 pps0 w).2
    = trace w ++ evs
    ∧ (Forall good_read evs
       ∨ ((mxt_debug_dump P fuel mode_arg stdin_frames uninit ns0 pps0 w).1.1
          = Returned (-1)
          ∧ stops_at_failed_read evs))
    ∧ (∀ v, (mxt_debug_dump P fuel mode_arg stdin_frames uninit
               ns0 pps0 w).1.1 = Returned v → v = 0 ∨ v = -1).
Proof.
  unfold mxt_debug_dump.
  destruct (get_objects_addr P _) as [ret dd1].
  destruct (negb (ret =? 0)).
  { eexists. cbn. split; [reflexivity|].
    split; [left; by repeat constructor|intros v [= <-]; auto]. }
  destruct (switch_family P _) as [[[ns pps] dd2] w2] eqn:Hsw.
  destruct (switch_family_logs _ _ _ _ _ _ _ _ Hsw) as (evs0 & Htr0 & Hg0).
  destruct (ns =? 0).
  { exists evs0. cbn. split; [done|]. split; [by left|done]. }
  set (w3 := LOG LOG_INFO _ (LOG LOG_INFO _ (LOG LOG_INFO _
               (LOG LOG_INFO _ (LOG LOG_INFO _ w2))))).
  assert (∃ evs, trace w3 = trace w ++ evs ∧ Forall good_read evs)
    as (evs3 & Htr3 & Hg3).
  { subst w3. cbn [trace LOG]. rewrite Htr0, <- !app_assoc.
    eexists. split; [reflexivity|].
    apply Forall_app. split; [done|]. by repeat constructor. }
  destruct (malloc_u8 P (ext_state w3) _) as [bytes|].
  2: { cbn [fst snd LOG trace]. rewrite Htr3, <- app_assoc.
       eexists. split; [reflexivity|].
       split; [left|intros v [= <-]; auto].
       apply Forall_app. split; [done|]. by repeat constructor. }
  destruct (malloc_u16 P (ext_state w3) _) as [cells|].
  2: { cbn [fst snd LOG trace]. rewrite Htr3, <- app_assoc.
       eexists. split; [reflexivity|].
       split; [left|intros v [= <-]; auto].
       apply Forall_app. split; [done|]. by repeat constructor. }
  unfold fopen_w. destruct (fopen_ok P (ext_state w3) "hawkeye.csv").
  2: { exists evs3. cbn. split; [done|].
       split; [by left|intros v [= <-]; auto]. }
  match goal with
  | |- context [frame_loop P fuel fuel ?f ns pps ?dd ?w0] =>
      pose proof (frame_loop_events fuel f ns pps fuel dd w0) as Hloop;
      destruct (frame_loop P fuel fuel f ns pps dd w0) as [[fl dd'] w']
  end.
  cbn [fst snd trace] in Hloop.
  assert (read_checked (trace w) (trace w') fl) as (evs & Htr & Hev & Hv).
  { eapply read_checked_after; [|exact Hloop]. by exists evs3. }
  destruct fl as [|r|]; cbn [fst snd].
  - destruct Hev as [Hg|[[=] _]].
    pose proof (control_file_emits P dd' w' _ _ (emits_refl (trace w'))) as He.
    destruct He as (evs' & Htr' & Hc').
    assert (Forall good_read evs') as Hg'.
    { unfold mxt_hawkeye_generate_control_file, fopen_w in Htr'.
      destruct (fopen_ok P (ext_state w') "control.txt").
      - rewrite (for_grid_fprintf "control.txt" descriptor_line
                   (λ x y w, fprintf "control.txt" (descriptor_line x y) w))
          in Htr' by done.
        cbn in Htr'. rewrite <- (app_nil_r (trace w')) in Htr' at 1.
        apply app_inv_head in Htr'. by subst evs'.
      - cbn in Htr'. apply app_inv_head in Htr'. subst evs'.
        by repeat constructor. }
    exists (evs ++ evs'). rewrite Htr', Htr, <- app_assoc.
    split; [done|]. split; [left; by apply Forall_app|intros v [= <-]; auto].
  - pose proof (Hv r eq_refl) as ->.
    exists evs. split; [done|]. split; [|intros v [= <-]; auto].
    destruct Hev as [?|[_ ?]]; auto.
  - exists evs. split; [done|]. split; [|done].
    destruct Hev as [?|[[=] _]]. by left.
Qed.

End CaptureEvents.



(** ** The capture loop: the log and the descriptor *)

Section CaptureFiles.

Context {ext : Type} (P : platform ext).

(** The serializer with a readable clock: one record. *)
Lemma hawkeye_output_record dd (w : world ext) t :
  localtime_now P (ext_state w) = Some t →
  ∃ timestr,
    hhmmss timestr = true
    ∧ mxt_hawkeye_output P dd w
      = (0, fprintf (hawkeye dd)
              (log_record timestr (to_int32 (frame dd)) (frame_cells dd)) w).
Proof.
  intros Hclock.
  destruct (strftime_T_shape t) as (ts & Hts & Hshape).
  exists ts. split; [done|].
  unfold mxt_hawkeye_output. rewrite Hclock, Hts.
  rewrite fprintf_fprintf.
  rewrite (for_grid_fprintf (hawkeye dd)
             (λ x y, fmt_d (to_int16 (cell (data_buf dd)
                                        (y + x * y_size dd))) +:+ ","))
    by done.
  rewrite fprintf_fprintf.
  unfold log_record, grid_text, frame_cells.
  rewrite !string_append_assoc.
  by rewrite (fmap_grid (λ v, fmt_d v +:+ ",")).
Qed.

Lemma frame_cells_shape dd :
  length (frame_cells dd) = (Z.to_nat (x_size dd) * Z.to_nat (y_size dd))%nat
  ∧ Forall (λ v, -32768 ≤ v < 32768) (frame_cells dd).
Proof.
  split; [apply length_grid|].
  unfold frame_cells. apply Forall_forall. intros v Hv.
  apply list_elem_of_bind in Hv as (x & Hv & _).
  apply list_elem_of_fmap in Hv as (y & -> & _).
  apply to_int16_range.
Qed.

(** The serializer writes to the log file only, and leaves the chip and
    the trace alone. *)
Lemma hawkeye_output_other_files dd (w : world ext) name :
  name ≠ hawkeye dd →
  files (mxt_hawkeye_output P dd w).2 !! name = files w !! name.
Proof.
  intros Hname. unfold mxt_hawkeye_output.
  destruct (localtime_now P (ext_state w)) as [t|]; [|done].
  destruct (strftime_T 20 t) as [ts|]; [|done].
  rewrite fprintf_fprintf.
  rewrite (for_grid_fprintf (hawkeye dd)
             (λ x y, fmt_d (to_int16 (cell (data_buf dd)
                                        (y + x * y_size dd))) +:+ ","))
    by done.
  rewrite fprintf_fprintf. cbn. by rewrite lookup_insert_ne.
Qed.

(** The frame loop writes to the log file only. *)
Lemma frame_loop_other_files pfuel frames ns pps (fuel : nat) name :
  ∀ dd (w : world ext),
    name ≠ hawkeye dd →
    files (frame_loop P fuel pfuel frames ns pps dd w).2 !! name
    = files w !! name.
Proof.
  induction fuel as [|fuel IH]; intros dd w Hname; cbn [frame_loop];
    (destruct (negb _); [done|]); [done|].
  destruct (stripe_loop_keeps P pfuel pps (Z.to_nat ns) (set_stripe 0 dd) w)
    as (Hs & _ & Hf).
  destruct (stripe_loop P pfuel (Z.to_nat ns) pps (set_stripe 0 dd) w)
    as [[[|ret|] dd1] w1]; cbn [fst snd] in *; [|by rewrite Hf..].
  assert (hawkeye dd1 = hawkeye dd) as Hh by (by injection Hs).
  pose proof (hawkeye_output_other_files dd1 w1 name ltac:(by rewrite Hh))
    as Hout.
  destruct (mxt_hawkeye_output P dd1 w1) as [r w2]. cbn [snd] in Hout.
  rewrite IH by (cbn; by rewrite Hh). by rewrite Hout, Hf.
Qed.

(** With a readable clock, a frame loop that runs to its end appends one
    record per frame, numbered from the current frame on, and keeps the
    session. *)
Lemma frame_loop_records pfuel frames ns pps (fuel : nat) :
  (∀ e, is_Some (localtime_now P e)) →
  frames < 2147483648 →
  ∀ dd (w : world ext) dd' w' old,
    frame_loop P fuel pfuel frames ns pps dd w = (LoopDone, dd', w') →
    1 ≤ frame dd ≤ frames + 1 →
    files w !! hawkeye dd = Some old →
    ∃ recs,
      length recs = Z.to_nat (frames + 1 - frame dd)
      ∧ files w' !! hawkeye dd = Some (old +:+ concat_strings recs)
      ∧ records_from (frame dd)
          (Z.to_nat (x_size dd) * Z.to_nat (y_size dd)) recs
      ∧ session_of dd' = session_of dd.
Proof.
  intros Hclock Hmax.
  induction fuel as [|fuel IH]; intros dd w dd' w' old Hrun Hfr Hold;
    cbn [frame_loop] in Hrun;
    destruct (Z.leb_spec (frame dd) frames) as [Hle|Hgt]; cbn [negb] in Hrun;
    try done.
  1,3: injection Hrun as <- <-; exists [];
       (split; [cbn; lia|]); (split; [by rewrite string_append_nil_r|]);
       (split; [by intros j rec ?|done]).
  destruct (stripe_loop_keeps P pfuel pps (Z.to_nat ns) (set_stripe 0 dd) w)
    as (Hs & Hfr1 & Hf).
  destruct (stripe_loop P pfuel (Z.to_nat ns) pps (set_stripe 0 dd) w)
    as [[[|ret|] dd1] w1]; cbn [fst snd] in *; [|done..].
  assert (session_of dd1 = session_of dd) as Hs1 by done.
  assert (hawkeye dd1 = hawkeye dd ∧ x_size dd1 = x_size dd
          ∧ y_size dd1 = y_size dd) as (Hh & HX & HY)
    by (by injection Hs1).
  cbn [frame set_stripe] in Hfr1.
  destruct (Hclock (ext_state w1)) as [t Ht].
  destruct (hawkeye_output_record dd1 w1 t Ht) as (ts & Hshape & Hout).
  rewrite Hout in Hrun.
  rewrite to_int32_small in Hrun by lia.
  apply IH with (old := old +:+ log_record ts (frame dd1) (frame_cells dd1))
    in Hrun.
  - destruct Hrun as (recs & Hlen & Hfile & Hrecs & Hs').
    cbn [frame set_frame hawkeye x_size y_size] in *.
    assert (u32 (frame dd1 + 1) = frame dd + 1) as Hnext
      by (unfold u32; rewrite Z.mod_small; lia).
    rewrite Hnext in *.
    exists (log_record ts (frame dd) (frame_cells dd1) :: recs).
    split; [cbn [length]; lia|]. split.
    { rewrite <- Hh, Hfile, Hfr1. cbn [concat_strings foldr].
      by rewrite string_append_assoc. }
    split; [|by rewrite Hs'].
    intros [|j] rec Hj.
    + injection Hj as <-. exists ts, (frame_cells dd1).
      rewrite Z.add_0_r. split; [done|]. split; [done|].
      destruct (frame_cells_shape dd1) as [Hl Hr]. by rewrite Hl, HX, HY.
    + destruct (Hrecs j rec Hj) as (ts' & vs & -> & ? & ? & ?).
      exists ts', vs. rewrite HX, HY in *.
      replace (frame dd + Z.of_nat (S j)) with (frame dd + 1 + Z.of_nat j)
        by lia.
      done.
  - cbn [frame set_frame]. unfold u32. rewrite Z.mod_small by lia. lia.
  - cbn [hawkeye set_frame]. unfold fprintf. cbn [files].
    rewrite lookup_insert_eq. by rewrite Hf, Hh, Hold.
Qed.

End CaptureFiles.


Section CaptureFilesTop.

Context {ext : Type} (P : platform ext).

Lemma control_file_other_files dd (w : world ext) name :
  name ≠ "control.txt" →
  files (mxt_hawkeye_generate_control_file P dd w) !! name = files w !! name.
Proof.
  intros Hname. unfold mxt_hawkeye_generate_control_file, fopen_w.
  destruct (fopen_ok P (ext_state w) "control.txt") eqn:Hopen; [|done].
  rewrite (for_grid_fprintf "control.txt" descriptor_line
             (λ x y w, fprintf "control.txt" (descriptor_line x y) w))
    by done.
  cbn. by rewrite !lookup_insert_ne.
Qed.

Lemma control_file_ext dd (w : world ext) :
  ext_state (mxt_hawkeye_generate_control_file P dd w) = ext_state w.
Proof.
  unfold mxt_hawkeye_generate_control_file, fopen_w.
  destruct (fopen_ok P (ext_state w) "control.txt") eqn:Hopen; [|done].
  by rewrite (for_grid_fprintf "control.txt" descriptor_line
                (λ x y w, fprintf "control.txt" (descriptor_line x y) w)).
Qed.

End CaptureFilesTop.

(** X14: with a readable clock, a capture that returns 0 leaves in
    [hawkeye.csv] exactly one record per requested frame, in order and
    numbered from 1, each with a time of the form [HH:MM:SS] and
    [x_size * y_size] signed 16-bit values; nothing else is in the file.
    (The frame count is taken below 2^31, as the frame number is printed
    with [%d].) *)
Theorem capture_logs_every_frame {ext : Type} (P : platform ext)
    (fuel : nat) (mode_arg stdin_frames : Z) (uninit : mxt_debug_data)
    (ns0 pps0 : Z) (w : world ext) (dd' : mxt_debug_data) (w' : world ext) :
  (∀ e, is_Some (localtime_now P e)) →
  get_num_frames stdin_frames < 2147483648 →
  mxt_debug_dump P fuel mode_arg stdin_frames uninit ns0 pps0 w
  = (Returned 0, dd', w') →
  ∃ recs,
    length recs = Z.to_nat (get_num_frames stdin_frames)
    ∧ files w' !! "hawkeye.csv" = Some (concat_strings recs)
    ∧ records_from 1 (Z.to_nat (x_size dd') * Z.to_nat (y_size dd')) recs.
Proof.
  intros Hclock Hmax. unfold mxt_debug_dump.
  destruct (get_objects_addr P _) as [ret dd1].
  destruct (negb (ret =? 0)); [done|].
  destruct (switch_family P _) as [[[ns pps] dd2] w2].
  destruct (ns =? 0); [done|].
  destruct (malloc_u8 P _ _) as [bytes|]; [|done].
  destruct (malloc_u16 P _ _) as [cells|]; [|done].
  unfold fopen_w. destruct (fopen_ok P _ "hawkeye.csv"); [|done].
  match goal with
  | |- context [frame_loop P fuel fuel ?f ns pps ?dd ?w0] =>
      pose proof (frame_loop_records P fuel f ns pps fuel Hclock Hmax dd w0)
        as Hrecs;
      destruct (frame_loop P fuel fuel f ns pps dd w0) as [[[|r|] dd3] w3]
        eqn:Hloop
  end; [| |done].
  2: { intros [= -> _ _]. exfalso.
       match type of Hloop with
       | frame_loop P fuel fuel ?f ns pps ?dd ?w0 = _ =>
           destruct (frame_loop_events P fuel f ns pps fuel dd w0)
             as (_ & _ & _ & Hv)
       end.
       rewrite Hloop in Hv. by specialize (Hv 0 eq_refl). }
  intros [= <- <-].
  destruct (Hrecs dd3 w3 "" eq_refl) as (recs & Hlen & Hfile & Hr & Hs).
  { cbn [frame set_frame]. unfold get_num_frames, u32 in *.
    pose proof (Z.mod_pos_bound stdin_frames 4294967296 ltac:(lia)). lia. }
  { cbn. by rewrite lookup_insert_eq. }
  cbn [frame set_frame hawkeye set_hawkeye x_size y_size set_data_buf
       set_page_buf set_y_size set_stripe_width set_num_stripes
       set_page_size] in *.
  exists recs. split; [by rewrite Hlen, Z.add_simpl_r|]. split.
  - rewrite control_file_other_files by done. by rewrite Hfile.
  - assert (x_size dd3 = x_size dd2 ∧ y_size dd3 = matrix_y_size P)
      as [-> ->] by (by injection Hs).
    done.
Qed.

Lemma capture_logs_every_frame_witness :
  ∃ recs,
    length recs = 2%nat
    ∧ files two_frames !! "hawkeye.csv" = Some (concat_strings recs).
Proof.
  set (run := mxt_debug_dump (Sim.sim ok_cfg) 501 DELTAS_MODE 2 Sim.blank 0 0
                (Sim.start Sim.idle)).
  assert (run = (Returned 0, run.1.2, run.2)) as Hrun
    by (vm_compute; reflexivity).
  destruct (capture_logs_every_frame (Sim.sim ok_cfg) 501 DELTAS_MODE 2
              Sim.blank 0 0 (Sim.start Sim.idle) run.1.2 run.2)
    as (recs & Hlen & Hfile & _).
  - intros e. by eexists.
  - reflexivity.
  - exact Hrun.
  - exists recs. split; [exact Hlen|exact Hfile].
Defined.

Section SessionKept.

Context {ext : Type} (P : platform ext).

Lemma frame_loop_keeps pfuel frames ns pps (fuel : nat) :
  ∀ dd (w : world ext),
    session_of (frame_loop P fuel pfuel frames ns pps dd w).1.2
    = session_of dd.
Proof.
  induction fuel as [|fuel IH]; intros dd w; cbn [frame_loop];
    (destruct (negb _); [done|]); [done|].
  destruct (stripe_loop_keeps P pfuel pps (Z.to_nat ns) (set_stripe 0 dd) w)
    as (Hs & _ & _).
  destruct (stripe_loop P pfuel (Z.to_nat ns) pps (set_stripe 0 dd) w)
    as [[[|ret|] dd1] w1]; cbn [fst snd] in *; [|done..].
  destruct (mxt_hawkeye_output P dd1 w1) as [r w2].
  by rewrite IH.
Qed.

End SessionKept.

(** X15: the capture loop never changes the parameters of the session:
    whatever the chip answers and however the loop ends, the geometry
    ([x_size], [y_size], [num_stripes], [stripe_width]), the page size,
    the mode, the three addresses and the log file of the structure are
    those the loop was entered with. *)
Theorem session_is_immutable {ext : Type} (P : platform ext)
    (fuel pfuel : nat) (frames ns pps : Z) (dd : mxt_debug_data)
    (w : world ext) :
  session_of (frame_loop P fuel pfuel frames ns pps dd w).1.2 = session_of dd.
Proof. apply frame_loop_keeps. Qed.

(** X16: the column-layout descriptor is written after a complete capture
    and only then: a run that does not return 0 leaves [control.txt] as it
    was, and a run that returns 0, when the file can be opened, leaves in
    it exactly the descriptor of the [x_size * y_size] cells. *)
Theorem descriptor_only_after_capture {ext : Type} (P : platform ext)
    (fuel : nat) (mode_arg stdin_frames : Z) (uninit : mxt_debug_data)
    (ns0 pps0 : Z) (w : world ext) :
  let r := mxt_debug_dump P fuel mode_arg stdin_frames uninit ns0 pps0 w in
  (r.1.1 ≠ Returned 0 →
   files r.2 !! "control.txt" = files w !! "control.txt")
  ∧ (r.1.1 = Returned 0 →
     fopen_ok P (ext_state r.2) "control.txt" = true →
     files r.2 !! "control.txt"
     = Some (control_descriptor (x_size r.1.2) (y_size r.1.2))).
Proof.
  cbn zeta. unfold mxt_debug_dump.
  destruct (get_objects_addr P _) as [ret dd1].
  destruct (negb (ret =? 0)); [by cbn|].
  destruct (switch_family P _) as [[[ns pps] dd2] w2] eqn:Hsw.
  destruct (switch_family_quiet P _ _ _ _ _ _ _ _ Hsw) as (He & Hf & Ht).
  destruct (ns =? 0); [cbn; by rewrite Hf|].
  destruct (malloc_u8 P _ _) as [bytes|]; [|cbn; by rewrite Hf].
  destruct (malloc_u16 P _ _) as [cells|]; [|cbn; by rewrite Hf].
  unfold fopen_w. destruct (fopen_ok P _ "hawkeye.csv"); [|cbn; by rewrite Hf].
  match goal with
  | |- context [frame_loop P fuel fuel ?f ns pps ?dd ?w0] =>
      pose proof (frame_loop_other_files P fuel f ns pps fuel "control.txt"
                    dd w0 ltac:(done)) as Hother;
      destruct (frame_loop_events P fuel f ns pps fuel dd w0)
        as (_ & _ & _ & Hv);
      destruct (frame_loop P fuel fuel f ns pps dd w0) as [[[|r|] dd'] w']
  end; cbn [fst snd files LOG] in *;
    rewrite lookup_insert_ne in Hother by done; rewrite Hf in Hother.
  - split; [done|]. intros _ Hopen. rewrite control_file_ext in Hopen.
    rewrite control_file_written by done. cbn. by rewrite lookup_insert_eq.
  - split; [done|]. intros [= ->]. by specialize (Hv 0 eq_refl).
  - done.
Qed.

Lemma descriptor_only_after_capture_witness :
  files two_frames !! "control.txt" = Some (control_descriptor 2 3).
Proof.
  apply (descriptor_only_after_capture (Sim.sim ok_cfg) 501 DELTAS_MODE 2
           Sim.blank 0 0 (Sim.start Sim.idle)).
  - vm_compute. reflexivity.
  - reflexivity.
Defined.


(** ** The capture loop: stripes and the cells it writes *)

Section CaptureMatrix.

Context {ext : Type} (P : platform ext).

Lemma stripe_width_facts dd :
  geometry_ok dd →
  1 ≤ stripe_width dd ∧ num_stripes dd * stripe_width dd ≤ y_size dd.
Proof.
  intros [[Hns Hle] ->].
  rewrite Z.quot_div_nonneg by lia.
  split.
  - apply Z.div_le_lower_bound; lia.
  - apply Z.mul_div_le. lia.
Qed.

Lemma select_stripe_facts dd :
  geometry_ok dd → 0 ≤ stripe dd < num_stripes dd →
  cursor_in_stripe (select_stripe dd)
  ∧ stripe_in_column (select_stripe dd)
  ∧ stripe_rows (select_stripe dd) = stripe_width dd
  ∧ cursor_pos (select_stripe dd) = 0
  ∧ stripe_starty (select_stripe dd) = stripe dd * stripe_width dd
  ∧ stripe_endy (select_stripe dd) + 1 = (stripe dd + 1) * stripe_width dd.
Proof.
  intros Hg Hs. destruct (stripe_width_facts dd Hg) as [HW Hfit].
  unfold cursor_in_stripe, stripe_in_column, stripe_rows, cursor_pos,
    select_stripe.
  cbn. repeat split; nia.
Qed.

Lemma differ_within_refl lo hi m : differ_within lo hi m m.
Proof. by intros ofs. Qed.

Lemma differ_within_trans lo hi m1 m2 m3 :
  differ_within lo hi m1 m2 → differ_within lo hi m2 m3 →
  differ_within lo hi m1 m3.
Proof.
  intros H12 H23 ofs Hne.
  destruct (decide (m2 !! ofs = m1 !! ofs)) as [Heq|Hne12].
  - apply H23. by rewrite Heq.
  - by apply H12.
Qed.

(** The pages of a stripe: the cursor stays in the stripe, and cells
    change only between offset 0 and the end of column [x_size]. *)
Lemma page_loop_matrix fuel (n : nat) :
  ∀ pg pps dd (w : world ext),
    cursor_in_stripe dd → stripe_in_column dd → 0 ≤ x_ptr dd →
    differ_within 0 ((x_size dd + 1) * y_size dd) (data_buf dd)
      (data_buf (page_loop P fuel n pg pps dd w).1.2).
Proof.
  induction n as [|n IH]; intros pg pps dd w Hcur Hcol Hx.
  - apply differ_within_refl.
  - cbn [page_loop].
    set (dd0 := set_page _ dd). set (w0 := LOG _ _ w).
    destruct (dump_page_buf_only P fuel dd0 w0) as (b & Hb).
    destruct (mxt_debug_dump_page P fuel dd0 w0) as [[[ret|] dd1] w1];
      cbn [fst snd] in *; subst dd1; [|apply differ_within_refl].
    destruct (ret <? 0); [apply differ_within_refl|].
    set (dd1 := set_page_buf b dd0).
    assert (cursor_in_stripe dd1) as Hcur1 by done.
    destruct (assembler_frame dd1 w1 Hcur1 ltac:(apply Hcol))
      as (Hc2 & Hm2 & Hx2 & Hb2).
    destruct (mxt_debug_insert_data dd1 w1) as [[r2 dd2] w2].
    cbn [fst snd] in *.
    destruct (matrix_only_geometry _ _ Hm2)
      as (HX & HY & Hs & He & _).
    eapply differ_within_trans.
    + intros ofs Hne. apply Hb2 in Hne.
      destruct Hcur as [Hy Hh]. destruct Hcol as [Hs0 He0].
      unfold cursor_ofs in Hne. cbn in Hne. split; [nia|].
      change (x_size dd1) with (x_size dd) in Hne.
      change (y_size dd1) with (y_size dd) in Hne. lia.
    + specialize (IH (pg + 1) pps dd2 w2 Hc2).
      rewrite HX, HY in IH. apply IH.
      * unfold stripe_in_column. rewrite Hs, He, HY. apply Hcol.
      * cbn in Hx2. lia.
Qed.

Lemma session_of_geometry dd dd' :
  session_of dd' = session_of dd →
  x_size dd' = x_size dd ∧ y_size dd' = y_size dd
  ∧ num_stripes dd' = num_stripes dd
  ∧ (geometry_ok dd → geometry_ok dd').
Proof.
  unfold session_of, geometry_ok. intros [= -> -> -> -> _ _ _ _ _ _]. done.
Qed.

Lemma stripe_loop_matrix fuel pps (n : nat) :
  ∀ dd (w : world ext),
    geometry_ok dd → 0 ≤ stripe dd →
    stripe dd + Z.of_nat n ≤ num_stripes dd →
    differ_within 0 ((x_size dd + 1) * y_size dd) (data_buf dd)
      (data_buf (stripe_loop P fuel n pps dd w).1.2).
Proof.
  induction n as [|n IH]; intros dd w Hg Hs Hn; [apply differ_within_refl|].
  rewrite stripe_loop_S.
  destruct (select_stripe_facts dd Hg ltac:(lia))
    as (Hcur & Hcol & _ & Hpos & _).
  pose proof (page_loop_matrix fuel (Z.to_nat pps) 0 pps (select_stripe dd) w
                Hcur Hcol ltac:(done)) as Hpages.
  destruct (page_loop_keeps P fuel (Z.to_nat pps) 0 pps (select_stripe dd) w)
    as [(Hses & _ & Hst & _) _].
  destruct (page_loop P fuel (Z.to_nat pps) 0 pps (select_stripe dd) w)
    as [[[|ret|] dd1] w1]; cbn [fst snd] in *; [|done..].
  assert (session_of dd1 = session_of dd) as Hses1 by done.
  destruct (session_of_geometry _ _ Hses1) as (HX & HY & HN & Hg1).
  eapply differ_within_trans; [exact Hpages|].
  specialize (IH (set_stripe (stripe dd1 + 1) dd1) w1).
  cbn [x_size y_size data_buf stripe num_stripes set_stripe] in IH.
  rewrite HX, HY in IH. apply IH.
  - destruct (Hg1 Hg) as [? ?]. by split.
  - rewrite Hst. cbn. lia.
  - rewrite Hst, HN. cbn. lia.
Qed.

Lemma frame_loop_matrix pfuel frames ns pps (fuel : nat) :
  ∀ dd (w : world ext),
    geometry_ok dd → ns ≤ num_stripes dd →
    differ_within 0 ((x_size dd + 1) * y_size dd) (data_buf dd)
      (data_buf (frame_loop P fuel pfuel frames ns pps dd w).1.2).
Proof.
  induction fuel as [|fuel IH]; intros dd w Hg Hns; cbn [frame_loop];
    (destruct (negb _); [apply differ_within_refl|]);
    [apply differ_within_refl|].
  pose proof (stripe_loop_matrix pfuel pps (Z.to_nat ns) (set_stripe 0 dd) w
                Hg ltac:(done)) as Hstripes.
  destruct (stripe_loop_keeps P pfuel pps (Z.to_nat ns) (set_stripe 0 dd) w)
    as (Hses & _ & _).
  cbn [x_size y_size data_buf stripe num_stripes set_stripe] in Hstripes.
  assert (0 + Z.of_nat (Z.to_nat ns) ≤ num_stripes dd) as Hfit
    by (destruct Hg as [? _]; lia).
  specialize (Hstripes Hfit).
  destruct (stripe_loop P pfuel (Z.to_nat ns) pps (set_stripe 0 dd) w)
    as [[[|ret|] dd1] w1]; cbn [fst snd] in *; [|done..].
  assert (session_of dd1 = session_of dd) as Hses1 by done.
  destruct (session_of_geometry _ _ Hses1) as (HX & HY & HN & Hg1).
  destruct (mxt_hawkeye_output P dd1 w1) as [r w2].
  eapply differ_within_trans; [exact Hstripes|].
  specialize (IH (set_frame (u32 (frame dd1 + 1)) dd1) w2).
  cbn [x_size y_size data_buf num_stripes set_frame] in IH.
  rewrite HX, HY in IH. apply IH.
  - destruct (Hg1 Hg) as [? ?]. by split.
  - by rewrite HN.
Qed.

End CaptureMatrix.

(** X17: for a geometry with at least one row per stripe, selecting
    stripe [s] sets its rows to [s * stripe_width .. (s + 1) *
    stripe_width - 1], inside the column and next to the rows of stripe
    [s + 1], and puts the cursor on the first sample of the stripe; this
    is the structure that the stripe loop hands to the page loop. *)
Theorem stripes_tile_the_column {ext : Type} (P : platform ext)
    (fuel n : nat) (pps : Z) (dd : mxt_debug_data) (w : world ext) :
  geometry_ok dd → 0 ≤ stripe dd < num_stripes dd →
  stripe_loop P fuel (S n) pps dd w
  = match page_loop P fuel (Z.to_nat pps) 0 pps (select_stripe dd) w with
    | (LoopDone, dd, w) =>
        stripe_loop P fuel n pps (set_stripe (stripe dd + 1) dd) w
    | other => other
    end
  ∧ cursor_in_stripe (select_stripe dd)
  ∧ stripe_in_column (select_stripe dd)
  ∧ stripe_rows (select_stripe dd) = stripe_width dd
  ∧ cursor_pos (select_stripe dd) = 0
  ∧ stripe_starty (select_stripe dd) = stripe dd * stripe_width dd
  ∧ stripe_endy (select_stripe dd) + 1 = (stripe dd + 1) * stripe_width dd.
Proof.
  intros Hg Hs. split; [reflexivity|]. by apply select_stripe_facts.
Qed.

Lemma stripes_tile_the_column_witness :
  stripe_starty (select_stripe second_stripe) = 14
  ∧ stripe_endy (select_stripe second_stripe) + 1 = 28.
Proof.
  destruct (stripes_tile_the_column (Sim.sim mxt1386_cfg) 501 0 8
              second_stripe (Sim.start Sim.idle))
    as (_ & _ & _ & _ & _ & Hs & He).
  - unfold geometry_ok. vm_compute. repeat split; discriminate.
  - vm_compute. split; [discriminate|reflexivity].
  - split; [exact Hs|exact He].
Defined.

(** X18: whatever the chip answers, a capture changes only cells of the
    matrix store between offset 0 and the end of column [x_size]: it
    never writes at a negative offset nor at or past
    [(x_size + 1) * y_size], so at most one column of [y_size] cells past
    the [x_size * y_size] allocated ones. *)
Theorem capture_writes_within_one_column {ext : Type} (P : platform ext)
    (fuel : nat) (mode_arg stdin_frames : Z) (uninit : mxt_debug_data)
    (ns0 pps0 : Z) (w : world ext)
    (dd1 dd2 : mxt_debug_data) (ns pps : Z) (w2 : world ext)
    (bytes cells : list Z) :
  get_objects_addr P (set_mode (u8 mode_arg) uninit) = (0, dd1) →
  switch_family P (ns0, pps0, dd1, w) = (ns, pps, dd2, w2) →
  0 < ns ≤ matrix_y_size P →
  malloc_u8 P (ext_state w) (t37_size dd2) = Some bytes →
  malloc_u16 P (ext_state w) (x_size dd2 * matrix_y_size P) = Some cells →
  fopen_ok P (ext_state w) "hawkeye.csv" = true →
  differ_within 0 ((x_size dd2 + 1) * matrix_y_size P) (map_seqZ 0 cells)
    (data_buf (mxt_debug_dump P fuel mode_arg stdin_frames uninit
                 ns0 pps0 w).1.2).
Proof.
  intros Hobj Hsw Hns Hm8 Hm16 Hcsv.
  destruct (switch_family_quiet P _ _ _ _ _ _ _ _ Hsw) as (He & Hf & Ht).
  unfold mxt_debug_dump. rewrite Hobj. cbn [Z.eqb negb]. rewrite Hsw.
  destruct (Z.eqb_spec ns 0) as [|_]; [lia|].
  cbn [LOG ext_state t37_size set_page_size set_num_stripes set_stripe_width
       set_y_size x_size y_size set_page_buf].
  rewrite He, Hm8, Hm16. unfold fopen_w. cbn [ext_state LOG].
  rewrite He, Hcsv.
  match goal with
  | |- context [frame_loop P fuel fuel ?f ns pps ?dd ?w0] =>
      pose proof (frame_loop_matrix P fuel f ns pps fuel dd w0) as Hloop;
      destruct (frame_loop P fuel fuel f ns pps dd w0) as [[fl dd'] w']
  end.
  cbn [fst snd x_size y_size data_buf num_stripes stripe_width set_frame
       set_hawkeye set_data_buf set_page_buf set_y_size set_stripe_width
       set_num_stripes set_page_size] in Hloop.
  assert (differ_within 0 ((x_size dd2 + 1) * matrix_y_size P)
            (map_seqZ 0 cells) (data_buf dd')) as Hd.
  { apply Hloop; [|lia]. unfold geometry_ok. cbn. split; [lia|done]. }
  by destruct fl.
Qed.

Lemma capture_writes_within_one_column_witness :
  differ_within 0 1176 (map_seqZ 0 (replicate 1134 0))
    (data_buf (mxt_debug_dump (Sim.sim mxt1386_cfg) 501 DELTAS_MODE 1
                 Sim.blank 0 0 (Sim.start Sim.idle)).1.2).
Proof.
  epose proof (capture_writes_within_one_column (Sim.sim mxt1386_cfg) 501
                 DELTAS_MODE 1 Sim.blank 0 0 (Sim.start Sim.idle)
                 _ _ 3 8 _ (replicate 130 0) (replicate 1134 0)
                 eq_refl eq_refl (conj eq_refl _) eq_refl eq_refl eq_refl)
    as H.
  exact H.
  Unshelve. discriminate.
Defined.

(** ** The capture loop: pages that fit the matrix *)

Section CaptureInside.

Context {ext : Type} (P : platform ext).

(** A page that ends before column [x_size] of the stripe. *)
Lemma insert_data_inside dd (w : world ext) :
  cursor_in_stripe dd → stripe_in_column dd → 0 ≤ x_ptr dd →
  cursor_pos dd + page_samples dd ≤ x_size dd * stripe_rows dd →
  ∃ dd',
    mxt_debug_insert_data dd w = (0, dd', w)
    ∧ matrix_only dd dd'
    ∧ cursor_in_stripe dd'
    ∧ cursor_pos dd' = cursor_pos dd + page_samples dd
    ∧ differ_within 0 (x_size dd * y_size dd) (data_buf dd) (data_buf dd').
Proof.
  intros Hcur Hcol Hx Hfit. unfold page_samples in *.
  unfold mxt_debug_insert_data. set (n := Z.to_nat _) in *.
  pose proof (stripe_rows_pos dd Hcur) as HW.
  destruct (insert_loop_fits n 0 dd w Hcur ltac:(nia))
    as (dd' & -> & Hm & Hc' & Hp' & _ & Hother).
  exists dd'. split; [done|]. split; [done|]. split; [done|].
  split; [done|]. intros ofs Hne.
  destruct (decide (0 ≤ ofs < x_size dd * y_size dd)) as [|Hout]; [done|].
  exfalso. apply Hne, Hother. intros k Hk ->. apply Hout.
  apply pos_ofs_bounds; [done|done|].
  destruct Hcur as [Hy Hh]. unfold cursor_pos, stripe_rows in *. nia.
Qed.

(** The pages of a stripe, when they all end before column [x_size]. *)
Lemma page_loop_inside fuel (n : nat) :
  ∀ pg pps dd (w : world ext),
    cursor_in_stripe dd → stripe_in_column dd → 0 ≤ x_ptr dd →
    cursor_pos dd + Z.of_nat n * page_samples dd
      ≤ x_size dd * stripe_rows dd →
    differ_within 0 (x_size dd * y_size dd) (data_buf dd)
      (data_buf (page_loop P fuel n pg pps dd w).1.2).
Proof.
  induction n as [|n IH]; intros pg pps dd w Hcur Hcol Hx Hfit.
  - apply differ_within_refl.
  - cbn [page_loop].
    set (dd0 := set_page _ dd). set (w0 := LOG _ _ w).
    destruct (dump_page_buf_only P fuel dd0 w0) as (b & Hb).
    destruct (mxt_debug_dump_page P fuel dd0 w0) as [[[ret|] dd1] w1];
      cbn [fst snd] in *; subst dd1; [|apply differ_within_refl].
    destruct (ret <? 0); [apply differ_within_refl|].
    set (dd1 := set_page_buf b dd0).
    assert (0 ≤ page_samples dd) as Hs0 by (unfold page_samples; lia).
    destruct (insert_data_inside dd1 w1) as (dd2 & Heq & Hm2 & Hc2 & Hp2 & Hd2);
      [done|done|done| |].
    { change (cursor_pos dd + page_samples dd ≤ x_size dd * stripe_rows dd).
      nia. }
    destruct (assembler_frame dd1 w1 ltac:(done) ltac:(apply Hcol))
      as (_ & _ & Hx2 & _).
    rewrite Heq in Hx2 |- *. cbn [fst snd] in *.
    destruct (matrix_only_geometry _ _ Hm2)
      as (HX & HY & Hs & He & _ & Hps & HW & _).
    eapply differ_within_trans; [exact Hd2|].
    specialize (IH (pg + 1) pps dd2 w1 Hc2).
    rewrite HX, HY in IH. apply IH.
    + unfold stripe_in_column. rewrite Hs, He, HY. apply Hcol.
    + cbn in Hx2. lia.
    + rewrite HW, Hp2. unfold page_samples in *. rewrite Hps.
      change (page_size dd1) with (page_size dd).
      change (cursor_pos dd1) with (cursor_pos dd).
      change (stripe_rows dd1) with (stripe_rows dd).
      change (x_size dd1) with (x_size dd). nia.
Qed.

Lemma session_of_samples dd dd' :
  session_of dd' = session_of dd →
  page_samples dd' = page_samples dd ∧ stripe_width dd' = stripe_width dd.
Proof.
  unfold session_of, page_samples. by intros [= _ _ _ -> -> _ _ _ _ _].
Qed.

(** The stripes of a frame, when the pages of a stripe fit into its part
    of the matrix. *)
Lemma stripe_loop_inside fuel pps (n : nat) :
  ∀ dd (w : world ext),
    geometry_ok dd → 0 ≤ stripe dd →
    stripe dd + Z.of_nat n ≤ num_stripes dd →
    Z.of_nat (Z.to_nat pps) * page_samples dd
      ≤ x_size dd * stripe_width dd →
    differ_within 0 (x_size dd * y_size dd) (data_buf dd)
      (data_buf (stripe_loop P fuel n pps dd w).1.2).
Proof.
  induction n as [|n IH]; intros dd w Hg Hs Hn Hfit;
    [apply differ_within_refl|].
  rewrite stripe_loop_S.
  destruct (select_stripe_facts dd Hg ltac:(lia))
    as (Hcur & Hcol & Hrows & Hpos & _).
  pose proof (page_loop_inside fuel (Z.to_nat pps) 0 pps (select_stripe dd) w
                Hcur Hcol ltac:(done)) as Hpages.
  rewrite Hrows, Hpos in Hpages. specialize (Hpages Hfit).
  destruct (page_loop_keeps P fuel (Z.to_nat pps) 0 pps (select_stripe dd) w)
    as [(Hses & _ & Hst & _) _].
  destruct (page_loop P fuel (Z.to_nat pps) 0 pps (select_stripe dd) w)
    as [[[|ret|] dd1] w1]; cbn [fst snd] in *; [|done..].
  assert (session_of dd1 = session_of dd) as Hses1 by done.
  destruct (session_of_geometry _ _ Hses1) as (HX & HY & HN & Hg1).
  destruct (session_of_samples _ _ Hses1) as (HS & HW).
  eapply differ_within_trans; [exact Hpages|].
  specialize (IH (set_stripe (stripe dd1 + 1) dd1) w1).
  cbn [x_size y_size data_buf stripe num_stripes set_stripe] in IH.
  rewrite HX, HY in IH. apply IH.
  - destruct (Hg1 Hg) as [? ?]. by split.
  - rewrite Hst. cbn. lia.
  - rewrite Hst, HN. cbn. lia.
  - change (page_samples (set_stripe (stripe dd1 + 1) dd1))
      with (page_samples dd1).
    change (stripe_width (set_stripe (stripe dd1 + 1) dd1))
      with (stripe_width dd1).
    by rewrite HS, HW.
Qed.

Lemma frame_loop_inside pfuel frames ns pps (fuel : nat) :
  ∀ dd (w : world ext),
    geometry_ok dd → ns ≤ num_stripes dd →
    Z.of_nat (Z.to_nat pps) * page_samples dd
      ≤ x_size dd * stripe_width dd →
    differ_within 0 (x_size dd * y_size dd) (data_buf dd)
      (data_buf (frame_loop P fuel pfuel frames ns pps dd w).1.2).
Proof.
  induction fuel as [|fuel IH]; intros dd w Hg Hns Hfit; cbn [frame_loop];
    (destruct (negb _); [apply differ_within_refl|]);
    [apply differ_within_refl|].
  pose proof (stripe_loop_inside pfuel pps (Z.to_nat ns) (set_stripe 0 dd) w
                Hg ltac:(done)) as Hstripes.
  destruct (stripe_loop_keeps P pfuel pps (Z.to_nat ns) (set_stripe 0 dd) w)
    as (Hses & _ & _).
  cbn [x_size y_size data_buf stripe num_stripes set_stripe] in Hstripes.
  assert (0 + Z.of_nat (Z.to_nat ns) ≤ num_stripes dd) as Hn
    by (destruct Hg as [? _]; lia).
  specialize (Hstripes Hn Hfit).
  destruct (stripe_loop P pfuel (Z.to_nat ns) pps (set_stripe 0 dd) w)
    as [[[|ret|] dd1] w1]; cbn [fst snd] in *; [|done..].
  assert (session_of dd1 = session_of dd) as Hses1 by done.
  destruct (session_of_geometry _ _ Hses1) as (HX & HY & HN & Hg1).
  destruct (session_of_samples _ _ Hses1) as (HS & HW).
  destruct (mxt_hawkeye_output P dd1 w1) as [r w2].
  eapply differ_within_trans; [exact Hstripes|].
  specialize (IH (set_frame (u32 (frame dd1 + 1)) dd1) w2).
  cbn [x_size y_size data_buf num_stripes set_frame] in IH.
  rewrite HX, HY in IH. apply IH.
  - destruct (Hg1 Hg) as [? ?]. by split.
  - by rewrite HN.
  - change (page_samples (set_frame (u32 (frame dd1 + 1)) dd1))
      with (page_samples dd1).
    change (stripe_width (set_frame (u32 (frame dd1 + 1)) dd1))
      with (stripe_width dd1).
    by rewrite HS, HW.
Qed.

End CaptureInside.

Section CaptureBuffer.

Context {ext : Type} (P : platform ext).

Lemma read_into_length buf data count :
  length (read_into buf data count) = length buf.
Proof. unfold read_into. apply length_inserts. Qed.

(** The page buffer keeps its length through a fetch. *)
Lemma dump_page_buf_length fuel dd (w : world ext) :
  length (page_buf (mxt_debug_dump_page P fuel dd w).1.2)
  = length (page_buf dd).
Proof.
  unfold mxt_debug_dump_page, reg_read.
  repeat case_match; cbn [fst snd page_buf set_page_buf];
    done || apply read_into_length.
Qed.

Lemma page_loop_buf_length fuel (n : nat) :
  ∀ pg pps dd (w : world ext),
    length (page_buf (page_loop P fuel n pg pps dd w).1.2)
    = length (page_buf dd).
Proof.
  induction n as [|n IH]; intros pg pps dd w; [done|].
  cbn [page_loop].
  set (dd0 := set_page _ dd). set (w0 := LOG _ _ w).
  pose proof (dump_page_buf_length fuel dd0 w0) as Hlen.
  destruct (mxt_debug_dump_page P fuel dd0 w0) as [[[ret|] dd1] w1];
    cbn [fst snd] in *; [|done].
  destruct (ret <? 0); [done|].
  pose proof (insert_data_matrix_only dd1 w1) as Hm.
  destruct (mxt_debug_insert_data dd1 w1) as [[r2 dd2] w2].
  cbn [fst snd] in *.
  destruct (matrix_only_geometry _ _ Hm) as (_ & _ & _ & _ & Hbuf & _).
  by rewrite IH, Hbuf, Hlen.
Qed.

Lemma stripe_loop_buf_length fuel pps (n : nat) :
  ∀ dd (w : world ext),
    length (page_buf (stripe_loop P fuel n pps dd w).1.2)
    = length (page_buf dd).
Proof.
  induction n as [|n IH]; intros dd w; [done|].
  rewrite stripe_loop_S.
  pose proof (page_loop_buf_length fuel (Z.to_nat pps) 0 pps
                (select_stripe dd) w) as Hlen.
  destruct (page_loop P fuel (Z.to_nat pps) 0 pps (select_stripe dd) w)
    as [[[|ret|] dd1] w1]; cbn [fst snd] in *; [|done..].
  by rewrite IH.
Qed.

Lemma frame_loop_buf_length pfuel frames ns pps (fuel : nat) :
  ∀ dd (w : world ext),
    length (page_buf (frame_loop P fuel pfuel frames ns pps dd w).1.2)
    = length (page_buf dd).
Proof.
  induction fuel as [|fuel IH]; intros dd w; cbn [frame_loop];
    (destruct (negb _); [done|]); [done|].
  pose proof (stripe_loop_buf_length pfuel pps (Z.to_nat ns)
                (set_stripe 0 dd) w) as Hlen.
  destruct (stripe_loop P pfuel (Z.to_nat ns) pps (set_stripe 0 dd) w)
    as [[[|ret|] dd1] w1]; cbn [fst snd] in *; [|done..].
  destruct (mxt_hawkeye_output P dd1 w1) as [r w2].
  by rewrite IH.
Qed.

(** The table gives every listed family its pages per stripe. *)
Lemma switch_family_pages ns0 pps0 dd (w : world ext) ns pps dd' w' :
  listed_family P →
  switch_family P (ns0, pps0, dd, w) = (ns, pps, dd', w') →
  pps = 8 ∨ pps = 9 ∨ pps = 12 ∨ pps = 30.
Proof.
  unfold listed_family, switch_family, case_0x80, case_0xA0, case_0xA1,
    case_0xA2, case_default.
  intros Hl.
  destruct (Z.eqb_spec (family_id P) 128); [intros [= _ <- _ _]; auto|].
  destruct (Z.eqb_spec (family_id P) 160); [intros [= _ <- _ _]; auto|].
  destruct (Z.eqb_spec (family_id P) 161).
  { destruct (variant_id P =? 3); intros [= _ <- _ _]; auto. }
  destruct (Z.eqb_spec (family_id P) 162); [|lia].
  destruct (Z.eqb_spec (variant_id P) 0); [intros [= _ <- _ _]; auto|lia].
Qed.

(** A run whose setup succeeds, on a geometry whose pages fit: what it
    leaves in the structure. *)
Lemma debug_dump_inside fuel mode_arg stdin_frames uninit ns0 pps0
    (w : world ext) dd1 dd2 ns pps w2 bytes cells :
  get_objects_addr P (set_mode (u8 mode_arg) uninit) = (0, dd1) →
  switch_family P (ns0, pps0, dd1, w) = (ns, pps, dd2, w2) →
  0 < ns ≤ matrix_y_size P →
  0 ≤ pps →
  pps * ((u8 (t37_size dd2 - 2) + 1) / 2)
    ≤ x_size dd2 * (matrix_y_size P `quot` ns) →
  malloc_u8 P (ext_state w) (t37_size dd2) = Some bytes →
  malloc_u16 P (ext_state w) (x_size dd2 * matrix_y_size P) = Some cells →
  fopen_ok P (ext_state w) "hawkeye.csv" = true →
  let r := mxt_debug_dump P fuel mode_arg stdin_frames uninit ns0 pps0 w in
  differ_within 0 (x_size dd2 * matrix_y_size P) (map_seqZ 0 cells)
    (data_buf r.1.2)
  ∧ length (page_buf r.1.2) = length bytes
  ∧ page_size r.1.2 = u8 (t37_size dd2 - 2).
Proof.
  intros Hobj Hsw Hns Hpps Hfit Hm8 Hm16 Hcsv. cbn zeta.
  destruct (switch_family_quiet P _ _ _ _ _ _ _ _ Hsw) as (He & Hf & Ht).
  unfold mxt_debug_dump. rewrite Hobj. cbn [Z.eqb negb]. rewrite Hsw.
  destruct (Z.eqb_spec ns 0) as [|_]; [lia|].
  cbn [LOG ext_state t37_size set_page_size set_num_stripes set_stripe_width
       set_y_size x_size y_size set_page_buf].
  rewrite He, Hm8, Hm16. unfold fopen_w. cbn [ext_state LOG].
  rewrite He, Hcsv.
  match goal with
  | |- context [frame_loop P fuel fuel ?f ns pps ?dd ?w0] =>
      pose proof (frame_loop_inside P fuel f ns pps fuel dd w0) as Hloop;
      pose proof (frame_loop_buf_length fuel f ns pps fuel dd w0) as Hlen;
      pose proof (frame_loop_keeps P fuel f ns pps fuel dd w0) as Hses;
      destruct (frame_loop P fuel fuel f ns pps dd w0) as [[fl dd'] w']
  end.
  cbn [fst snd] in Hloop, Hlen, Hses.
  apply session_of_samples in Hses as Hsam.
  unfold session_of in Hses.
  cbn [x_size y_size data_buf num_stripes stripe_width page_size page_buf
       set_frame set_hawkeye set_data_buf set_page_buf set_y_size
       set_stripe_width set_num_stripes set_page_size] in Hloop, Hlen, Hses.
  assert (differ_within 0 (x_size dd2 * matrix_y_size P)
            (map_seqZ 0 cells) (data_buf dd')
          ∧ length (page_buf dd') = length bytes
          ∧ page_size dd' = u8 (t37_size dd2 - 2)) as Hd.
  { split; [|split; [done|by injection Hses]].
    apply Hloop; [unfold geometry_ok; cbn; split; [lia|done]|lia|].
    unfold page_samples. cbn.
    pose proof (Z.mod_pos_bound (t37_size dd2 - 2) 256 ltac:(lia)) as Hu.
    unfold u8 in *.
    assert (0 ≤ ((t37_size dd2 - 2) `mod` 256 + 1) / 2)
      by (apply Z.div_pos; lia).
    rewrite !Z2Nat.id by lia. done. }
  by destruct fl.
Qed.

End CaptureBuffer.

(** X13: for a chip family of the table whose pages fit the matrix (the
    [pages_per_stripe] pages of a stripe hold no more samples than the
    [x_size * stripe_width] cells of the stripe) and whose diagnostic
    object holds at least the two echo bytes, a run whose setup succeeds
    (objects found, both blocks allocated with the sizes asked for, log
    opened), with a frame count below [UINT_MAX] and fuel for the polls
    and the frames, returns, and returns 0 or -1: it does not divide by
    zero, it changes only cells inside the [x_size * y_size] allocated
    ones, and the page size stays within the bytes allocated for the page
    buffer. *)
Theorem capture_returns_0_or_minus_1 {ext : Type} (P : platform ext)
    (fuel : nat) (mode_arg stdin_frames : Z) (uninit : mxt_debug_data)
    (ns0 pps0 : Z) (w : world ext)
    (dd1 dd2 : mxt_debug_data) (ns pps : Z) (w2 : world ext)
    (bytes cells : list Z) :
  listed_family P →
  get_objects_addr P (set_mode (u8 mode_arg) uninit) = (0, dd1) →
  switch_family P (ns0, pps0, dd1, w) = (ns, pps, dd2, w2) →
  ns ≤ matrix_y_size P →
  2 ≤ t37_size dd2 →
  pps * ((u8 (t37_size dd2 - 2) + 1) / 2)
    ≤ x_size dd2 * (matrix_y_size P `quot` ns) →
  malloc_u8 P (ext_state w) (t37_size dd2) = Some bytes →
  Z.of_nat (length bytes) = t37_size dd2 →
  malloc_u16 P (ext_state w) (x_size dd2 * matrix_y_size P) = Some cells →
  fopen_ok P (ext_state w) "hawkeye.csv" = true →
  0 ≤ stdin_frames < 4294967295 →
  (501 ≤ fuel)%nat →
  (Z.to_nat stdin_frames ≤ fuel)%nat →
  let r := mxt_debug_dump P fuel mode_arg stdin_frames uninit ns0 pps0 w in
  (r.1.1 = Returned 0 ∨ r.1.1 = Returned (-1))
  ∧ differ_within 0 (x_size dd2 * matrix_y_size P) (map_seqZ 0 cells)
      (data_buf r.1.2)
  ∧ page_size r.1.2 ≤ Z.of_nat (length (page_buf r.1.2)).
Proof.
  intros Hl Hobj Hsw Hns Ht37 Hfit Hm8 Hlen Hm16 Hcsv Hin Hfuel Hframes.
  cbn zeta.
  pose proof (switch_family_listed P _ _ _ _ _ _ _ _ Hl Hsw) as Hns1.
  pose proof (switch_family_pages P _ _ _ _ _ _ _ _ Hl Hsw) as Hpps.
  destruct (debug_dump_inside P fuel mode_arg stdin_frames uninit ns0 pps0 w
              dd1 dd2 ns pps w2 bytes cells Hobj Hsw ltac:(lia) ltac:(lia) Hfit
              Hm8 Hm16 Hcsv) as (Hd & Hb & Hp).
  assert (get_num_frames stdin_frames = stdin_frames) as Hnum
    by (unfold get_num_frames, u32; apply Z.mod_small; lia).
  pose proof (debug_dump_total P fuel mode_arg stdin_frames uninit ns0 pps0 w
                Hfuel ltac:(lia) ltac:(lia)) as Htot.
  destruct (debug_dump_events P fuel mode_arg stdin_frames uninit ns0 pps0 w)
    as (_ & _ & _ & Hv).
  split; [|split; [done|]].
  - assert ((mxt_debug_dump P fuel mode_arg stdin_frames uninit
               ns0 pps0 w).1.1 ≠ DivByZero) as Hdiv.
    { clear Hm8 Hm16 Hcsv Hd Hb Hp Htot Hv.
      unfold mxt_debug_dump. rewrite Hobj. cbn [Z.eqb negb]. rewrite Hsw.
      destruct (Z.eqb_spec ns 0); [lia|].
      destruct (malloc_u8 P _ _); [|done].
      destruct (malloc_u16 P _ _); [|done].
      destruct (fopen_w _ _); [|done].
      by destruct (frame_loop _ _ _ _ _ _ _ _) as [[[|r|] dd'] w']. }
    destruct ((mxt_debug_dump P fuel mode_arg stdin_frames uninit
                 ns0 pps0 w).1.1) as [v| |]; [|done..].
    destruct (Hv v eq_refl) as [-> | ->]; [by left|by right].
  - rewrite Hp, Hb, Hlen. unfold u8.
    pose proof (Z.mod_le (t37_size dd2 - 2) 256 ltac:(lia) ltac:(lia)). lia.
Qed.

Lemma capture_returns_0_or_minus_1_witness :
  (mxt_debug_dump (Sim.sim fitting_cfg) 501 DELTAS_MODE 2 Sim.blank 0 0
     (Sim.start Sim.idle)).1.1 = Returned 0.
Proof.
  epose proof (capture_returns_0_or_minus_1 (Sim.sim fitting_cfg) 501
                 DELTAS_MODE 2 Sim.blank 0 0 (Sim.start Sim.idle)
                 _ _ 1 9 _ (replicate 6 0) (replicate 18 0)
                 (or_intror (or_intror (or_introl eq_refl)))
                 eq_refl eq_refl _ _ _ eq_refl eq_refl eq_refl eq_refl
                 _ _ _) as (Hret & _).
  destruct Hret as [Hret|Hret]; [exact Hret|].
  vm_compute in Hret. discriminate Hret.
  Unshelve.
  all: vm_compute; try lia; try discriminate;
    try (split; [discriminate|reflexivity]).
Defined.

(** ** The commands of a whole session: how many are written *)

Section CaptureCount.

Context {ext : Type} (P : platform ext).

Lemma emits_inj t t' c1 c2 : emits t t' c1 → emits t t' c2 → c1 = c2.
Proof.
  intros (e1 & -> & <-) (e2 & He & <-). by apply app_inv_head in He as ->.
Qed.

(** A frame loop that runs to its end has written the commands of every
    frame from [frame] to [frames]. *)
Lemma frame_loop_count pfuel frames ns pps (fuel : nat) :
  ∀ dd (w : world ext),
    frames < 4294967295 → 0 ≤ frame dd ≤ frames + 1 →
    (frame_loop P fuel pfuel frames ns pps dd w).1.1 = LoopDone →
    ∃ cs,
      emits (trace w)
            (trace (frame_loop P fuel pfuel frames ns pps dd w).2) cs
      ∧ length cs
        = (Z.to_nat (frames + 1 - frame dd)
           * (Z.to_nat ns * Z.to_nat pps))%nat.
Proof.
  induction fuel as [|fuel IH]; intros dd w Hmax Hfr; cbn [frame_loop];
    destruct (Z.leb_spec (frame dd) frames) as [Hle|Hgt]; cbn [negb];
    try done.
  - intros _. exists []. split; [apply emits_refl|].
    cbn. replace (Z.to_nat (frames + 1 - frame dd)) with 0%nat by lia. done.
  - destruct (stripe_loop_commands P pfuel pps (Z.to_nat ns)
                (set_stripe 0 dd) w) as (cs1 & He1 & _ & Hd1 & _).
    destruct (stripe_loop_keeps P pfuel pps (Z.to_nat ns) (set_stripe 0 dd) w)
      as (_ & Hfr1 & _).
    destruct (stripe_loop P pfuel (Z.to_nat ns) pps (set_stripe 0 dd) w)
      as [[[|ret|] dd1] w1]; cbn [fst snd frame set_stripe] in *;
      [|done..].
    pose proof (hawkeye_output_trace P dd1 w1) as Hout.
    destruct (mxt_hawkeye_output P dd1 w1) as [r w2]. cbn [snd] in Hout.
    intros Hdone.
    destruct (IH (set_frame (u32 (frame dd1 + 1)) dd1) w2 Hmax)
      as (cs2 & He2 & Hlen2); [| exact Hdone |].
    { cbn [frame set_frame]. rewrite Hfr1. unfold u32.
      rewrite Z.mod_small by lia. lia. }
    cbn [frame set_frame] in Hlen2. rewrite Hout in He2.
    exists (cs1 ++ cs2). split; [exact (emits_trans _ _ _ _ _ He1 He2)|].
    rewrite length_app, Hlen2, (Hd1 eq_refl), length_fmap, length_seqZ.
    rewrite Hfr1. unfold u32. rewrite Z.mod_small by lia.
    rewrite Nat2Z.id.
    replace (Z.to_nat (frames + 1 - frame dd))
      with (S (Z.to_nat (frames + 1 - (frame dd + 1)))) by lia.
    lia.
  - intros _. exists []. split; [apply emits_refl|].
    cbn. replace (Z.to_nat (frames + 1 - frame dd)) with 0%nat by lia. done.
Qed.

(** With [UINT_MAX] frames requested the test [frame <= frames] never
    fails, so the loop never runs to its end. *)
Lemma frame_loop_never_done pfuel frames ns pps (fuel : nat) :
  ∀ dd (w : world ext),
    4294967295 ≤ frames → 0 ≤ frame dd < 4294967296 →
    (frame_loop P fuel pfuel frames ns pps dd w).1.1 ≠ LoopDone.
Proof.
  induction fuel as [|fuel IH]; intros dd w Hmax Hfr; cbn [frame_loop];
    destruct (Z.leb_spec (frame dd) frames) as [Hle|Hgt]; cbn [negb];
    try done; try lia.
  destruct (stripe_loop_keeps P pfuel pps (Z.to_nat ns) (set_stripe 0 dd) w)
    as (_ & Hfr1 & _).
  destruct (stripe_loop P pfuel (Z.to_nat ns) pps (set_stripe 0 dd) w)
    as [[[|ret|] dd1] w1]; cbn [fst snd frame set_stripe] in *; [|done..].
  destruct (mxt_hawkeye_output P dd1 w1) as [r w2].
  apply IH; [done|]. cbn [frame set_frame]. unfold u32.
  apply Z.mod_pos_bound. lia.
Qed.

(** A run that returns 0 has written the commands of every requested
    frame. *)
Lemma debug_dump_count fuel mode_arg stdin_frames uninit ns0 pps0
    (w : world ext) dd1 ns pps dd2 w2 :
  get_objects_addr P (set_mode (u8 mode_arg) uninit) = (0, dd1) →
  switch_family P (ns0, pps0, dd1, w) = (ns, pps, dd2, w2) →
  (mxt_debug_dump P fuel mode_arg stdin_frames uninit ns0 pps0 w).1.1
  = Returned 0 →
  ∃ cs,
    emits (trace w)
      (trace (mxt_debug_dump P fuel mode_arg stdin_frames uninit
                ns0 pps0 w).2) cs
    ∧ length cs
      = (Z.to_nat (get_num_frames stdin_frames)
         * (Z.to_nat ns * Z.to_nat pps))%nat.
Proof.
  intros Hobj Hsw.
  destruct (switch_family_emits P _ _ _ _ _ _ _ _ Hsw) as (He2 & _).
  assert (0 ≤ get_num_frames stdin_frames < 4294967296) as Hframes
    by (apply Z.mod_pos_bound; lia).
  unfold mxt_debug_dump. rewrite Hobj. cbn [Z.eqb negb]. rewrite Hsw.
  destruct (ns =? 0); [done|].
  set (w3 := LOG LOG_INFO _ (LOG LOG_INFO _ (LOG LOG_INFO _
               (LOG LOG_INFO _ (LOG LOG_INFO _ w2))))).
  assert (emits (trace w) (trace w3) []) as He3
    by (subst w3; cbn; auto 8 with emits).
  destruct (malloc_u8 P (ext_state w3) _) as [bytes|]; [|done].
  destruct (malloc_u16 P (ext_state w3) _) as [cells|]; [|done].
  unfold fopen_w. destruct (fopen_ok P (ext_state w3) "hawkeye.csv"); [|done].
  match goal with
  | |- context [frame_loop P fuel fuel ?f ns pps ?dd ?w0] =>
      pose proof (frame_loop_count fuel f ns pps fuel dd w0) as Hcount;
      pose proof (frame_loop_never_done fuel f ns pps fuel dd w0) as Hnever;
      destruct (frame_loop_events P fuel f ns pps fuel dd w0)
        as (_ & _ & _ & Hleave);
      destruct (frame_loop P fuel fuel f ns pps dd w0) as [[[|ret|] dd'] w']
  end; cbn [fst snd trace frame set_frame] in *; [| |done].
  - intros _.
    destruct (Z.lt_ge_cases (get_num_frames stdin_frames) 4294967295)
      as [Hsmall|Hbig]; [|by destruct Hnever; [lia|lia|]].
    destruct (Hcount Hsmall ltac:(lia) eq_refl) as (cs & He & Hlen).
    exists cs. split.
    + apply control_file_emits. exact (emits_trans _ _ _ _ _ He3 He).
    + rewrite Hlen. f_equal. lia.
  - intros [= ->]. by specialize (Hleave 0 eq_refl).
Qed.

End CaptureCount.

(** C5, as the specification words it, fails: in a session of two frames
    the tenth command, for the first page of the second frame, is the mode
    again and not a page advance. *)
Lemma C5_not_once_per_session :
  ¬ once_per_session (u8 DELTAS_MODE)
      (commands (new_events (Sim.start Sim.idle) two_frames)).
Proof.
  intros Hclaim.
  assert (commands (new_events (Sim.start Sim.idle) two_frames) !! 9%nat
          = Some [DELTAS_MODE]) as Htenth by (vm_compute; reflexivity).
  apply Hclaim in Htenth. vm_compute in Htenth. discriminate.
Qed.

(** C5 (amended): across a whole capture session the mode value is
    written to the command register for the first page of every frame
    (the page whose index within the frame is 0) and for no other page;
    for every other page of every frame and stripe a page-advance command
    is written.  A frame has [num_stripes * pages_per_stripe] pages: the
    commands of a run, however it ends, follow this pattern one command
    per page, and a run that returns 0 has written one command for every
    page of every one of the requested frames. *)
Theorem C5_mode_written_once_per_frame {ext : Type} (P : platform ext)
    (fuel : nat) (mode_arg stdin_frames : Z) (uninit : mxt_debug_data)
    (ns0 pps0 : Z) (w : world ext)
    (dd1 dd2 : mxt_debug_data) (ns pps : Z) (w2 : world ext) :
  get_objects_addr P (set_mode (u8 mode_arg) uninit) = (0, dd1) →
  switch_family P (ns0, pps0, dd1, w) = (ns, pps, dd2, w2) →
  let r := mxt_debug_dump P fuel mode_arg stdin_frames uninit ns0 pps0 w in
  once_per_frame (u8 mode_arg) (Z.to_nat ns * Z.to_nat pps)
    (commands (new_events w r.2))
  ∧ (r.1.1 = Returned 0 →
     length (commands (new_events w r.2))
     = (Z.to_nat (get_num_frames stdin_frames)
        * (Z.to_nat ns * Z.to_nat pps))%nat).
Proof.
  intros Hobj Hsw. cbn zeta.
  destruct (debug_dump_commands P fuel mode_arg stdin_frames uninit ns0 pps0
              w dd1 ns pps dd2 w2 Hobj Hsw) as (cs & Hem & Hpol).
  assert (commands
            (new_events w
               (mxt_debug_dump P fuel mode_arg stdin_frames uninit
                  ns0 pps0 w).2) = cs) as ->.
  { destruct Hem as (evs & Htr & <-). by rewrite (new_events_app _ _ _ Htr). }
  split; [done|]. intros Hret.
  destruct (debug_dump_count P fuel mode_arg stdin_frames uninit ns0 pps0
              w dd1 ns pps dd2 w2 Hobj Hsw Hret) as (cs' & Hem' & Hlen).
  by rewrite (emits_inj _ _ _ _ Hem Hem').
Qed.

Lemma C5_mode_written_once_per_frame_witness :
  once_per_frame (u8 DELTAS_MODE) (Z.to_nat 1 * Z.to_nat 9)
    (commands (new_events (Sim.start Sim.idle) two_frames))
  ∧ length (commands (new_events (Sim.start Sim.idle) two_frames)) = 18%nat.
Proof.
  edestruct (C5_mode_written_once_per_frame (Sim.sim ok_cfg) 501
               DELTAS_MODE 2 Sim.blank 0 0 (Sim.start Sim.idle))
    as [Hpol Hlen].
  - vm_compute. reflexivity.
  - vm_compute. reflexivity.
  - split; [exact Hpol|]. apply Hlen. vm_compute. reflexivity.
Defined.

(** ** The menu command *)

Section MenuCommand.

Context {ext : Type} (P : platform ext).

Lemma mxt_dd_cmd_dump fuel selection mode stdin_frames uninit ns0 pps0
    (w : world ext) :
  (mode = DELTAS_MODE ∧ (selection = "d"%char ∨ selection = "D"%char))
  ∨ (mode = REFS_MODE ∧ (selection = "r"%char ∨ selection = "R"%char)) →
  let r := mxt_debug_dump P fuel mode stdin_frames uninit ns0 pps0 w in
  let c := mxt_dd_cmd P fuel selection stdin_frames uninit ns0 pps0 w in
  c.2 = r.2 ∧ c.1.2 = []
  ∧ c.1.1 = match r.1.1 with Returned _ => Returned 0 | other => other end.
Proof.
  intros [[-> [->| ->]]|[-> [->| ->]]]; cbn zeta; unfold mxt_dd_cmd;
    cbn [Ascii.eqb Bool.eqb orb andb];
    by destruct (mxt_debug_dump P _ _ _ _ _ _ _) as [[[] ?] ?].
Qed.

Lemma mxt_dd_cmd_other fuel selection stdin_frames uninit ns0 pps0
    (w : world ext) :
  selection ∉ ["d"; "D"; "r"; "R"]%char →
  let c := mxt_dd_cmd P fuel selection stdin_frames uninit ns0 pps0 w in
  c.2 = w
  ∧ c.1.1 = Returned (if bool_decide (selection ∈ ["q"; "Q"]%char)
                      then 1 else 0).
Proof.
  intros Hsel. cbn zeta. unfold mxt_dd_cmd.
  rewrite !not_elem_of_cons in Hsel. destruct Hsel as (? & ? & ? & ? & _).
  destruct (Ascii.eqb_spec selection "d") as [|_]; [done|].
  destruct (Ascii.eqb_spec selection "D") as [|_]; [done|].
  destruct (Ascii.eqb_spec selection "r") as [|_]; [done|].
  destruct (Ascii.eqb_spec selection "R") as [|_]; [done|].
  cbn [orb].
  destruct (Ascii.eqb_spec selection "c") as [->|Hc]; [by vm_compute|].
  destruct (Ascii.eqb_spec selection "C") as [->|HC]; [by vm_compute|].
  cbn [orb].
  destruct (Ascii.eqb_spec selection "q") as [->|Hq]; [by vm_compute|].
  destruct (Ascii.eqb_spec selection "Q") as [->|HQ]; [by vm_compute|].
  cbn [orb fst snd]. split; [done|].
  rewrite bool_decide_eq_false_2; [done|].
  rewrite !not_elem_of_cons. repeat split; [done..|]. apply not_elem_of_nil.
Qed.

Lemma dump_selection_not_quit selection mode :
  (mode = DELTAS_MODE ∧ (selection = "d"%char ∨ selection = "D"%char))
  ∨ (mode = REFS_MODE ∧ (selection = "r"%char ∨ selection = "R"%char)) →
  bool_decide (selection ∈ ["q"; "Q"]%char) = false.
Proof. by intros [[_ [->| ->]]|[_ [->| ->]]]; vm_compute. Qed.

Lemma selection_cases (selection : ascii) :
  (∃ mode,
      (mode = DELTAS_MODE ∧ (selection = "d"%char ∨ selection = "D"%char))
      ∨ (mode = REFS_MODE ∧ (selection = "r"%char ∨ selection = "R"%char)))
  ∨ selection ∉ ["d"; "D"; "r"; "R"]%char.
Proof.
  destruct (decide (selection ∈ ["d"; "D"; "r"; "R"]%char)) as [Hin|Hout];
    [left|by right].
  rewrite !elem_of_cons in Hin.
  destruct Hin as [->|[->|[->|[->|Hnil]]]];
    [exists DELTAS_MODE|exists DELTAS_MODE|exists REFS_MODE
    |exists REFS_MODE|by apply elem_of_nil in Hnil]; auto.
Qed.

End MenuCommand.

(** X19: when the selection is [d] or [D] (resp. [r] or [R]) and the
    objects are found, the menu command runs a capture in deltas mode 0x10
    (resp. references mode 0x11) and prints nothing itself: its world is
    the one the capture leaves, its register writes are the mode byte for
    the first page of every frame and page-up for every other page, one
    write per page, and when the capture returns 0 there is one write for
    every page of every requested frame. *)
Theorem menu_capture_uses_selected_mode {ext : Type} (P : platform ext)
    (fuel : nat) (selection : ascii) (mode stdin_frames : Z)
    (uninit : mxt_debug_data) (ns0 pps0 : Z) (w : world ext)
    (dd1 dd2 : mxt_debug_data) (ns pps : Z) (w2 : world ext) :
  (mode = DELTAS_MODE ∧ (selection = "d"%char ∨ selection = "D"%char))
  ∨ (mode = REFS_MODE ∧ (selection = "r"%char ∨ selection = "R"%char)) →
  get_objects_addr P (set_mode (u8 mode) uninit) = (0, dd1) →
  switch_family P (ns0, pps0, dd1, w) = (ns, pps, dd2, w2) →
  let c := mxt_dd_cmd P fuel selection stdin_frames uninit ns0 pps0 w in
  let r := mxt_debug_dump P fuel mode stdin_frames uninit ns0 pps0 w in
  c.1.2 = [] ∧ c.2 = r.2
  ∧ once_per_frame mode (Z.to_nat ns * Z.to_nat pps)
      (commands (new_events w c.2))
  ∧ (r.1.1 = Returned 0 →
     length (commands (new_events w c.2))
     = (Z.to_nat (get_num_frames stdin_frames)
        * (Z.to_nat ns * Z.to_nat pps))%nat).
Proof.
  intros Hsel Hobj Hsw. cbn zeta.
  destruct (mxt_dd_cmd_dump P fuel selection mode stdin_frames uninit
              ns0 pps0 w Hsel) as (-> & -> & _).
  split; [done|]. split; [done|].
  destruct (debug_dump_commands P fuel mode stdin_frames uninit ns0 pps0 w
              _ _ _ _ _ Hobj Hsw) as (cs & Hem & Hcs).
  assert (commands
            (new_events w
               (mxt_debug_dump P fuel mode stdin_frames uninit
                  ns0 pps0 w).2) = cs) as ->.
  { destruct Hem as (evs & Htr & <-). by rewrite (new_events_app _ _ _ Htr). }
  split.
  - replace mode with (u8 mode); [done|].
    by destruct Hsel as [[-> _]|[-> _]].
  - intros Hret.
    destruct (debug_dump_count P fuel mode stdin_frames uninit ns0 pps0
                w dd1 ns pps dd2 w2 Hobj Hsw Hret) as (cs' & Hem' & Hlen).
    by rewrite (emits_inj _ _ _ _ Hem Hem').
Qed.

Lemma menu_capture_uses_selected_mode_witness :
  once_per_frame REFS_MODE 9
    (commands
       (new_events (Sim.start Sim.idle)
          (mxt_dd_cmd (Sim.sim fitting_cfg) 501 "r" 2 Sim.blank 0 0
             (Sim.start Sim.idle)).2))
  ∧ length
      (commands
         (new_events (Sim.start Sim.idle)
            (mxt_dd_cmd (Sim.sim fitting_cfg) 501 "r" 2 Sim.blank 0 0
               (Sim.start Sim.idle)).2)) = 18%nat.
Proof.
  edestruct (menu_capture_uses_selected_mode (Sim.sim fitting_cfg) 501
               "r" REFS_MODE 2 Sim.blank 0 0 (Sim.start Sim.idle))
    as (_ & _ & Hpol & Hlen).
  - right. split; [reflexivity|by left].
  - vm_compute. reflexivity.
  - vm_compute. reflexivity.
  - split; [exact Hpol|]. apply Hlen. vm_compute. reflexivity.
Defined.

(** X20: a selection other than [d], [D], [r] and [R] never touches the
    chip nor the files: the world is the one the command was given, and
    the command returns 1 for [q] and [Q] and 0 for everything else. *)
Theorem menu_other_selections_leave_device {ext : Type} (P : platform ext)
    (fuel : nat) (selection : ascii) (stdin_frames : Z)
    (uninit : mxt_debug_data) (ns0 pps0 : Z) (w : world ext) :
  selection ∉ ["d"; "D"; "r"; "R"]%char →
  (mxt_dd_cmd P fuel selection stdin_frames uninit ns0 pps0 w).2 = w
  ∧ (mxt_dd_cmd P fuel selection stdin_frames uninit ns0 pps0 w).1.1
    = Returned (if bool_decide (selection ∈ ["q"; "Q"]%char)
                then 1 else 0).
Proof. apply mxt_dd_cmd_other. Qed.

Lemma menu_other_selections_leave_device_witness :
  (mxt_dd_cmd (Sim.sim ok_cfg) 501 "Q" 2 Sim.blank 0 0
     (Sim.start Sim.idle)).2 = Sim.start Sim.idle
  ∧ (mxt_dd_cmd (Sim.sim ok_cfg) 501 "Q" 2 Sim.blank 0 0
       (Sim.start Sim.idle)).1.1 = Returned 1.
Proof.
  apply (menu_other_selections_leave_device (Sim.sim ok_cfg) 501 "Q" 2
           Sim.blank 0 0 (Sim.start Sim.idle)).
  vm_compute. intros H. by repeat (inversion H as [|? ? ? H']; clear H;
                                    rename H' into H).
Defined.

(** X21: for a capture selection ([d], [D], [r], [R]) the value of the
    capture is dropped: when [mxt_debug_dump] returns, with 0 or with -1,
    the menu command returns 0, and it returns no other value; the command
    returns 1 only for [q] and [Q], so a failed capture does not end the
    menu. *)
Theorem menu_exits_only_on_quit {ext : Type} (P : platform ext)
    (fuel : nat) (selection : ascii) (mode stdin_frames : Z)
    (uninit : mxt_debug_data) (ns0 pps0 : Z) (w : world ext) :
  (mode = DELTAS_MODE ∧ (selection = "d"%char ∨ selection = "D"%char))
  ∨ (mode = REFS_MODE ∧ (selection = "r"%char ∨ selection = "R"%char)) →
  let c := mxt_dd_cmd P fuel selection stdin_frames uninit ns0 pps0 w in
  let r := mxt_debug_dump P fuel mode stdin_frames uninit ns0 pps0 w in
  (∀ v, r.1.1 = Returned v → c.1.1 = Returned 0)
  ∧ (∀ v, c.1.1 = Returned v → v = 0)
  ∧ ∀ selection' v,
      (mxt_dd_cmd P fuel selection' stdin_frames uninit ns0 pps0 w).1.1
      = Returned v →
      v = 1 → selection' = "q"%char ∨ selection' = "Q"%char.
Proof.
  intros Hsel. cbn zeta.
  destruct (mxt_dd_cmd_dump P fuel selection mode stdin_frames uninit
              ns0 pps0 w Hsel) as (_ & _ & ->).
  split; [by intros v ->|]. split.
  - intros v.
    destruct (mxt_debug_dump P fuel mode stdin_frames uninit
                ns0 pps0 w).1.1; by intros [= <-].
  - intros selection' v Hcmd ->.
    destruct (selection_cases selection') as [[mode' Hsel']|Hout].
    + destruct (mxt_dd_cmd_dump P fuel selection' mode' stdin_frames uninit
                  ns0 pps0 w Hsel') as (_ & _ & Heq).
      rewrite Heq in Hcmd.
      by destruct (mxt_debug_dump P fuel mode' stdin_frames uninit
                     ns0 pps0 w).1.1.
    + destruct (mxt_dd_cmd_other P fuel selection' stdin_frames uninit
                  ns0 pps0 w Hout) as [_ Heq].
      rewrite Heq in Hcmd. case_bool_decide as Hq; [|by inversion Hcmd].
      rewrite !elem_of_cons in Hq. destruct Hq as [->|[->|Hnil]]; auto.
      by apply elem_of_nil in Hnil.
Qed.

Lemma menu_exits_only_on_quit_witness :
  (mxt_debug_dump no_objects 501 DELTAS_MODE 2 Sim.blank 0 0
     (Sim.start Sim.idle)).1.1 = Returned (-1)
  ∧ (mxt_dd_cmd no_objects 501 "d" 2 Sim.blank 0 0
       (Sim.start Sim.idle)).1.1 = Returned 0.
Proof.
  split; [vm_compute; reflexivity|].
  apply (menu_exits_only_on_quit no_objects 501 "d" DELTAS_MODE 2
           Sim.blank 0 0 (Sim.start Sim.idle)) with (v := -1).
  - left. split; [reflexivity|by left].
  - vm_compute. reflexivity.
Defined.
